(** * Visitor List Cleaner (US): a shallow embedding of [app.py]

    The development follows the layout of the script: text primitives
    (Python [str] operations and the two regular-expression classes the
    script uses), the field helpers ([split_name], [clean_gender],
    [fix_mobile]), the cleaning pipeline [clean_data_us], the workbook
    writer [generate_visitor_only_us] and the clearance-date estimator.

    Data model.
    - A Python [str] is a list of Unicode code points ([list N]).
    - [\d] / [\D] and [str.strip] / [\s] are the Unicode classes Python 3
      uses for [str] patterns: decimal digits (category Nd) and
      [str.isspace] white space.
    - Case mapping ([str.lower], [str.upper], [str.title]) is Unicode
      table data of the interpreter: the development is parametric in it
      (class [CaseTables]) and only asks that it agrees with the ASCII
      rules on ASCII text.
    - A table cell is missing (NaN), text, an integer or a finite float;
      dates and booleans are left out.
    - [Company Full Name] and [Full Name], the two supplied columns the
      sort compares, hold text or are missing.
    - A date is its ordinal, from 1 to that of 31 December 9999.
    - A call that raises has no result: [clean_data_us] returns an
      [option] (the ValueError of a frame without rows) and the
      clearance-date estimator an [outcome] (the OverflowError past the
      last day of the calendar). *)

From Stdlib Require Import ZArith NArith Ascii String Decimal.
From stdpp Require Import gmap list sorting.

Local Open Scope nat_scope.

(** ** Python strings *)

Module Py.

(** ASCII literals of the script, as code points. *)
Fixpoint lit (s : string) : list N :=
  match s with
  | EmptyString => []
  | String a r => N_of_ascii a :: lit r
  end.

(** First code point of each block of ten decimal digits (Unicode
    category Nd); the mathematical digits U+1D7CE..U+1D7FF form one block
    of fifty and are listed apart in [isdigit]. *)
Definition nd_blocks : list N :=
  [48; 1632; 1776; 1984; 2406; 2534; 2662; 2790; 2918; 3046; 3174; 3302;
   3430; 3558; 3664; 3792; 3872; 4160; 4240; 6112; 6160; 6470; 6608; 6784;
   6800; 6992; 7088; 7232; 7248; 42528; 43216; 43264; 43472; 43504; 43600;
   44016; 65296; 66720; 68912; 69734; 69872; 69942; 70096; 70384; 70736;
   70864; 71248; 71360; 71472; 71904; 72016; 72784; 73040; 73120; 92768;
   92864; 93008; 123200; 123632; 125264; 130032]%N.

(** The class [\d] of a [str] pattern. *)
Definition isdigit (c : N) : bool :=
  existsb (fun b => (b <=? c)%N && (c <? b + 10)%N) nd_blocks
  || ((120782 <=? c)%N && (c <=? 120831)%N).

(** The ten characters [0-9]. *)
Definition is_ascii_digit (c : N) : bool := (48 <=? c)%N && (c <=? 57)%N.

(** [str.isspace] on one character, which is also the class [\s]. *)
Definition isspace (c : N) : bool :=
  bool_decide (c ∈ [9; 10; 11; 12; 13; 28; 29; 30; 31; 32; 133; 160; 5760;
                    8192; 8193; 8194; 8195; 8196; 8197; 8198; 8199; 8200;
                    8201; 8202; 8232; 8233; 8239; 8287; 12288]%N).

(** [s.lstrip()], [s.rstrip()], [s.strip()]. *)
Fixpoint lstrip (s : list N) : list N :=
  match s with
  | c :: r => if isspace c then lstrip r else s
  | [] => []
  end.

Definition rstrip (s : list N) : list N := rev (lstrip (rev s)).

Definition strip (s : list N) : list N := rstrip (lstrip s).

(** [s.find(c)] for a one-character needle; [None] stands for -1. *)
Fixpoint find (c : N) (s : list N) : option nat :=
  match s with
  | [] => None
  | x :: r => if (x =? c)%N then Some 0 else S <$> find c r
  end.

(** [c in s] for a one-character needle. *)
Definition contains (c : N) (s : list N) : bool := existsb (N.eqb c) s.

(** [s.endswith(suffix)]. *)
Definition endswith (s suffix : list N) : bool :=
  (length suffix <=? length s)
  && bool_decide (drop (length s - length suffix) s = suffix).

(** [s[:-n]] and [s[-n:]] for a positive [n]. *)
Definition slice_drop_last (n : nat) (s : list N) : list N :=
  take (length s - n) s.

Definition slice_last (n : nat) (s : list N) : list N :=
  drop (length s - n) s.

(** [s.zfill(width)]: zeros go after a leading sign. *)
Definition zfill (width : nat) (s : list N) : list N :=
  if width <=? length s then s
  else
    let zeros := replicate (width - length s) 48%N in
    match s with
    | c :: r => if bool_decide (c = 43%N \/ c = 45%N)
                then c :: zeros ++ r else zeros ++ s
    | [] => zeros
    end.

(** [re.sub(r"\D", "", s)]. *)
Definition sub_nondigits (s : list N) : list N := List.filter isdigit s.

(** [str(n)] for an [int]. *)
Fixpoint of_uint (d : uint) : list N :=
  match d with
  | Nil => []
  | D0 r => 48%N :: of_uint r
  | D1 r => 49%N :: of_uint r
  | D2 r => 50%N :: of_uint r
  | D3 r => 51%N :: of_uint r
  | D4 r => 52%N :: of_uint r
  | D5 r => 53%N :: of_uint r
  | D6 r => 54%N :: of_uint r
  | D7 r => 55%N :: of_uint r
  | D8 r => 56%N :: of_uint r
  | D9 r => 57%N :: of_uint r
  end.

Definition str_of_int (z : Z) : list N :=
  match Z.to_int z with
  | Pos d => of_uint d
  | Neg d => 45%N :: of_uint d
  end.

End Py.

(** ** Cells *)

(** A value read from the sheet: a missing cell (NaN), text, an integer,
    or a finite float. The script reads a float only through [str(x)],
    so a float is carried as the text [str] gives for it (1234567890.0 as
    "1234567890.0"). *)
Inductive cell : Type :=
| CNaN
| CStr (s : list N)
| CInt (z : Z)
| CFloat (text : list N).

#[global] Instance cell_eq_dec : EqDecision cell.
Proof. solve_decision. Defined.

(** [str(x)]. *)
Definition str (x : cell) : list N :=
  match x with
  | CNaN => Py.lit "nan"
  | CStr s => s
  | CInt z => Py.str_of_int z
  | CFloat text => text
  end.

(** [pd.isna(x)]. *)
Definition isna (x : cell) : bool :=
  match x with CNaN => true | _ => false end.

(** ** Helper functions of the script *)

(** [split_name]: the pair of First Name and Middle and Last Name. *)
Definition split_name (full_name : cell) : list N * list N :=
  let s := Py.strip (str full_name) in
  if Py.contains 32%N s then
    match Py.find 32%N s with
    | Some i => (take i s, drop (i + 1) s)
    | None => (s, [])
    end
  else (s, []).

(** [fix_mobile]. *)
Definition fix_mobile (x : cell) : list N :=
  let d := Py.sub_nondigits (str x) in
  let d :=
    if 10 <? length d then
      let extra := length d - 10 in
      if Py.endswith d (replicate extra 48%N)
      then Py.slice_drop_last extra d
      else Py.slice_last 10 d
    else d in
  let d := if length d <? 10 then Py.zfill 10 d else d in
  d.


(** ** Case tables *)

Module Ascii7.

Definition is_upper (c : N) : bool := (65 <=? c)%N && (c <=? 90)%N.
Definition is_lower (c : N) : bool := (97 <=? c)%N && (c <=? 122)%N.
Definition is_cased (c : N) : bool := is_upper c || is_lower c.

Definition to_lower (c : N) : N := if is_upper c then (c + 32)%N else c.
Definition to_upper (c : N) : N := if is_lower c then (c - 32)%N else c.

Definition lower (s : list N) : list N := to_lower <$> s.
Definition upper (s : list N) : list N := to_upper <$> s.

(** [str.title]: a character that follows a cased one is lowered, any
    other is put in title case. *)
Fixpoint title_from (previous_is_cased : bool) (s : list N) : list N :=
  match s with
  | [] => []
  | c :: r =>
      (if previous_is_cased then to_lower c else to_upper c)
        :: title_from (is_cased c) r
  end.

Definition title (s : list N) : list N := title_from false s.

Definition is_ascii (s : list N) : Prop := Forall (fun c => (c < 128)%N) s.

End Ascii7.

(** The interpreter's [str.lower], [str.upper] and [str.title]. On ASCII
    text they are the functions of [Ascii7]; nothing is asked of them on
    other text. *)
Class CaseTables := {
  lower : list N -> list N;
  upper : list N -> list N;
  title : list N -> list N;
  lower_ascii : forall s, Ascii7.is_ascii s -> lower s = Ascii7.lower s;
  upper_ascii : forall s, Ascii7.is_ascii s -> upper s = Ascii7.upper s;
  title_ascii : forall s, Ascii7.is_ascii s -> title s = Ascii7.title s;
}.

#[global] Instance ascii_tables : CaseTables :=
  {| lower := Ascii7.lower; upper := Ascii7.upper; title := Ascii7.title;
     lower_ascii := fun _ _ => eq_refl;
     upper_ascii := fun _ _ => eq_refl;
     title_ascii := fun _ _ => eq_refl |}.

Section Helpers.
Context `{CaseTables}.

(** [clean_gender]. *)
Definition clean_gender (g : cell) : list N :=
  let v := upper (Py.strip (str g)) in
  if bool_decide (v = Py.lit "M") then Py.lit "Male"
  else if bool_decide (v = Py.lit "F") then Py.lit "Female"
  else if bool_decide (v = Py.lit "MALE" \/ v = Py.lit "FEMALE") then title v
  else title v.

End Helpers.

(** ** The visitor table *)

(** One row of the frame after the eleven canonical column names have
    been assigned. The two name columns the sort reads hold text or are
    missing ([None] is NaN); the other columns hold any cell. *)
Record row := Row {
  sn : cell;                        (* S/N *)
  plate : cell;                     (* Vehicle Plate Number *)
  company : option (list N);        (* Company Full Name *)
  full_name : option (list N);      (* Full Name *)
  first_name : cell;                (* First Name *)
  middle_last : cell;               (* Middle and Last Name *)
  dl : cell;                        (* Driver License Number *)
  nationality : cell;               (* Nationality (Country Name) *)
  gender : cell;                    (* Gender *)
  mobile : cell;                    (* Mobile Number *)
  remarks : cell;                   (* Remarks *)
}.

(** A row as read from the sheet: the first eleven columns and whatever
    columns follow them. *)
Record raw_row := RawRow {
  cols : row;
  extra : list cell;
}.

(** A text-or-missing value as a cell. *)
Definition name_cell (n : option (list N)) : cell :=
  match n with Some s => CStr s | None => CNaN end.

Definition set_sn (v : cell) (r : row) : row :=
  Row v (plate r) (company r) (full_name r) (first_name r) (middle_last r)
      (dl r) (nationality r) (gender r) (mobile r) (remarks r).

Definition set_plate (v : cell) (r : row) : row :=
  Row (sn r) v (company r) (full_name r) (first_name r) (middle_last r)
      (dl r) (nationality r) (gender r) (mobile r) (remarks r).

Definition set_full_name (v : option (list N)) (r : row) : row :=
  Row (sn r) (plate r) (company r) v (first_name r) (middle_last r)
      (dl r) (nationality r) (gender r) (mobile r) (remarks r).

Definition set_names (v : cell * cell) (r : row) : row :=
  Row (sn r) (plate r) (company r) (full_name r) (fst v) (snd v)
      (dl r) (nationality r) (gender r) (mobile r) (remarks r).

Definition set_dl (v : cell) (r : row) : row :=
  Row (sn r) (plate r) (company r) (full_name r) (first_name r) (middle_last r)
      v (nationality r) (gender r) (mobile r) (remarks r).

Definition set_nationality (v : cell) (r : row) : row :=
  Row (sn r) (plate r) (company r) (full_name r) (first_name r) (middle_last r)
      (dl r) v (gender r) (mobile r) (remarks r).

Definition set_gender (v : cell) (r : row) : row :=
  Row (sn r) (plate r) (company r) (full_name r) (first_name r) (middle_last r)
      (dl r) (nationality r) v (mobile r) (remarks r).

Definition set_mobile (v : cell) (r : row) : row :=
  Row (sn r) (plate r) (company r) (full_name r) (first_name r) (middle_last r)
      (dl r) (nationality r) (gender r) v (remarks r).

(** *** Step 2: [dropna(subset=df.columns[3:10], how="all")] *)

(** The seven cells of Full Name .. Mobile Number. *)
Definition checked_cells (r : row) : list cell :=
  [name_cell (full_name r); first_name r; middle_last r; dl r;
   nationality r; gender r; mobile r].

Definition all_blank (r : row) : bool := forallb isna (checked_cells r).

Definition dropna_all (df : list row) : list row :=
  List.filter (fun r => negb (all_blank r)) df.

(** *** Step 3: nationality *)

Definition nat_map : list (list N * list N) :=
  [ (Py.lit "chinese", Py.lit "China");
    (Py.lit "singaporean", Py.lit "Singapore");
    (Py.lit "malaysian", Py.lit "Malaysia");
    (Py.lit "indian", Py.lit "India");
    (Py.lit "usa", Py.lit "United States");
    (Py.lit "us", Py.lit "United States") ].

(** [Series.replace(mapping, regex=False)] on one value: a value equal to
    a key becomes that key's entry. *)
Fixpoint replace_map (m : list (list N * list N)) (v : list N) : list N :=
  match m with
  | [] => v
  | (k, w) :: m' => if bool_decide (v = k) then w else replace_map m' v
  end.

Section Cleaning.
Context `{CaseTables}.

Definition normalize_nationality (n : cell) : list N :=
  title (replace_map nat_map (lower (Py.strip (str n)))).

(** *** Step 4: [sort_values] on three columns *)

(** Python's order on [str]: code point by code point, a proper prefix
    first. *)
Fixpoint str_compare (a b : list N) : comparison :=
  match a, b with
  | [], [] => Eq
  | [], _ :: _ => Lt
  | _ :: _, [] => Gt
  | x :: a', y :: b' =>
      match (x ?= y)%N with
      | Eq => str_compare a' b'
      | c => c
      end
  end.

(** One sort column, ascending, missing values last. *)
Definition key_compare (a b : option (list N)) : comparison :=
  match a, b with
  | Some x, Some y => str_compare x y
  | Some _, None => Lt
  | None, Some _ => Gt
  | None, None => Eq
  end.

(** The Nationality column as a sort column (step 3 has left text in
    every row, so the other cases do not arise in the pipeline). *)
Definition text_key (c : cell) : option (list N) :=
  match c with
  | CStr s => Some s
  | CNaN => None
  | CInt _ | CFloat _ => None
  end.

Definition sort_key (r : row) : option (list N) * option (list N) * option (list N) :=
  (company r, text_key (nationality r), full_name r).

Definition row_compare (a b : row) : comparison :=
  match key_compare (company a) (company b) with
  | Eq =>
      match key_compare (text_key (nationality a)) (text_key (nationality b)) with
      | Eq => key_compare (full_name a) (full_name b)
      | c => c
      end
  | c => c
  end.

Definition row_le (a b : row) : bool :=
  match row_compare a b with Gt => false | _ => true end.

(** A row is put before the first row of an ordered frame that is not
    below it. *)
Fixpoint insert_row (x : row) (l : list row) : list row :=
  match l with
  | [] => [x]
  | y :: l' => if row_le x y then x :: l else y :: insert_row x l'
  end.

(** The frame in key order; rows with equal keys stay in input order. *)
Fixpoint sort_values (df : list row) : list row :=
  match df with
  | [] => []
  | x :: l => insert_row x (sort_values l)
  end.

(** *** Step 5: [df["S/N"] = range(1, len(df) + 1)] *)

Definition reset_sn (df : list row) : list row :=
  imap (fun i r => set_sn (CInt (Z.of_nat (i + 1))) r) df.

(** *** Step 6: vehicle plates *)

(** [re.sub(r"[\/,]", ";", s)]. *)
Definition sub_separators (s : list N) : list N :=
  (fun c => if bool_decide (c = 47%N \/ c = 44%N) then 59%N else c) <$> s.

(** [re.sub(r"\s*;\s*", ";", s)]: white space held back in [pending] is
    dropped when a semicolon follows it and kept otherwise; white space
    right after a semicolon is dropped. *)
Fixpoint sub_spaced_semicolons (after_semicolon : bool) (pending s : list N)
  : list N :=
  match s with
  | [] => pending
  | c :: r =>
      if (c =? 59)%N then 59%N :: sub_spaced_semicolons true [] r
      else if Py.isspace c then
        if after_semicolon then sub_spaced_semicolons true [] r
        else sub_spaced_semicolons false (pending ++ [c]) r
      else pending ++ c :: sub_spaced_semicolons false [] r
  end.

Definition normalize_plate (p : cell) : list N :=
  let s := Py.strip (sub_spaced_semicolons false [] (sub_separators (str p))) in
  if bool_decide (s = Py.lit "nan") then [] else s.

(** *** Step 10: driver license *)

(** [re.sub(r"\.0$", "", s)]: [$] stands at the end of the text and also
    before a final line feed. *)
Definition sub_dot_zero (s : list N) : list N :=
  if Py.endswith s [46; 48]%N then Py.slice_drop_last 2 s
  else if Py.endswith s [46; 48; 10]%N then Py.slice_drop_last 3 s ++ [10%N]
  else s.

(** [fillna("")] on one value. *)
Definition fillna_empty (c : cell) : cell :=
  if isna c then CStr [] else c.

Definition clean_driver_license (d : cell) : list N :=
  Py.slice_last 4 (Py.sub_nondigits (sub_dot_zero (str (fillna_empty d)))).

(** *** The pipeline *)

(** Steps 6 to 10 act on each row by itself. *)
Definition clean_fields (r : row) : row :=
  let r := set_plate (CStr (normalize_plate (plate r))) r in
  let r := set_full_name (Some (title (str (name_cell (full_name r))))) r in
  let parts := split_name (name_cell (full_name r)) in
  let r := set_names (CStr (fst parts), CStr (snd parts)) r in
  let r := set_mobile (CStr (fix_mobile (mobile r))) r in
  let r := set_gender (CStr (clean_gender (gender r))) r in
  let r := set_dl (CStr (clean_driver_license (dl r))) r in
  r.

(** The frame that steps 1 to 10 build out of an upload. The frame is the
    list of its rows; the steps that act on a column act on every row. *)
Definition clean_frame (df : list raw_row) : list row :=
  (* 1) first eleven columns *)
  let df := cols <$> df in
  (* 2) drop rows where all of Full Name .. Mobile are blank *)
  let df := dropna_all df in
  (* 3) normalize nationality *)
  let df :=
    (fun r => set_nationality (CStr (normalize_nationality (nationality r))) r)
      <$> df in
  (* 4) sort by Company, Country, Full Name *)
  let df := sort_values df in
  (* 5) reset S/N *)
  let df := reset_sn df in
  (* 6) .. 10) plate, names, mobile, gender, driver license *)
  clean_fields <$> df.

(** [clean_data_us]. Steps 1 to 6 pass on a frame without rows; the
    two-column assignment of step 7 does not: [apply] hands back an empty
    Series where two columns are expected and the assignment raises
    ValueError. [None] is that exception; with a row left the function
    returns the frame. *)
Definition clean_data_us (df : list raw_row) : option (list row) :=
  (* 1) first eleven columns *)
  let df := cols <$> df in
  (* 2) drop rows where all of Full Name .. Mobile are blank *)
  let df := dropna_all df in
  (* 3) normalize nationality *)
  let df :=
    (fun r => set_nationality (CStr (normalize_nationality (nationality r))) r)
      <$> df in
  (* 4) sort by Company, Country, Full Name *)
  let df := sort_values df in
  (* 5) reset S/N *)
  let df := reset_sn df in
  (* 6) .. 10) plate, names, mobile, gender, driver license *)
  match df with
  | [] => None
  | _ :: _ => Some (clean_fields <$> df)
  end.

End Cleaning.

(** ** The workbook *)

(** Of a cell's style only the fill is kept: borders, alignment, fonts,
    column widths and row heights take no part in any decision. *)
Inductive fill : Type := NoFill | HeaderFill | InvalidFill.

#[global] Instance fill_eq_dec : EqDecision fill.
Proof. solve_decision. Defined.

(** A worksheet cell; [None] is the value of an empty cell. *)
Record xcell := XCell {
  value : option cell;
  cell_fill : fill;
}.

(** A worksheet: its cells by (row, column), both counted from 1, and
    the row of the last [append]. *)
Record worksheet := Worksheet {
  cells : gmap (nat * nat) xcell;
  current_row : nat;
}.

(** A workbook: its sheets by title, in order. *)
Definition workbook := list (list N * worksheet).

Definition blank : xcell := XCell None NoFill.

Definition empty_sheet : worksheet := Worksheet ∅ 0.

Definition cell_rows (ws : worksheet) : list nat :=
  (fun kv => fst (fst kv)) <$> map_to_list (cells ws).

Definition cell_columns (ws : worksheet) : list nat :=
  (fun kv => snd (fst kv)) <$> map_to_list (cells ws).

(** [ws.max_row] and [ws.max_column]: 1 for a sheet without cells. *)
Definition max_row (ws : worksheet) : nat :=
  match cell_rows ws with [] => 1 | rows => max_list rows end.

Definition max_column (ws : worksheet) : nat :=
  match cell_columns ws with [] => 1 | columns => max_list columns end.

(** [ws.cell(row, column)]: the cell, made empty when absent. *)
Definition ws_cell (r c : nat) (ws : worksheet) : xcell :=
  default blank (cells ws !! (r, c)).

Definition set_cell (r c : nat) (x : xcell) (ws : worksheet) : worksheet :=
  Worksheet (<[(r, c) := x]> (cells ws)) (current_row ws).

(** [ws.cell(r, c).fill = f] and [ws.cell(r, c).value = v]. *)
Definition set_fill (r c : nat) (f : fill) (ws : worksheet) : worksheet :=
  set_cell r c (XCell (value (ws_cell r c ws)) f) ws.

Definition set_value (r c : nat) (v : cell) (ws : worksheet) : worksheet :=
  set_cell r c (XCell (Some v) (cell_fill (ws_cell r c ws))) ws.

(** [ws.delete_rows(1, ws.max_row)]: every cell lies in the rows
    1 .. [max_row], so none is left, none moves up, and the next
    [append] starts again at row 1. *)
Definition delete_all_rows (ws : worksheet) : worksheet := Worksheet ∅ 0.

(** One row of values written from column [c] on. *)
Fixpoint write_row (r c : nat) (vals : list cell)
    (m : gmap (nat * nat) xcell) : gmap (nat * nat) xcell :=
  match vals with
  | [] => m
  | v :: vs => write_row r (S c) vs (<[(r, c) := XCell (Some v) NoFill]> m)
  end.

(** [ws.append(vals)]. *)
Definition append (ws : worksheet) (vals : list cell) : worksheet :=
  let r := S (current_row ws) in
  Worksheet (write_row r 1 vals (cells ws)) r.

(** [wb.sheetnames], [wb[name]], [wb.create_sheet(name)]. *)
Definition sheetnames (wb : workbook) : list (list N) := fst <$> wb.

Fixpoint get_sheet (name : list N) (wb : workbook) : option worksheet :=
  match wb with
  | [] => None
  | (n, ws) :: wb' => if bool_decide (n = name) then Some ws else get_sheet name wb'
  end.

(** The sheet [wb[name]] replaced by [ws]. *)
Fixpoint put_sheet (name : list N) (ws : worksheet) (wb : workbook) : workbook :=
  match wb with
  | [] => []
  | (n, old) :: wb' =>
      if bool_decide (n = name) then (n, ws) :: wb'
      else (n, old) :: put_sheet name ws wb'
  end.

Definition create_sheet (name : list N) (wb : workbook) : workbook :=
  wb ++ [(name, empty_sheet)].

(** ** The writer *)

Definition header : list cell :=
  CStr <$> [ Py.lit "S/N"; Py.lit "Vehicle Plate Number";
             Py.lit "Company Full Name"; Py.lit "Full Name";
             Py.lit "First Name"; Py.lit "Middle and Last Name";
             Py.lit "Driver License Number";
             Py.lit "Nationality (Country Name)"; Py.lit "Gender";
             Py.lit "Mobile Number"; Py.lit "Remarks" ].

(** The values of one frame row, as [dataframe_to_rows] yields them. *)
Definition row_values (r : row) : list cell :=
  [sn r; plate r; name_cell (company r); name_cell (full_name r);
   first_name r; middle_last r; dl r; nationality r; gender r; mobile r;
   remarks r].

(** [re.compile(r"^\d{4}$").match(v)]: four digits, then the end of the
    text or a line feed that ends it. *)
Definition dl_pattern_match (v : list N) : bool :=
  match v with
  | [a; b; c; d] => forallb Py.isdigit [a; b; c; d]
  | [a; b; c; d; e] => forallb Py.isdigit [a; b; c; d] && (e =? 10)%N
  | _ => false
  end.

(** Step 5 of the writer, one row: the text tested in column G. *)
Definition dl_text (v : option cell) : list N :=
  match v with
  | Some x => Py.strip (str x)
  | None => []
  end.

(** Step 6 of the writer, one row: the text tested in column F. *)
Definition name_text (v : option cell) : list N :=
  match v with
  | None => []
  | Some (CStr []) => []
  | Some x => Py.strip (str x)
  end.

Definition dl_col_idx : nat := 7.
Definition col_f_idx : nat := 6.

Definition highlight_dl (st : worksheet * bool) (r : nat) : worksheet * bool :=
  let '(ws, has_errors) := st in
  let v := dl_text (value (ws_cell r dl_col_idx ws)) in
  if negb (dl_pattern_match v)
  then (set_fill r dl_col_idx InvalidFill ws, true)
  else (ws, has_errors).

Definition highlight_name (st : worksheet * bool) (r : nat) : worksheet * bool :=
  let '(ws, has_errors) := st in
  let v := name_text (value (ws_cell r col_f_idx ws)) in
  if bool_decide (v = [])
  then (set_fill r col_f_idx InvalidFill ws, true)
  else (ws, has_errors).

(** [range(a, b)]. *)
Definition range (a b : nat) : list nat := seq a (b - a).

(** [s.split(sep)] and [sep.join(parts)] for a one-character [sep]. *)
Fixpoint split (sep : N) (s : list N) : list (list N) :=
  match s with
  | [] => [[]]
  | c :: r =>
      if (c =? sep)%N then [] :: split sep r
      else match split sep r with
           | h :: t => (c :: h) :: t
           | [] => [[c]]
           end
  end.

Fixpoint join (sep : N) (parts : list (list N)) : list N :=
  match parts with
  | [] => []
  | [p] => p
  | p :: ps => p ++ sep :: join sep ps
  end.

(** [sorted(set(xs))]. *)
Fixpoint insert_unique (x : list N) (l : list (list N)) : list (list N) :=
  match l with
  | [] => [x]
  | y :: l' =>
      match str_compare x y with
      | Lt => x :: l
      | Eq => l
      | Gt => y :: insert_unique x l'
      end
  end.

Definition sorted_set (xs : list (list N)) : list (list N) :=
  foldr insert_unique [] xs.

(** The plate tokens of the frame (step 7 of the writer). *)
Definition plate_tokens (df : list row) : list (list N) :=
  flat_map
    (fun r =>
       if isna (plate r) then []
       else List.filter (fun x => negb (bool_decide (x = [])))
                        (Py.strip <$> split 59%N (str (plate r))))
    df.

Definition notna_count (df : list row) : nat :=
  length (List.filter (fun r => negb (isna (name_cell (company r)))) df).

Definition visitor_list : list N := Py.lit "Visitor List".

(** The Visitor List sheet as written onto the sheet [ws0], and the
    error flag. *)
Definition write_visitor_list (df : list row) (ws0 : worksheet)
  : worksheet * bool :=
  (* header and data rows *)
  let ws := foldl append ws0 (header :: (row_values <$> df)) in
  (* 2) header row *)
  let ws := foldl (fun w col => set_fill 1 col HeaderFill w) ws
                  (range 1 (max_column ws + 1)) in
  (* 5) invalid Driver License Number (column G) *)
  let st := foldl highlight_dl (ws, false) (range 2 (max_row ws + 1)) in
  (* 6) blank cells in column F *)
  let st := foldl highlight_name st (range 2 (max_row (fst st) + 1)) in
  let '(ws, has_errors) := st in
  (* 7) vehicles summary *)
  let plates := plate_tokens df in
  let ins := max_row ws + 2 in
  let '(ws, ins) :=
    match plates with
    | [] => (ws, ins)
    | _ =>
        let ws := set_value ins 2 (CStr (Py.lit "Vehicles")) ws in
        let ws := set_value (ins + 1) 2 (CStr (join 59%N (sorted_set plates))) ws in
        (ws, ins + 2)
    end in
  (* 8) total visitors *)
  let ws := set_value ins 2 (CStr (Py.lit "Total Visitors")) ws in
  let ws := set_value (ins + 1) 2 (CInt (Z.of_nat (notna_count df))) ws in
  (ws, has_errors).

(** [generate_visitor_only_us]: [wb] is the uploaded workbook as loaded;
    the result is the workbook that is saved, with the error flag. *)
Definition generate_visitor_only_us (df : list row) (wb : workbook)
  : workbook * bool :=
  let '(wb, ws) :=
    if bool_decide (visitor_list ∈ sheetnames wb) then
      (wb, delete_all_rows (default empty_sheet (get_sheet visitor_list wb)))
    else
      (create_sheet visitor_list wb, empty_sheet) in
  let '(ws, has_errors) := write_visitor_list df ws in
  (put_sheet visitor_list ws wb, has_errors).

(** ** Earliest clearance date *)

Module Clearance.

Local Open Scope Z_scope.

(** A [date] is its proleptic Gregorian ordinal (day 1 is Monday
    1 January of year 1), so that adding a [timedelta] of days is
    addition. A [datetime] is a date and a time of day. *)
Record datetime := DateTime {
  date : Z;
  seconds : Z;
}.

(** [date.max.toordinal()]: 31 December 9999, a Friday. *)
Definition date_max : Z := 3652059.

(** The dates of the calendar. *)
Definition is_date (d : Z) : Prop := 1 <= d <= date_max.

(** What a call comes to: a date returned, or the OverflowError of a date
    past [date_max]. [Unfinished] is a loop of the model stopped at the
    number of iterations allowed. *)
Inductive outcome : Type :=
  | Returns (d : Z)
  | OverflowError
  | Unfinished.

(** [d.weekday()]: Monday is 0, Sunday is 6. *)
Definition weekday (d : Z) : Z := (d + 6) mod 7.

(** [d + timedelta(days=1)]; [None] is the OverflowError. *)
Definition plus_one_day (d : Z) : option Z :=
  if d + 1 <=? date_max then Some (d + 1) else None.

(** The loop of [next_working_day]; [None] when the iterations allowed
    run out. The last day of the calendar is a Friday, so from a date of
    the calendar the loop stops on a date of the calendar and the day
    after the last one is never asked for. *)
Fixpoint next_working_day_loop (fuel : nat) (d : Z) : option Z :=
  match fuel with
  | O => None
  | S fuel =>
      if 5 <=? weekday d then next_working_day_loop fuel (d + 1)
      else Some d
  end.

Definition next_working_day (d : Z) : option Z :=
  next_working_day_loop 3 d.

(** The counting loop of [earliest_clearance_inclusive]. *)
Fixpoint count_loop (fuel : nat) (workdays counted d : Z) : outcome :=
  match fuel with
  | O => Unfinished
  | S fuel =>
      if counted <? workdays then
        match plus_one_day d with
        | Some d =>
            let counted := if weekday d <? 5 then counted + 1 else counted in
            count_loop fuel workdays counted d
        | None => OverflowError
        end
      else Returns d
  end.

Definition earliest_clearance_inclusive (submit_dt : datetime) (workdays : Z)
  : outcome :=
  match next_working_day (date submit_dt) with
  | None => Unfinished
  | Some d =>
      match count_loop (3 * Z.to_nat workdays + 1) workdays 1 d with
      | Returns d =>
          match plus_one_day d with
          | Some clearance =>
              match next_working_day clearance with
              | Some clearance => Returns clearance
              | None => Unfinished
              end
          | None => OverflowError
          end
      | failed => failed
      end
  end.

(** The call without the second argument. *)
Definition earliest_clearance_default (submit_dt : datetime) : outcome :=
  earliest_clearance_inclusive submit_dt 2.

(** The same counting on a calendar without a last day: the date that the
    business rule names, whether or not the calendar has it. *)
Fixpoint endless_count_loop (fuel : nat) (workdays counted d : Z) : option Z :=
  match fuel with
  | O => None
  | S fuel =>
      if counted <? workdays then
        let d := d + 1 in
        let counted := if weekday d <? 5 then counted + 1 else counted in
        endless_count_loop fuel workdays counted d
      else Some d
  end.

Definition endless_clearance (submit_dt : datetime) (workdays : Z)
  : option Z :=
  d ← next_working_day (date submit_dt);
  d ← endless_count_loop (3 * Z.to_nat workdays + 1) workdays 1 d;
  let clearance := d + 1 in
  next_working_day clearance.

(** Words of the business rule. *)
Definition is_weekday (d : Z) : Prop := weekday d < 5.

(** [d] is the first weekday on or after [a]. *)
Definition first_weekday_from (a d : Z) : Prop :=
  a <= d /\ is_weekday d /\ forall x, a <= x < d -> ~ is_weekday x.

(** The number of weekdays among the [n] days that start at [a]. *)
Fixpoint weekdays_in (n : nat) (a : Z) : Z :=
  match n with
  | O => 0
  | S n => (if weekday a <? 5 then 1 else 0) + weekdays_in n (a + 1)
  end.

(** The number of weekdays from [a] to [b], both included. *)
Definition weekdays_between (a b : Z) : Z :=
  weekdays_in (Z.to_nat (b - a + 1)) a.

End Clearance.

(** ** Words of the specification used in the statements *)

(** Exactly four digit characters. *)
Definition four_digits (s : list N) : Prop :=
  length s = 4 /\ Forall (fun c => Py.isdigit c = true) s.

(** Digit characters only. *)
Definition all_digits (s : list N) : Prop :=
  Forall (fun c => Py.isdigit c = true) s.

(** Only the characters [0-9]. *)
Definition all_ascii_digits (s : list N) : Prop :=
  Forall (fun c => Py.is_ascii_digit c = true) s.

(** The name split as the specification words it: at the first white
    space character of the trimmed text. *)
Fixpoint find_whitespace (s : list N) : option nat :=
  match s with
  | [] => None
  | c :: r => if Py.isspace c then Some 0 else S <$> find_whitespace r
  end.

Definition split_at_whitespace (full_name : cell) : list N * list N :=
  let s := Py.strip (str full_name) in
  match find_whitespace s with
  | Some i => (take i s, drop (i + 1) s)
  | None => (s, [])
  end.

(** The frame on which [sort_values] runs in [clean_data_us]: blank rows
    dropped and nationality normalized, names as supplied. *)
Definition frame_before_sort `{CaseTables} (df : list raw_row) : list row :=
  (fun r => set_nationality (CStr (normalize_nationality (nationality r))) r)
    <$> dropna_all (cols <$> df).

(** Two rows agree on the three sort columns. *)
Definition same_keys (a b : row) : bool :=
  match row_compare a b with Eq => true | _ => false end.

(** [a] is below [b] in code point order: at the first position where
    they differ [a] has the smaller code point, or [a] is a proper prefix
    of [b]. *)
Definition str_lt (a b : list N) : Prop :=
  (exists c t, b = a ++ c :: t)
  \/ (exists p x y ta tb, a = p ++ x :: ta /\ b = p ++ y :: tb /\ (x < y)%N).

(** A three-way comparison that orders its arguments: turning the
    arguments round turns the result round, "below" is transitive, and
    arguments that compare equal compare alike with every third. *)
Record ordering {A : Type} (cmp : A -> A -> comparison) : Prop := Ordering {
  cmp_opp : forall a b, cmp b a = CompOpp (cmp a b);
  cmp_trans : forall a b c, cmp a b = Lt -> cmp b c = Lt -> cmp a c = Lt;
  cmp_eq_l : forall a b c, cmp a b = Eq -> cmp a c = cmp b c;
}.

(** One sort column in the words of the specification: [a] stands
    before [b] when both hold text and [a] is below [b] in code point
    order, and when [a] holds text and [b] is missing. *)
Definition column_lt (a b : option (list N)) : Prop :=
  match a, b with
  | Some x, Some y => str_lt x y
  | Some _, None => True
  | None, _ => False
  end.

Definition column_le (a b : option (list N)) : Prop := column_lt a b \/ a = b.

(** Two rows with text in Nationality stand in the order of the sort:
    Company Full Name decides, then the Nationality text, then Full
    Name. *)
Definition sorted_before (a b : row) : Prop :=
  exists na nb,
    nationality a = CStr na /\ nationality b = CStr nb
    /\ (column_lt (company a) (company b)
        \/ (company a = company b
            /\ (str_lt na nb
                \/ (na = nb /\ column_le (full_name a) (full_name b))))).

(** The same on the first two columns alone. *)
Definition grouped_before (a b : row) : Prop :=
  exists na nb,
    nationality a = CStr na /\ nationality b = CStr nb
    /\ (column_lt (company a) (company b)
        \/ (company a = company b /\ (str_lt na nb \/ na = nb))).

(** One of the seven columns Full Name .. Mobile Number holds a value. *)
Definition some_checked_value (r : row) : Prop :=
  full_name r <> None \/ first_name r <> CNaN \/ middle_last r <> CNaN
  \/ dl r <> CNaN \/ nationality r <> CNaN \/ gender r <> CNaN
  \/ mobile r <> CNaN.

(** All seven are missing. *)
Definition all_checked_missing (r : row) : Prop :=
  full_name r = None /\ first_name r = CNaN /\ middle_last r = CNaN
  /\ dl r = CNaN /\ nationality r = CNaN /\ gender r = CNaN
  /\ mobile r = CNaN.

(** Row [a] does not come after row [b] in key order. *)
Definition keys_le (a b : row) : Prop := row_compare a b <> Gt.

(** Step 3 on one row. *)
Definition with_nationality `{CaseTables} (r : row) : row :=
  set_nationality (CStr (normalize_nationality (nationality r))) r.

(** The output row number [i] (counted from 0) made from the row [r] of
    the sorted frame: steps 5 to 10. *)
Definition finish_row `{CaseTables} (i : nat) (r : row) : row :=
  clean_fields (set_sn (CInt (Z.of_nat (i + 1))) r).

(** The two highlighting loops have one shape: a test on the value of
    the cell in a fixed column. *)
Definition highlight (col : nat) (test : option cell -> bool)
    (st : worksheet * bool) (r : nat) : worksheet * bool :=
  if test (value (ws_cell r col (fst st)))
  then (set_fill r col InvalidFill (fst st), true)
  else st.

Definition dl_test (v : option cell) : bool := negb (dl_pattern_match (dl_text v)).

Definition name_test (v : option cell) : bool := bool_decide (name_text v = []).

(** The rows written by [append]: the header and one row per frame row. *)
Definition written_rows (df : list row) : list (list cell) :=
  header :: (row_values <$> df).

(** The value written at (row, column), when one is. *)
Definition written_value (rows : list (list cell)) (r c : nat) : option cell :=
  if bool_decide (1 <= r /\ 1 <= c) then rows !! (r - 1) ≫= (.!! (c - 1)) else None.

(** A cell of the sheet carries the invalid fill. *)
Definition flagged (ws : worksheet) (r c : nat) : Prop :=
  exists x, cells ws !! (r, c) = Some x /\ cell_fill x = InvalidFill.

(** ** A small upload used in the examples *)

Definition beta_row : row :=
  Row (CInt 7) (CStr (Py.lit "abc / d , e")) (Some (Py.lit "Beta Ltd"))
      (Some (Py.lit "john michael smith")) CNaN CNaN (CStr (Py.lit "A1-23.0"))
      (CStr (Py.lit " US ")) (CStr (Py.lit "m")) (CInt 12345678900) CNaN.

(** No Full Name, but license, nationality, gender and mobile. *)
Definition alpha_row : row :=
  Row (CInt 3) CNaN (Some (Py.lit "Alpha")) None CNaN CNaN
      (CInt 998877665544) (CStr (Py.lit "chinese")) (CStr (Py.lit "female"))
      (CStr (Py.lit "+1 (555) 010-9999")) CNaN.

(** Only S/N, company and remarks. *)
Definition remarks_only_row : row :=
  Row (CInt 9) CNaN (Some (Py.lit "Alpha")) None CNaN CNaN CNaN CNaN CNaN CNaN
      (CStr (Py.lit "see note")).

Definition sample_upload : list raw_row :=
  [ RawRow beta_row []; RawRow alpha_row [CStr (Py.lit "twelfth column")];
    RawRow remarks_only_row [] ].

(** An upload with nothing to correct: four-digit licenses and names of
    more than one word. *)
Definition tidy_upload : list raw_row :=
  [ RawRow (Row (CInt 1) (CStr (Py.lit "ABC123")) (Some (Py.lit "Beta Ltd"))
                (Some (Py.lit "Jane Doe")) CNaN CNaN (CInt 4821)
                (CStr (Py.lit "us")) (CStr (Py.lit "F")) (CFloat (Py.lit "5550101234.0"))
                CNaN) [];
    RawRow (Row (CInt 2) CNaN (Some (Py.lit "Alpha"))
                (Some (Py.lit "li wei")) CNaN CNaN (CStr (Py.lit "D-0099-7734"))
                (CStr (Py.lit "Chinese")) (CStr (Py.lit "male")) (CInt 5550105678)
                (CStr (Py.lit "escort needed"))) [] ].

(** A mobile number typed with the Arabic-Indic digits U+0660..U+0669. *)
Definition arabic_indic_row : row :=
  Row (CInt 1) CNaN (Some (Py.lit "Gamma")) (Some (Py.lit "Omar Said")) CNaN CNaN
      (CStr (Py.lit "1234")) (CStr (Py.lit "Egypt")) (CStr (Py.lit "M"))
      (CStr [1632; 1633; 1634; 1635; 1636; 1637; 1638; 1639; 1640; 1641]%N) CNaN.

(** ** The upload handler *)

(** The text before the date in the name of the download, from the
    third cell of the first row as uploaded. *)
Definition company_label (first : raw_row) : list N :=
  let company_cell := name_cell (company (cols first)) in
  if negb (isna company_cell)
     && negb (bool_decide (Py.strip (str company_cell) = []))
  then Py.strip (str company_cell)
  else Py.lit "VisitorList".

(** What the page does with an upload: [raw_df] is the frame as read
    from the Visitor List sheet of the workbook [wb] and [today_eastern]
    the text of the date, [%Y%m%d]. The frame is cleaned and the workbook
    written before the name is put together, so an exception of
    [clean_data_us] ends the run with neither; [raw_df.iloc[0, 2]] is
    reached with a row in the frame only. *)
Definition handle_upload `{CaseTables} (raw_df : list raw_row) (wb : workbook)
    (today_eastern : list N) : option (workbook * bool * list N) :=
  cleaned ← clean_data_us raw_df;
  let '(out_buf, has_errors) := generate_visitor_only_us cleaned wb in
  first ← head raw_df;
  let company := company_label first in
  let fname := company ++ Py.lit "_" ++ today_eastern ++ Py.lit ".xlsx" in
  Some (out_buf, has_errors, fname).

(** [write_visitor_list] on an empty sheet, in three stages: the rows
    written and the header styled, the two highlighting loops, the
    summary below the grid. *)
Definition sheet_with_header (df : list row) : worksheet :=
  let ws := foldl append empty_sheet (header :: (row_values <$> df)) in
  foldl (fun w col => set_fill 1 col HeaderFill w) ws
        (range 1 (max_column ws + 1)).

Definition sheet_highlighted (df : list row) : worksheet * bool :=
  let ws := sheet_with_header df in
  let st := foldl highlight_dl (ws, false) (range 2 (max_row ws + 1)) in
  foldl highlight_name st (range 2 (max_row (fst st) + 1)).

Definition add_summary (df : list row) (st : worksheet * bool) : worksheet * bool :=
  let '(ws, has_errors) := st in
  let plates := plate_tokens df in
  let ins := max_row ws + 2 in
  let '(ws, ins) :=
    match plates with
    | [] => (ws, ins)
    | _ =>
        let ws := set_value ins 2 (CStr (Py.lit "Vehicles")) ws in
        let ws := set_value (ins + 1) 2 (CStr (join 59%N (sorted_set plates))) ws in
        (ws, ins + 2)
    end in
  let ws := set_value ins 2 (CStr (Py.lit "Total Visitors")) ws in
  let ws := set_value (ins + 1) 2 (CInt (Z.of_nat (notna_count df))) ws in
  (ws, has_errors).

(** Two neighbours of a text of which one is a semicolon and the other
    white space. *)
Definition loose_pair (a b : N) : bool :=
  ((a =? 59)%N && Py.isspace b) || (Py.isspace a && (b =? 59)%N).

(** A text in which no semicolon has white space next to it. *)
Fixpoint semicolons_tight (l : list N) : Prop :=
  match l with
  | a :: t => match t with
              | b :: _ => loose_pair a b = false /\ semicolons_tight t
              | [] => True
              end
  | [] => True
  end.

(** A text with no white space at either end. *)
Definition trimmed (s : list N) : Prop :=
  (forall c, head s = Some c -> Py.isspace c = false)
  /\ (forall c, last s = Some c -> Py.isspace c = false).

(** * Properties *)

(** ** Text primitives *)

Lemma sub_nondigits_digits (s : list N) : all_digits (Py.sub_nondigits s).
Proof.
  unfold all_digits, Py.sub_nondigits. apply Forall_forall. intros c Hc.
  apply list_elem_of_In, filter_In in Hc. tauto.
Qed.

Lemma sub_nondigits_id (s : list N) : all_digits s -> Py.sub_nondigits s = s.
Proof.
  unfold all_digits, Py.sub_nondigits. induction 1 as [|c s Hc _ IH]; simpl.
  - reflexivity.
  - rewrite Hc, IH. reflexivity.
Qed.

Lemma endswith_true (s suffix : list N) :
  Py.endswith s suffix = true <-> exists front, s = front ++ suffix.
Proof.
  unfold Py.endswith. rewrite andb_true_iff, Nat.leb_le, bool_decide_eq_true.
  split.
  - intros [Hlen Hd]. exists (take (length s - length suffix) s).
    rewrite <- (take_drop (length s - length suffix) s) at 1. by rewrite Hd.
  - intros [front ->]. rewrite length_app. split; [lia|].
    replace (length front + length suffix - length suffix) with (length front) by lia.
    apply drop_app_length.
Qed.

Lemma zfill_digits (w : nat) (s : list N) :
  all_digits s -> length s < w -> Py.zfill w s = replicate (w - length s) 48%N ++ s.
Proof.
  unfold Py.zfill. intros Hs Hlen.
  destruct (Nat.leb_spec w (length s)) as [?|_]; [lia|].
  destruct s as [|c r]; [by rewrite app_nil_r|].
  apply Forall_cons in Hs as [Hc _].
  case_bool_decide as Hsign; [|reflexivity].
  destruct Hsign as [-> | ->]; discriminate.
Qed.

(** ** [fix_mobile] *)

Lemma fix_mobile_unfold (x : cell) :
  let d := Py.sub_nondigits (str x) in
  fix_mobile x =
    if 10 <? length d then
      if Py.endswith d (replicate (length d - 10) 48%N) then take 10 d
      else drop (length d - 10) d
    else if length d <? 10 then replicate (10 - length d) 48%N ++ d
    else d.
Proof.
  intros d. unfold fix_mobile. fold d.
  pose proof (sub_nondigits_digits (str x)) as Hd. fold d in Hd.
  destruct (Nat.ltb_spec 10 (length d)) as [Hlong|Hshort].
  - unfold Py.slice_drop_last, Py.slice_last.
    replace (length d - (length d - 10)) with 10 by lia.
    destruct (Py.endswith d _).
    + rewrite length_take. destruct (Nat.ltb_spec (10 `min` length d) 10); [lia|done].
    + rewrite length_drop. destruct (Nat.ltb_spec (length d - (length d - 10)) 10); [lia|done].
  - destruct (Nat.ltb_spec (length d) 10) as [Hlt|_]; [|done].
    by apply zfill_digits.
Qed.

Lemma fix_mobile_length (x : cell) : length (fix_mobile x) = 10.
Proof.
  rewrite fix_mobile_unfold. cbv zeta.
  repeat match goal with
         | |- context [Nat.ltb ?a ?b] => destruct (Nat.ltb_spec a b)
         | |- context [Py.endswith ?a ?b] => destruct (Py.endswith a b)
         end;
    rewrite ?length_take, ?length_drop, ?length_app, ?length_replicate; lia.
Qed.

Lemma fix_mobile_digits (x : cell) : all_digits (fix_mobile x).
Proof.
  rewrite fix_mobile_unfold. cbv zeta.
  pose proof (sub_nondigits_digits (str x)) as Hd. unfold all_digits in *.
  repeat match goal with
         | |- context [Nat.ltb ?a ?b] => destruct (Nat.ltb_spec a b)
         | |- context [Py.endswith ?a ?b] => destruct (Py.endswith a b)
         end.
  - by apply Forall_take.
  - by apply Forall_drop.
  - apply Forall_app. split; [|done]. by apply Forall_replicate.
  - done.
Qed.


(** The examples of the specification, and one where the order of the
    two rules decides the result. *)
Example fix_mobile_truncates :
  fix_mobile (CStr (Py.lit "1234567890123")) = Py.lit "4567890123".
Proof. reflexivity. Qed.

Example fix_mobile_drops_zero :
  fix_mobile (CStr (Py.lit "12345678900")) = Py.lit "1234567890".
Proof. reflexivity. Qed.

Example fix_mobile_pads :
  fix_mobile (CStr (Py.lit "123")) = Py.lit "0000000123".
Proof. reflexivity. Qed.

Example fix_mobile_zero_rule_first :
  fix_mobile (CInt 10000000000) = Py.lit "1000000000"
  /\ Py.slice_last 10 (str (CInt 10000000000)) = Py.lit "0000000000".
Proof. split; reflexivity. Qed.

Example fix_mobile_missing : fix_mobile CNaN = Py.lit "0000000000".
Proof. reflexivity. Qed.


(** C7. [fix_mobile] applied to its own result gives that result again,
    and a text of exactly ten digit characters is returned as it is. *)
Theorem fix_mobile_idempotent (x : cell) :
  fix_mobile (CStr (fix_mobile x)) = fix_mobile x
  /\ (forall s, length s = 10 -> all_digits s -> fix_mobile (CStr s) = s).
Proof.
  assert (forall s, length s = 10 -> all_digits s -> fix_mobile (CStr s) = s) as Hfix.
  { intros s Hlen Hdig. rewrite fix_mobile_unfold. cbv zeta. simpl str.
    rewrite (sub_nondigits_id s Hdig), Hlen. reflexivity. }
  split; [|exact Hfix].
  apply Hfix; [apply fix_mobile_length|apply fix_mobile_digits].
Qed.

Lemma fix_mobile_idempotent_witness :
  fix_mobile (CStr (Py.lit "5550109999")) = Py.lit "5550109999".
Proof.
  apply (proj2 (fix_mobile_idempotent CNaN) (Py.lit "5550109999")).
  - reflexivity.
  - unfold all_digits. repeat constructor.
Defined.

(** ** [split_name] *)

Lemma contains_true (c : N) (s : list N) : Py.contains c s = true <-> c ∈ s.
Proof.
  unfold Py.contains. rewrite existsb_exists. split.
  - intros (y & Hy & Heq). apply N.eqb_eq in Heq as ->. by apply list_elem_of_In.
  - intros Hc. exists c. split; [by apply list_elem_of_In|apply N.eqb_refl].
Qed.

Lemma find_Some (c : N) (s : list N) (i : nat) :
  Py.find c s = Some i ->
  s = take i s ++ c :: drop (i + 1) s /\ c ∉ take i s.
Proof.
  revert i. induction s as [|x r IH]; intros i; simpl; [done|].
  destruct (N.eqb_spec x c) as [->|Hne].
  - intros [= <-]. simpl. rewrite drop_0. split; [done|]. apply not_elem_of_nil.
  - destruct (Py.find c r) as [j|] eqn:Hj; simpl; [|done].
    intros [= <-]. destruct (IH j eq_refl) as [Hr Hnot]. simpl.
    split; [by rewrite <- Hr|].
    rewrite not_elem_of_cons. split; [congruence|done].
Qed.

Lemma find_None (c : N) (s : list N) : Py.find c s = None -> c ∉ s.
Proof.
  induction s as [|x r IH]; simpl; [intros _; apply not_elem_of_nil|].
  destruct (N.eqb_spec x c) as [->|Hne]; [done|].
  destruct (Py.find c r); simpl; [done|].
  intros _. rewrite not_elem_of_cons. split; [congruence|by apply IH].
Qed.

Lemma lstrip_spec (s : list N) :
  exists l, s = l ++ Py.lstrip s
            /\ Forall (fun c => Py.isspace c = true) l
            /\ (forall c, head (Py.lstrip s) = Some c -> Py.isspace c = false).
Proof.
  induction s as [|c r (l & Hl & Hsp & Hhd)]; simpl.
  - exists []. by repeat split.
  - destruct (Py.isspace c) eqn:Hc.
    + exists (c :: l). split; [simpl; congruence|]. split; [by constructor|done].
    + exists []. split; [done|]. split; [constructor|].
      simpl. by intros ? [= <-].
Qed.

(** [strip] takes white space, and only white space, off both ends. *)
Lemma strip_spec (s : list N) :
  exists l r, s = l ++ Py.strip s ++ r
              /\ Forall (fun c => Py.isspace c = true) l
              /\ Forall (fun c => Py.isspace c = true) r
              /\ (forall c, head (Py.strip s) = Some c -> Py.isspace c = false)
              /\ (forall c, last (Py.strip s) = Some c -> Py.isspace c = false).
Proof.
  unfold Py.strip, Py.rstrip.
  destruct (lstrip_spec s) as (l & Hl & Hlsp & Hlhd).
  destruct (lstrip_spec (rev (Py.lstrip s))) as (r & Hr & Hrsp & Hrhd).
  set (t := Py.lstrip s) in *. set (u := Py.lstrip (rev t)) in *.
  assert (t = rev u ++ rev r) as Ht.
  { rewrite <- rev_app_distr, <- Hr. by rewrite rev_involutive. }
  exists l, (rev r). split; [by rewrite <- Ht|].
  split; [done|]. split; [by apply Forall_rev|]. split.
  - intros c Hc. destruct (rev u) as [|c' u'] eqn:Hu; [done|].
    simpl in Hc. injection Hc as <-. apply Hlhd. by rewrite Ht.
  - intros c Hc. apply Hrhd. apply last_Some in Hc as [l' Hl'].
    apply (f_equal (@rev N)) in Hl'.
    rewrite rev_involutive, rev_app_distr in Hl'. by rewrite Hl'.
Qed.

(** C6, as the code has it. The stringified value is trimmed; when the
    trimmed text holds a space character (U+0020) the result is the text
    before the first space and the text after it, otherwise the trimmed
    text and the empty text. Other white space (a tab, a no-break space)
    does not split the name. *)
Theorem split_name_spec (x : cell) :
  let s := Py.strip (str x) in
  (32%N ∈ s ->
     exists a b, s = a ++ (32%N :: b) /\ (32%N ∉ a) /\ split_name x = (a, b))
  /\ (32%N ∉ s -> split_name x = (s, [])).
Proof.
  intros s. unfold split_name. fold s.
  destruct (Py.contains 32%N s) eqn:Hc.
  - apply contains_true in Hc. split; [intros _|done].
    destruct (Py.find 32%N s) as [i|] eqn:Hi.
    + destruct (find_Some _ _ _ Hi) as [Hs Hnot]. eauto.
    + by apply find_None in Hi.
  - split; [|done]. intros Hin. apply contains_true in Hin. congruence.
Qed.

Lemma split_name_spec_witness :
  32%N ∈ Py.strip (str (CStr (Py.lit "John Michael Smith")))
  /\ exists a b, Py.strip (str (CStr (Py.lit "John Michael Smith"))) = a ++ (32%N :: b)
                 /\ (32%N ∉ a)
                 /\ split_name (CStr (Py.lit "John Michael Smith")) = (a, b).
Proof.
  assert (32%N ∈ Py.strip (str (CStr (Py.lit "John Michael Smith")))) as Hin.
  { apply contains_true. reflexivity. }
  split; [exact Hin|].
  exact (proj1 (split_name_spec (CStr (Py.lit "John Michael Smith"))) Hin).
Defined.

Example split_name_three_tokens :
  split_name (CStr (Py.lit "John Michael Smith"))
  = (Py.lit "John", Py.lit "Michael Smith").
Proof. reflexivity. Qed.

Example split_name_one_token :
  split_name (CStr (Py.lit "Madonna")) = (Py.lit "Madonna", []).
Proof. reflexivity. Qed.

(** C6, as the specification words it, fails on a name whose only white
    space is a tab: the words ask for ("A", "B"), the code returns the
    whole text and the empty text. *)
Lemma split_name_tab_counterexample :
  let x := CStr [65; 9; 66]%N in
  (exists i, find_whitespace (Py.strip (str x)) = Some i)
  /\ split_at_whitespace x = ([65%N], [66%N])
  /\ split_name x = ([65; 9; 66]%N, [])
  /\ split_name x <> split_at_whitespace x.
Proof.
  cbv zeta. split; [by exists 1|]. split; [reflexivity|]. split; [reflexivity|].
  vm_compute. discriminate.
Qed.

(** ** Earliest clearance date *)

Section ClearanceFacts.
Import Clearance.
Local Open Scope Z_scope.

Lemma weekday_range (d : Z) : 0 <= weekday d < 7.
Proof. unfold weekday. apply Z.mod_pos_bound. lia. Qed.

Lemma weekday_succ (d : Z) :
  (weekday d = 6 -> weekday (d + 1) = 0)
  /\ (weekday d <> 6 -> weekday (d + 1) = weekday d + 1).
Proof. unfold weekday. split; intros He; Z.div_mod_to_equations; lia. Qed.

Lemma next_working_day_loop_S (fuel : nat) (d : Z) :
  next_working_day_loop (S fuel) d
  = if 5 <=? weekday d then next_working_day_loop fuel (d + 1) else Some d.
Proof. reflexivity. Qed.

Lemma next_working_day_spec (d : Z) :
  exists d', next_working_day d = Some d' /\ first_weekday_from d d'.
Proof.
  unfold next_working_day, first_weekday_from, is_weekday.
  pose proof (weekday_range d) as Hr.
  pose proof (weekday_succ d) as [H1 H1'].
  pose proof (weekday_succ (d + 1)) as [H2 H2'].
  rewrite !next_working_day_loop_S.
  destruct (Z.leb_spec 5 (weekday d)) as [Hd|Hd].
  - destruct (Z.leb_spec 5 (weekday (d + 1))) as [Hd1|Hd1].
    + (* Saturday *)
      destruct (Z.leb_spec 5 (weekday (d + 1 + 1))) as [Hd2|Hd2]; [lia|].
      exists (d + 1 + 1). split; [done|]. split; [lia|]. split; [lia|].
      intros x Hx. assert (x = d \/ x = d + 1) as [-> | ->] by lia; lia.
    + (* Sunday *)
      exists (d + 1). split; [done|]. split; [lia|]. split; [lia|].
      intros x Hx. assert (x = d) as -> by lia. lia.
  - exists d. split; [done|]. split; [lia|]. split; [lia|]. intros x Hx. lia.
Qed.

Lemma weekdays_between_step (a b : Z) :
  a <= b ->
  weekdays_between a b
  = (if weekday a <? 5 then 1 else 0) + weekdays_between (a + 1) b.
Proof.
  intros Hab. unfold weekdays_between.
  replace (Z.to_nat (b - a + 1)) with (S (Z.to_nat (b - (a + 1) + 1))) by lia.
  reflexivity.
Qed.

Lemma weekdays_between_same (a : Z) :
  is_weekday a -> weekdays_between a a = 1.
Proof.
  unfold is_weekday, weekdays_between. intros Ha.
  replace (Z.to_nat (a - a + 1)) with 1%nat by lia. cbn.
  destruct (Z.ltb_spec (weekday a) 5); lia.
Qed.

Lemma endless_count_loop_S (fuel : nat) (workdays counted d : Z) :
  endless_count_loop (S fuel) workdays counted d
  = if counted <? workdays then
      endless_count_loop fuel workdays
                 (if weekday (d + 1) <? 5 then counted + 1 else counted) (d + 1)
    else Some d.
Proof. reflexivity. Qed.

(** From a counted weekday [d], the counting stops on the weekday that
    completes the count. *)
Lemma endless_count_loop_spec (n : nat) :
  forall (fuel : nat) (workdays counted d : Z),
    is_weekday d ->
    workdays - counted = Z.of_nat n ->
    (3 * n + 1 <= fuel)%nat ->
    exists dN, endless_count_loop fuel workdays counted d = Some dN
               /\ d <= dN /\ is_weekday dN
               /\ weekdays_between d dN = workdays - counted + 1.
Proof.
  induction n as [|n IH]; intros fuel workdays counted d Hd Hn Hfuel.
  - destruct fuel as [|fuel]; [lia|]. rewrite endless_count_loop_S.
    destruct (Z.ltb_spec counted workdays); [lia|].
    exists d. split; [done|]. split; [lia|]. split; [done|].
    rewrite weekdays_between_same by done. lia.
  - unfold is_weekday in Hd. pose proof (weekday_range d) as Hr.
    destruct fuel as [|fuel]; [lia|]. rewrite endless_count_loop_S.
    destruct (Z.ltb_spec counted workdays) as [Hlt|]; [|lia].
    pose proof (weekday_succ d) as [_ H1].
    destruct (Z.ltb_spec (weekday (d + 1)) 5) as [Hnext|Hsat].
    + destruct (IH fuel workdays (counted + 1) (d + 1))
        as (dN & Hloop & Hle & HdN & Hcount); [done|lia|lia|].
      exists dN. split; [done|]. split; [lia|]. split; [done|].
      rewrite (weekdays_between_step d) by lia. rewrite Hcount.
      destruct (Z.ltb_spec (weekday d) 5); lia.
    + (* Friday: Saturday and Sunday are passed over *)
      pose proof (weekday_succ (d + 1)) as [_ H2].
      pose proof (weekday_succ (d + 1 + 1)) as [H3 _].
      destruct fuel as [|fuel]; [lia|]. rewrite endless_count_loop_S.
      destruct (Z.ltb_spec counted workdays); [|lia].
      destruct (Z.ltb_spec (weekday (d + 1 + 1)) 5) as [|Hsun]; [lia|].
      destruct fuel as [|fuel]; [lia|]. rewrite endless_count_loop_S.
      destruct (Z.ltb_spec counted workdays); [|lia].
      destruct (Z.ltb_spec (weekday (d + 1 + 1 + 1)) 5) as [Hmon|]; [|lia].
      destruct (IH fuel workdays (counted + 1) (d + 1 + 1 + 1))
        as (dN & Hloop & Hle & HdN & Hcount); [done|lia|lia|].
      exists dN. split; [done|]. split; [lia|]. split; [done|].
      rewrite (weekdays_between_step d) by lia.
      rewrite (weekdays_between_step (d + 1)) by lia.
      rewrite (weekdays_between_step (d + 1 + 1)) by lia.
      rewrite Hcount.
      destruct (Z.ltb_spec (weekday d) 5); [|lia].
      destruct (Z.ltb_spec (weekday (d + 1)) 5); [lia|].
      destruct (Z.ltb_spec (weekday (d + 1 + 1)) 5); [lia|]. lia.
Qed.

Lemma count_loop_S (fuel : nat) (workdays counted d : Z) :
  count_loop (S fuel) workdays counted d
  = if counted <? workdays then
      match plus_one_day d with
      | Some d' =>
          count_loop fuel workdays
                     (if weekday d' <? 5 then counted + 1 else counted) d'
      | None => OverflowError
      end
    else Returns d.
Proof. reflexivity. Qed.

(** The loop of the code goes the way of the counting without a last
    day, until a date past the last day is asked for. *)
Lemma count_loop_endless (fuel : nat) :
  forall (workdays counted d dN : Z),
    endless_count_loop fuel workdays counted d = Some dN ->
    d <= dN
    /\ count_loop fuel workdays counted d
       = if (dN =? d) || (dN <=? date_max) then Returns dN else OverflowError.
Proof.
  induction fuel as [|fuel IH]; intros workdays counted d dN Hloop; [done|].
  rewrite endless_count_loop_S in Hloop. rewrite count_loop_S.
  destruct (counted <? workdays).
  - apply IH in Hloop as [Hle Hc]. unfold plus_one_day.
    destruct (Z.leb_spec (d + 1) date_max) as [Hin|Hout].
    + rewrite Hc. split; [lia|].
      destruct (Z.eqb_spec dN (d + 1)), (Z.eqb_spec dN d),
        (Z.leb_spec dN date_max); cbn [orb]; try done; lia.
    + split; [lia|].
      destruct (Z.eqb_spec dN d), (Z.leb_spec dN date_max); cbn [orb];
        try done; lia.
  - injection Hloop as <-. split; [lia|]. by rewrite Z.eqb_refl.
Qed.

Lemma date_max_weekday : is_weekday date_max.
Proof. reflexivity. Qed.

(** [next_working_day] stays in the calendar. *)
Lemma next_working_day_is_date (d : Z) :
  is_date d -> exists d', next_working_day d = Some d' /\ is_date d'.
Proof.
  intros [Hlo Hhi].
  destruct (next_working_day_spec d) as (d' & Hd' & Hle & _ & Hmin).
  exists d'. split; [done|]. split; [lia|].
  destruct (Z.le_gt_cases d' date_max) as [?|Hgt]; [done|].
  exfalso. apply (Hmin date_max); [lia|apply date_max_weekday].
Qed.

Lemma first_weekday_from_unique (a d d' : Z) :
  first_weekday_from a d -> first_weekday_from a d' -> d = d'.
Proof.
  intros (Ha & Hd & Hmin) (Ha' & Hd' & Hmin').
  destruct (Z.lt_trichotomy d d') as [Hlt|[Heq|Hgt]]; [|done|].
  - exfalso. apply (Hmin' d); [lia|done].
  - exfalso. apply (Hmin d'); [lia|done].
Qed.

Lemma weekdays_in_snoc (n : nat) (a : Z) :
  weekdays_in (S n) a
  = weekdays_in n a + (if weekday (a + Z.of_nat n) <? 5 then 1 else 0).
Proof.
  revert a. induction n as [|n IH]; intros a.
  - cbn [weekdays_in]. change (Z.of_nat 0) with 0.
    replace (a + 0) with a by lia. destruct (weekday a <? 5); lia.
  - change (weekdays_in (S (S n)) a)
      with ((if weekday a <? 5 then 1 else 0) + weekdays_in (S n) (a + 1)).
    rewrite IH. cbn [weekdays_in].
    replace (a + 1 + Z.of_nat n) with (a + Z.of_nat (S n)) by lia.
    destruct (weekday a <? 5), (weekday (a + Z.of_nat (S n)) <? 5); lia.
Qed.

Lemma weekdays_between_snoc (a b : Z) :
  a <= b + 1 ->
  weekdays_between a (b + 1)
  = weekdays_between a b + (if weekday (b + 1) <? 5 then 1 else 0).
Proof.
  intros Hab. unfold weekdays_between.
  replace (Z.to_nat (b + 1 - a + 1)) with (S (Z.to_nat (b - a + 1))) by lia.
  rewrite weekdays_in_snoc.
  replace (a + Z.of_nat (Z.to_nat (b - a + 1))) with (b + 1) by lia. reflexivity.
Qed.

Lemma weekdays_between_mono (a b : Z) (k : nat) :
  a <= b + 1 -> weekdays_between a b <= weekdays_between a (b + Z.of_nat k).
Proof.
  intros Hab. induction k as [|k IH].
  - rewrite Z.add_0_r. lia.
  - replace (b + Z.of_nat (S k)) with (b + Z.of_nat k + 1) by lia.
    rewrite weekdays_between_snoc by lia.
    destruct (weekday (b + Z.of_nat k + 1) <? 5); lia.
Qed.

(** The day that completes a count is determined by the count. *)
Lemma last_counted_unique (a x y : Z) :
  a <= x -> a <= y -> is_weekday x -> is_weekday y ->
  weekdays_between a x = weekdays_between a y -> x = y.
Proof.
  assert (forall u v, a <= u -> u < v -> is_weekday v ->
            weekdays_between a u < weekdays_between a v) as Hstrict.
  { intros u v Hu Huv Hv. unfold is_weekday in Hv.
    pose proof (weekdays_between_mono a u (Z.to_nat (v - 1 - u))) as Hm.
    replace (u + Z.of_nat (Z.to_nat (v - 1 - u))) with (v - 1) in Hm by lia.
    assert (weekdays_between a v = weekdays_between a (v - 1) + 1) as ->; [|lia].
    pose proof (weekdays_between_snoc a (v - 1)) as Hs.
    replace (v - 1 + 1) with v in Hs by lia. rewrite Hs by lia.
    destruct (Z.ltb_spec (weekday v) 5); lia. }
  intros Hx Hy Hwx Hwy Heq.
  destruct (Z.lt_trichotomy x y) as [Hlt|[?|Hgt]]; [|done|].
  - pose proof (Hstrict x y Hx Hlt Hwy). lia.
  - pose proof (Hstrict y x Hy Hgt Hwx). lia.
Qed.

(** The rule of the estimator, as the loops compute it: the date the
    rule names, returned when the calendar has it. *)
Lemma clearance_outcome (submit_dt : datetime) (workdays : Z) :
  1 <= workdays ->
  exists day1 last_counted r,
    first_weekday_from (date submit_dt) day1
    /\ day1 <= last_counted /\ is_weekday last_counted
    /\ weekdays_between day1 last_counted = workdays
    /\ first_weekday_from (last_counted + 1) r
    /\ endless_clearance submit_dt workdays = Some r
    /\ earliest_clearance_inclusive submit_dt workdays
       = if r <=? date_max then Returns r else OverflowError.
Proof.
  intros Hw. unfold earliest_clearance_inclusive, endless_clearance.
  destruct (next_working_day_spec (date submit_dt)) as (day1 & Hday1 & Hfirst).
  rewrite Hday1. cbn [mbind option_bind].
  destruct (endless_count_loop_spec (Z.to_nat (workdays - 1))
              (3 * Z.to_nat workdays + 1) workdays 1 day1)
    as (dN & Hloop & Hle & HdN & Hcount); [apply Hfirst|lia|lia|].
  rewrite Hloop. cbn [mbind option_bind].
  destruct (count_loop_endless _ _ _ _ _ Hloop) as [_ ->].
  destruct (next_working_day_spec (dN + 1)) as (r & Hr & Hrfirst).
  rewrite Hr. exists day1, dN, r. repeat (split; [done|]).
  split; [lia|]. split; [done|]. split; [done|].
  destruct Hrfirst as (Hafter & _ & Hnone).
  destruct (Z.leb_spec r date_max) as [Hin|Hout].
  - rewrite (proj2 (Z.leb_le dN date_max)) by lia. rewrite orb_true_r.
    unfold plus_one_day. rewrite (proj2 (Z.leb_le (dN + 1) date_max)) by lia.
    by rewrite Hr.
  - assert (date_max < dN + 1) as Hpast.
    { destruct (Z.lt_ge_cases date_max (dN + 1)) as [?|Hge]; [done|].
      exfalso. apply (Hnone date_max); [lia|apply date_max_weekday]. }
    destruct ((dN =? day1) || (dN <=? date_max)); [|done].
    unfold plus_one_day. by rewrite (proj2 (Z.leb_gt (dN + 1) date_max)) by lia.
Qed.

(** C9. For a submission on a date of the calendar and a number of
    working days of at least 1 there are a day 1, a last counted day and
    a date [r] such that: day 1 is the first weekday on or after the
    submission's calendar date; the last counted day is a weekday on or
    after day 1 and the weekdays from day 1 to it, both included, number
    [workdays]; and [r] is the first weekday strictly after the last
    counted day, a Monday-to-Friday date and the only date the rule
    allows. The function returns [r] when [r] is on or before
    31 December 9999, and raises OverflowError when it is not. Without a
    second argument the count is 2. *)
Theorem earliest_clearance_inclusive_spec (submit_dt : datetime) (workdays : Z) :
  1 <= workdays ->
  is_date (date submit_dt) ->
  exists day1 last_counted r,
    first_weekday_from (date submit_dt) day1
    /\ day1 <= last_counted
    /\ is_weekday last_counted
    /\ weekdays_between day1 last_counted = workdays
    /\ first_weekday_from (last_counted + 1) r
    /\ last_counted < r
    /\ 0 <= weekday r <= 4
    /\ (forall day1' last_counted' r',
          first_weekday_from (date submit_dt) day1' ->
          day1' <= last_counted' ->
          is_weekday last_counted' ->
          weekdays_between day1' last_counted' = workdays ->
          first_weekday_from (last_counted' + 1) r' ->
          r' = r)
    /\ (r <= date_max ->
        earliest_clearance_inclusive submit_dt workdays = Returns r)
    /\ (date_max < r ->
        earliest_clearance_inclusive submit_dt workdays = OverflowError)
    /\ earliest_clearance_default submit_dt
       = earliest_clearance_inclusive submit_dt 2.
Proof.
  intros Hw _.
  destruct (clearance_outcome submit_dt workdays Hw)
    as (day1 & dN & r & Hfirst & Hle & HdN & Hcount & Hrfirst & _ & Hout).
  exists day1, dN, r.
  pose proof Hrfirst as (Hafter & Hwd & Hnone).
  pose proof (weekday_range r) as Hrange. unfold is_weekday in Hwd.
  split; [done|]. split; [done|]. split; [done|]. split; [done|].
  split; [done|]. split; [lia|]. split; [lia|].
  split.
  { intros day1' dN' r' Hfirst' Hle' HdN' Hcount' Hr'.
    assert (day1' = day1) as -> by (by eapply first_weekday_from_unique).
    assert (dN' = dN) as ->.
    { apply (last_counted_unique day1); try done. lia. }
    by eapply first_weekday_from_unique. }
  split.
  { intros Hin. rewrite Hout. by rewrite (proj2 (Z.leb_le r date_max)). }
  split.
  { intros Hpast. rewrite Hout. by rewrite (proj2 (Z.leb_gt r date_max)). }
  reflexivity.
Qed.

End ClearanceFacts.

Lemma earliest_clearance_inclusive_spec_witness :
  (1 <= 2)%Z
  /\ Clearance.is_date 739004
  /\ exists r,
       Clearance.earliest_clearance_inclusive (Clearance.DateTime 739004 3600) 2
       = Clearance.Returns r
       /\ r = 739007%Z.
Proof.
  assert (1 <= 2)%Z as Hw by lia.
  assert (Clearance.is_date 739004) as Hd
    by (unfold Clearance.is_date, Clearance.date_max; lia).
  split; [exact Hw|]. split; [exact Hd|].
  destruct (earliest_clearance_inclusive_spec (Clearance.DateTime 739004 3600) 2 Hw Hd)
    as (day1 & dN & r & _ & _ & _ & _ & _ & _ & _ & _ & Hin & Hpast & _).
  exists r. destruct (Z.le_gt_cases r Clearance.date_max) as [Hr|Hr].
  - specialize (Hin Hr). split; [exact Hin|].
    vm_compute in Hin. congruence.
  - specialize (Hpast ltac:(lia)). vm_compute in Hpast. discriminate.
Defined.

(** On 30 December 9999, a Thursday, the second counted day is the last
    day of the calendar and the day after it is asked for: the call
    raises and returns no date. *)
Lemma earliest_clearance_overflow_counterexample :
  (1 <= 2)%Z
  /\ Clearance.is_date 3652058
  /\ Clearance.earliest_clearance_inclusive (Clearance.DateTime 3652058 0) 2
     = Clearance.OverflowError
  /\ Clearance.earliest_clearance_default (Clearance.DateTime 3652058 0)
     = Clearance.OverflowError
  /\ Clearance.endless_clearance (Clearance.DateTime 3652058 0) 2
     = Some 3652062%Z.
Proof.
  split; [lia|].
  split; [unfold Clearance.is_date, Clearance.date_max; lia|].
  repeat split; vm_compute; reflexivity.
Qed.

(** ** [clean_data_us] *)

Section CleaningFacts.
Context `{CaseTables}.

Lemma frame_before_sort_eq (raw : list raw_row) :
  frame_before_sort raw = with_nationality <$> dropna_all (cols <$> raw).
Proof. reflexivity. Qed.

Lemma clean_frame_unfold (raw : list raw_row) :
  clean_frame raw = imap finish_row (sort_values (frame_before_sort raw)).
Proof.
  unfold clean_frame, reset_sn. rewrite fmap_imap. reflexivity.
Qed.

(** *** Step 2 *)

Lemma dropna_all_sublist (df : list row) : sublist (dropna_all df) df.
Proof.
  unfold dropna_all. induction df as [|r df IH]; simpl; [constructor|].
  destruct (negb (all_blank r)); by constructor.
Qed.

Lemma all_blank_true (r : row) :
  all_blank r = true <-> Forall (fun c => isna c = true) (checked_cells r).
Proof.
  unfold all_blank. rewrite forallb_forall, Forall_forall.
  split; intros Hall c Hc; apply Hall; by apply list_elem_of_In.
Qed.

Lemma all_blank_false (r : row) :
  all_blank r = false <-> exists c, c ∈ checked_cells r /\ isna c = false.
Proof.
  split.
  - intros Hb. destruct (existsb (fun c => negb (isna c)) (checked_cells r)) eqn:He.
    + apply existsb_exists in He as (c & Hc & Hn). exists c.
      split; [by apply list_elem_of_In|]. by destruct (isna c).
    + exfalso. assert (all_blank r = true) as Ht; [|congruence].
      apply forallb_forall. intros c Hc.
      destruct (isna c) eqn:Hn; [done|].
      assert (existsb (fun c => negb (isna c)) (checked_cells r) = true) as Hex; [|congruence].
      apply existsb_exists. exists c. by rewrite Hn.
  - intros (c & Hc & Hn). destruct (all_blank r) eqn:Hb; [|done].
    apply all_blank_true in Hb. rewrite Forall_forall in Hb.
    specialize (Hb c Hc). congruence.
Qed.

Lemma elem_of_dropna_all (df : list row) (r : row) :
  r ∈ dropna_all df <-> r ∈ df /\ all_blank r = false.
Proof.
  unfold dropna_all. rewrite !list_elem_of_In, filter_In.
  destruct (all_blank r); simpl; intuition congruence.
Qed.

Lemma sort_values_Permutation (df : list row) : sort_values df ≡ₚ df.
Proof.
  assert (forall x l, insert_row x l ≡ₚ x :: l) as Hins.
  { intros x l. induction l as [|y l IH]; simpl; [done|].
    destruct (row_le x y); [done|]. rewrite IH. apply Permutation_swap. }
  induction df as [|x l IH]; simpl; [done|]. by rewrite Hins, IH.
Qed.

Lemma dropna_all_partition (df : list row) :
  dropna_all df ++ List.filter all_blank df ≡ₚ df.
Proof.
  unfold dropna_all. induction df as [|r df IH]; [done|].
  cbn [List.filter]. destruct (all_blank r); cbn [negb app].
  - rewrite <- Permutation_middle. by constructor.
  - by constructor.
Qed.

Lemma isna_true (c : cell) : isna c = true <-> c = CNaN.
Proof. by destruct c. Qed.

Lemma all_blank_missing (r : row) :
  all_blank r = true <-> all_checked_missing r.
Proof.
  unfold all_blank, all_checked_missing, checked_cells.
  cbn [forallb]. rewrite !andb_true_iff, !isna_true.
  destruct (full_name r); cbn [name_cell]; intuition congruence.
Qed.

Lemma all_blank_value (r : row) :
  all_blank r = false <-> some_checked_value r.
Proof.
  rewrite <- not_true_iff_false, all_blank_missing.
  unfold some_checked_value, all_checked_missing.
  destruct (decide (full_name r = None)), (decide (first_name r = CNaN)),
    (decide (middle_last r = CNaN)), (decide (dl r = CNaN)),
    (decide (nationality r = CNaN)), (decide (gender r = CNaN)),
    (decide (mobile r = CNaN)); tauto.
Qed.

(** [clean_data_us] returns the frame of the ten steps when step 2 leaves
    a row, and raises when it leaves none. *)
Lemma clean_data_us_Some (raw : list raw_row) (df : list row) :
  clean_data_us raw = Some df
  <-> dropna_all (cols <$> raw) <> [] /\ df = clean_frame raw.
Proof.
  unfold clean_data_us, clean_frame.
  set (kept := dropna_all (cols <$> raw)).
  set (l := reset_sn (sort_values (_ <$> kept))).
  assert (length l = length kept) as Hlen.
  { unfold l, reset_sn.
    by rewrite length_imap, (Permutation_length (sort_values_Permutation _)),
         length_fmap. }
  destruct l as [|x l], kept as [|y kept]; try done.
  - split; [done|]. by intros [? _].
  - split; [by intros [= <-]|by intros [_ ->]].
Qed.

Lemma clean_data_us_None (raw : list raw_row) :
  clean_data_us raw = None <-> dropna_all (cols <$> raw) = [].
Proof.
  destruct (clean_data_us raw) as [df|] eqn:Hdf.
  - apply clean_data_us_Some in Hdf as [Hkept _]. split; [done|]. by intros ?.
  - split; [|done]. intros _.
    destruct (dropna_all (cols <$> raw)) as [|r kept] eqn:Hkept; [done|].
    exfalso. assert (clean_data_us raw = Some (clean_frame raw)) as Hs; [|congruence].
    apply clean_data_us_Some. by rewrite Hkept.
Qed.

(** C4. With the first eleven columns of each row taken, the rows kept
    by step 2 of [clean_data_us] are those of the input, in input order,
    in which at least one of Full Name, First Name, Middle and Last Name,
    Driver License Number, Nationality, Gender and Mobile Number is not
    missing; a row in which all seven are missing is dropped whatever its
    S/N, plate, company and remarks hold; the input rows are the kept
    rows together with dropped rows that are missing in all seven.
    When a row is kept the function returns, and nothing else is dropped
    or added: the output rows are the kept rows, each once, in some
    order, cleaned and renumbered. When no row is kept it raises and
    returns no table. *)
Theorem clean_data_us_drops_blank_rows (raw : list raw_row) :
  let kept := dropna_all (cols <$> raw) in
  sublist kept (cols <$> raw)
  /\ (forall r, r ∈ cols <$> raw -> (r ∈ kept <-> some_checked_value r))
  /\ (forall r, r ∈ cols <$> raw -> (r ∉ kept <-> all_checked_missing r))
  /\ (forall s p c rm,
        Row s p c None CNaN CNaN CNaN CNaN CNaN CNaN rm ∉ kept)
  /\ (exists dropped,
        kept ++ dropped ≡ₚ cols <$> raw
        /\ Forall all_checked_missing dropped
        /\ Forall some_checked_value kept)
  /\ (kept <> [] -> exists out, clean_data_us raw = Some out)
  /\ (forall out, clean_data_us raw = Some out ->
        kept <> []
        /\ length out = length kept
        /\ exists order, order ≡ₚ kept
             /\ out = imap (fun i r => finish_row i (with_nationality r)) order)
  /\ (clean_data_us raw = None <-> kept = []).
Proof.
  intros kept. split; [apply dropna_all_sublist|].
  split.
  { intros r Hr. unfold kept. rewrite elem_of_dropna_all, all_blank_value. tauto. }
  split.
  { intros r Hr. unfold kept. rewrite elem_of_dropna_all, <- all_blank_missing.
    destruct (all_blank r); intuition congruence. }
  split.
  { intros s p c rm Hin. apply elem_of_dropna_all in Hin as [_ Hb]. discriminate. }
  split.
  { exists (List.filter all_blank (cols <$> raw)).
    split; [apply dropna_all_partition|]. split.
    - apply Forall_forall. intros r Hr.
      apply list_elem_of_In, filter_In in Hr as [_ Hb]. by apply all_blank_missing.
    - apply Forall_forall. intros r Hr.
      apply elem_of_dropna_all in Hr as [_ Hb]. by apply all_blank_value. }
  split.
  { intros Hkept. exists (clean_frame raw). by apply clean_data_us_Some. }
  split; [|apply clean_data_us_None].
  intros out Hout. apply clean_data_us_Some in Hout as [Hkept ->].
  split; [done|].
  assert (exists order, order ≡ₚ kept
            /\ sort_values (frame_before_sort raw) = with_nationality <$> order)
    as (order & Hperm & Horder).
  { pose proof (sort_values_Permutation (frame_before_sort raw)) as Hp.
    rewrite frame_before_sort_eq in Hp at 2.
    apply Permutation_map_inv in Hp as (order & Ho & Hp).
    exists order. split; [by symmetry|done]. }
  split.
  - rewrite clean_frame_unfold, length_imap, Horder, length_fmap.
    by apply Permutation_length.
  - exists order. split; [done|].
    rewrite clean_frame_unfold, Horder, imap_fmap. reflexivity.
Qed.

(** *** Steps 8 and 10 *)

Lemma clean_driver_license_spec (d : cell) :
  let digits := Py.sub_nondigits (sub_dot_zero (str (fillna_empty d))) in
  all_digits (clean_driver_license d)
  /\ length (clean_driver_license d) <= 4
  /\ exists front, digits = front ++ clean_driver_license d
                    /\ (front = [] \/ length (clean_driver_license d) = 4).
Proof.
  intros digits. unfold clean_driver_license, Py.slice_last. fold digits.
  pose proof (sub_nondigits_digits (sub_dot_zero (str (fillna_empty d)))) as Hd.
  fold digits in Hd. split; [by apply Forall_drop|].
  rewrite length_drop. split; [lia|].
  exists (take (length digits - 4) digits). split.
  - symmetry. apply take_drop.
  - destruct (decide (length digits <= 4)) as [Hle|Hgt].
    + left. replace (length digits - 4) with 0 by lia. reflexivity.
    + right. lia.
Qed.

Lemma fix_mobile_ascii (x : cell) :
  Forall (fun c => Py.isdigit c = true -> Py.is_ascii_digit c = true) (str x) ->
  all_ascii_digits (fix_mobile x).
Proof.
  intros Hx.
  assert (all_ascii_digits (Py.sub_nondigits (str x))) as Hd.
  { unfold all_ascii_digits, Py.sub_nondigits. apply Forall_forall.
    intros c Hc. apply list_elem_of_In, filter_In in Hc as [Hin Hdig].
    rewrite Forall_forall in Hx. apply Hx; [by apply list_elem_of_In|done]. }
  rewrite fix_mobile_unfold. cbv zeta. unfold all_ascii_digits in *.
  repeat match goal with
         | |- context [Nat.ltb ?a ?b] => destruct (Nat.ltb_spec a b)
         | |- context [Py.endswith ?a ?b] => destruct (Py.endswith a b)
         end.
  - by apply Forall_take.
  - by apply Forall_drop.
  - apply Forall_app. split; [|done]. by apply Forall_replicate.
  - done.
Qed.

Lemma elem_of_clean_frame (raw : list raw_row) (r : row) :
  r ∈ clean_frame raw ->
  exists i src, src ∈ cols <$> raw /\ all_blank src = false
                /\ r = finish_row i (with_nationality src).
Proof.
  rewrite clean_frame_unfold. intros Hr.
  apply elem_of_lookup_imap_1 in Hr as (i & x & -> & Hx).
  apply list_elem_of_lookup_2 in Hx. rewrite sort_values_Permutation in Hx.
  rewrite frame_before_sort_eq in Hx.
  apply list_elem_of_fmap in Hx as (src & -> & Hsrc).
  apply elem_of_dropna_all in Hsrc as [Hin Hb]. eauto.
Qed.

(** C5, as the code has it. In every row of the table returned by
    [clean_data_us] the Driver License Number is a text of at most four
    digit characters: the last four digit characters (all of them when
    there are fewer) of the source value once a final ".0" is removed.
    The Mobile Number is a text of exactly ten digit characters. "Digit
    character" is the class [\d] of the interpreter, every decimal digit
    of Unicode; the ten characters of the mobile number are the ASCII
    digits [0-9] when the source value holds no other decimal digit. *)
Theorem clean_data_us_formats (raw : list raw_row) (df : list row) (r : row) :
  clean_data_us raw = Some df ->
  r ∈ df ->
  exists src d m,
    src ∈ cols <$> raw
    /\ dl r = CStr d /\ mobile r = CStr m
    /\ all_digits d /\ length d <= 4
    /\ (exists front,
          Py.sub_nondigits (sub_dot_zero (str (fillna_empty (dl src)))) = front ++ d
          /\ (front = [] \/ length d = 4))
    /\ m = fix_mobile (mobile src)
    /\ all_digits m /\ length m = 10
    /\ (Forall (fun c => Py.isdigit c = true -> Py.is_ascii_digit c = true)
               (str (mobile src)) ->
        all_ascii_digits m).
Proof.
  intros Hdf Hr. apply clean_data_us_Some in Hdf as [_ ->].
  apply elem_of_clean_frame in Hr as (i & src & Hsrc & _ & ->).
  exists src, (clean_driver_license (dl src)), (fix_mobile (mobile src)).
  destruct (clean_driver_license_spec (dl src)) as (Hdig & Hlen & Hfront).
  split; [done|]. split; [reflexivity|]. split; [reflexivity|].
  split; [done|]. split; [done|]. split; [done|]. split; [done|].
  split; [apply fix_mobile_digits|]. split; [apply fix_mobile_length|].
  apply fix_mobile_ascii.
Qed.

(** *** Step 4: the order of the sort *)

Lemma ordering_eq_r {A : Type} (cmp : A -> A -> comparison) :
  ordering cmp -> forall a b c, cmp b c = Eq -> cmp a b = cmp a c.
Proof.
  intros [Hopp _ Heq] a b c Hbc.
  assert (cmp c b = Eq) as Hcb by (rewrite Hopp, Hbc; reflexivity).
  rewrite (Hopp b a), (Hopp c a). f_equal. symmetry. by apply Heq.
Qed.

Lemma ordering_on {A B : Type} (f : A -> B) (cmp : B -> B -> comparison) :
  ordering cmp -> ordering (fun a b => cmp (f a) (f b)).
Proof. intros [Hopp Htrans Heq]. split; eauto. Qed.

Lemma ordering_lex {A : Type} (c1 c2 : A -> A -> comparison) :
  ordering c1 -> ordering c2 ->
  ordering (fun a b => match c1 a b with Eq => c2 a b | o => o end).
Proof.
  intros H1 H2. pose proof (ordering_eq_r c1 H1) as Heqr.
  destruct H1 as [Hopp1 Htrans1 Heq1], H2 as [Hopp2 Htrans2 Heq2]. split.
  - intros a b. rewrite (Hopp1 a b). destruct (c1 a b); simpl; auto.
  - intros a b c. destruct (c1 a b) eqn:Hab; try done;
      destruct (c1 b c) eqn:Hbc; try done; intros Hx Hy.
    + rewrite (Heq1 a b c Hab), Hbc. eauto.
    + by rewrite (Heq1 a b c Hab), Hbc.
    + by rewrite <- (Heqr a b c Hbc), Hab.
    + by rewrite (Htrans1 a b c Hab Hbc).
  - intros a b c. destruct (c1 a b) eqn:Hab; try done. intros Hc2.
    rewrite (Heq1 a b c Hab). destruct (c1 b c); auto.
Qed.

Lemma str_compare_Eq (a b : list N) : str_compare a b = Eq <-> a = b.
Proof.
  revert b. induction a as [|x a IH]; intros [|y b]; simpl; try done.
  destruct (N.compare_spec x y) as [->|Hlt|Hgt].
  - rewrite IH. split; [by intros ->|by intros [= ->]].
  - split; [done|]. intros [= -> _]. lia.
  - split; [done|]. intros [= -> _]. lia.
Qed.

Lemma str_compare_ordering : ordering str_compare.
Proof.
  split.
  - intros a. induction a as [|x a IH]; intros [|y b]; simpl; try done.
    rewrite (N.compare_antisym x y). destruct (x ?= y)%N; simpl; auto.
  - intros a. induction a as [|x a IH]; intros [|y b] [|z c]; simpl; try done.
    destruct (N.compare_spec x y) as [->|Hxy|Hxy]; try done.
    + destruct (N.compare_spec y z) as [->|Hyz|Hyz]; try done. apply IH.
    + destruct (N.compare_spec y z) as [->|Hyz|Hyz]; try done; intros _ _.
      * by apply N.compare_lt_iff in Hxy as ->.
      * assert (x < z)%N as Hxz by lia. by apply N.compare_lt_iff in Hxz as ->.
  - intros a b c Hab. by apply str_compare_Eq in Hab as ->.
Qed.

Lemma key_compare_ordering : ordering key_compare.
Proof.
  destruct str_compare_ordering as [Hopp Htrans Heq]. split.
  - intros [a|] [b|]; simpl; auto.
  - intros [a|] [b|] [c|]; simpl; try done. apply Htrans.
  - intros [a|] [b|] [c|]; simpl; try done. apply Heq.
Qed.

Lemma row_compare_ordering : ordering row_compare.
Proof.
  exact (ordering_lex _ _
           (ordering_on company _ key_compare_ordering)
           (ordering_lex _ _
              (ordering_on (fun r => text_key (nationality r)) _ key_compare_ordering)
              (ordering_on full_name _ key_compare_ordering))).
Qed.

(** [str_compare] is the code point order on texts. *)
Lemma str_compare_Lt (a b : list N) : str_compare a b = Lt <-> str_lt a b.
Proof.
  unfold str_lt. split.
  - revert b. induction a as [|x a IH]; intros [|y b]; simpl; try done.
    + intros _. left. by exists y, b.
    + destruct (N.compare_spec x y) as [->|Hxy|Hxy]; try done.
      * intros Hab. destruct (IH b Hab) as [(c & t & ->)|(p & u & v & ta & tb & -> & -> & Huv)].
        -- left. by exists c, t.
        -- right. by exists (y :: p), u, v, ta, tb.
      * intros _. right. by exists [], x, y, a, b.
  - intros [(c & t & ->)|(p & u & v & ta & tb & -> & -> & Huv)].
    + induction a as [|x a IH]; simpl; [done|]. by rewrite N.compare_refl.
    + induction p as [|x p IH]; simpl.
      * by apply N.compare_lt_iff in Huv as ->.
      * by rewrite N.compare_refl.
Qed.

Lemma keys_le_total (a b : row) : row_le a b = false -> keys_le b a.
Proof.
  unfold row_le, keys_le. rewrite (cmp_opp _ row_compare_ordering a b).
  by destruct (row_compare a b).
Qed.

Lemma keys_le_trans (a b c : row) : keys_le a b -> keys_le b c -> keys_le a c.
Proof.
  unfold keys_le. pose proof row_compare_ordering as Hord.
  destruct (row_compare a b) eqn:Hab; [| |done].
  - by rewrite (cmp_eq_l _ Hord a b c Hab).
  - destruct (row_compare b c) eqn:Hbc; [| |done].
    + by rewrite <- (ordering_eq_r _ Hord a b c Hbc), Hab.
    + by rewrite (cmp_trans _ Hord a b c Hab Hbc).
Qed.

Lemma insert_row_Permutation (x : row) (l : list row) : insert_row x l ≡ₚ x :: l.
Proof.
  induction l as [|y l IH]; simpl; [done|].
  destruct (row_le x y); [done|]. rewrite IH. apply Permutation_swap.
Qed.

Lemma insert_row_sorted (x : row) (l : list row) :
  StronglySorted keys_le l -> StronglySorted keys_le (insert_row x l).
Proof.
  induction 1 as [|y l Hs IH Hy]; simpl.
  - repeat constructor.
  - destruct (row_le x y) eqn:Hxy.
    + assert (keys_le x y) as Hle by (unfold keys_le, row_le in *; by destruct (row_compare x y)).
      constructor; [by constructor|]. constructor; [done|].
      eapply Forall_impl; [exact Hy|]. intros z Hz. by eapply keys_le_trans.
    + constructor; [done|]. rewrite insert_row_Permutation.
      constructor; [by apply keys_le_total|done].
Qed.

Lemma sort_values_sorted (df : list row) : StronglySorted keys_le (sort_values df).
Proof.
  induction df as [|x l IH]; simpl; [constructor|]. by apply insert_row_sorted.
Qed.

(** Rows that agree on the three keys keep their order. *)
Lemma insert_row_stable (k x : row) (l : list row) :
  List.filter (same_keys k) (insert_row x l) = List.filter (same_keys k) (x :: l).
Proof.
  pose proof row_compare_ordering as Hord.
  induction l as [|y l IH]; [done|]. cbn [insert_row].
  destruct (row_le x y) eqn:Hxy; [done|]. cbn [List.filter] in *.
  rewrite IH. destruct (same_keys k x) eqn:Hkx, (same_keys k y) eqn:Hky; try done.
  exfalso. unfold same_keys, row_le in *.
  destruct (row_compare k x) eqn:Hx; try done.
  destruct (row_compare k y) eqn:Hy; try done.
  assert (row_compare x y = Eq) as Heq.
  { rewrite (cmp_opp _ Hord x k) in Hx. destruct (row_compare x k) eqn:Hxk; try done.
    by rewrite (cmp_eq_l _ Hord x k y Hxk). }
  by rewrite Heq in Hxy.
Qed.

Lemma sort_values_stable (k : row) (df : list row) :
  List.filter (same_keys k) (sort_values df) = List.filter (same_keys k) df.
Proof.
  induction df as [|x l IH]; [done|]. cbn [sort_values].
  rewrite insert_row_stable. cbn [List.filter]. by rewrite IH.
Qed.

Lemma key_compare_Lt (a b : option (list N)) :
  key_compare a b = Lt <-> column_lt a b.
Proof.
  destruct a as [x|], b as [y|]; cbn; try done. apply str_compare_Lt.
Qed.

Lemma key_compare_Eq (a b : option (list N)) : key_compare a b = Eq <-> a = b.
Proof.
  destruct a as [x|], b as [y|]; cbn; try done.
  rewrite str_compare_Eq. split; [by intros ->|by intros [= ->]].
Qed.

Lemma key_compare_le (a b : option (list N)) :
  key_compare a b <> Gt <-> column_le a b.
Proof.
  unfold column_le. rewrite <- key_compare_Lt, <- key_compare_Eq.
  destruct (key_compare a b); intuition congruence.
Qed.

(** On rows with text in Nationality the comparison of the sort is the
    order in the words of the specification. *)
Lemma keys_le_sorted_before (a b : row) (na nb : list N) :
  nationality a = CStr na -> nationality b = CStr nb ->
  keys_le a b ->
  column_lt (company a) (company b)
  \/ (company a = company b
      /\ (str_lt na nb \/ (na = nb /\ column_le (full_name a) (full_name b)))).
Proof.
  intros Ha Hb. unfold keys_le, row_compare. rewrite Ha, Hb. cbn [text_key key_compare].
  destruct (key_compare (company a) (company b)) eqn:Hc; [| |done].
  - apply key_compare_Eq in Hc. intros Hle. right. split; [done|].
    destruct (str_compare na nb) eqn:Hn.
    + right. split; [by apply str_compare_Eq|]. by apply key_compare_le.
    + left. by apply str_compare_Lt.
    + done.
  - intros _. left. by apply key_compare_Lt.
Qed.

Lemma same_keys_spec (a b : row) (na nb : list N) :
  nationality a = CStr na -> nationality b = CStr nb ->
  same_keys a b = true
  <-> company a = company b /\ na = nb /\ full_name a = full_name b.
Proof.
  intros Ha Hb. unfold same_keys, row_compare. rewrite Ha, Hb.
  cbn [text_key key_compare].
  rewrite <- (key_compare_Eq (company a)), <- (key_compare_Eq (full_name a)),
    <- (str_compare_Eq na).
  destruct (key_compare (company a) (company b)), (str_compare na nb),
    (key_compare (full_name a) (full_name b)); intuition congruence.
Qed.

Lemma StronglySorted_refine {A : Type} (R R' : A -> A -> Prop) (P : A -> Prop)
    (l : list A) :
  (forall a b, P a -> P b -> R a b -> R' a b) ->
  Forall P l -> StronglySorted R l -> StronglySorted R' l.
Proof.
  intros HR HP Hs. induction Hs as [|x l Hs IH Hx]; [constructor|].
  apply Forall_cons in HP as [Hpx HP]. constructor; [by apply IH|].
  rewrite Forall_forall in *. intros y Hy. apply HR; auto.
Qed.

Lemma frame_before_sort_text (raw : list raw_row) (r : row) :
  r ∈ frame_before_sort raw -> exists n, nationality r = CStr n.
Proof.
  rewrite frame_before_sort_eq. intros Hr.
  apply list_elem_of_fmap in Hr as (src & -> & _). by eexists.
Qed.

Lemma sort_values_sorted_before (raw : list raw_row) :
  StronglySorted sorted_before (sort_values (frame_before_sort raw)).
Proof.
  apply (StronglySorted_refine keys_le sorted_before
           (fun r => exists n, nationality r = CStr n));
    [| |apply sort_values_sorted].
  - intros a b [na Ha] [nb Hb] Hle. exists na, nb. split; [done|]. split; [done|].
    by apply keys_le_sorted_before.
  - apply Forall_forall. intros r Hr. apply (frame_before_sort_text raw).
    by rewrite <- (sort_values_Permutation (frame_before_sort raw)).
Qed.

(** C3. [clean_data_us] orders the rows that are left after the blank
    rows are dropped and the nationality is normalized, with the names as
    supplied (title-casing comes later): the ordered frame holds the same
    rows, each as often; it ascends by Company Full Name, then by the
    normalized Nationality text, then by Full Name, each compared as text
    by code point (so upper and lower case differ), a missing Company or
    Full Name after every text; rows that agree on all three keys keep
    their input order; and when a row is left the function returns a
    table whose row at position [i] (from 0) is made from the ordered row
    at that position and carries S/N [i + 1]. *)
Theorem clean_data_us_sorted (raw : list raw_row) :
  let before := frame_before_sort raw in
  let ordered := sort_values before in
  ordered ≡ₚ before
  /\ StronglySorted sorted_before ordered
  /\ StronglySorted keys_le ordered
  /\ (forall k, List.filter (same_keys k) ordered = List.filter (same_keys k) before)
  /\ (forall a b, a ∈ before -> b ∈ before ->
        (same_keys a b = true
         <-> company a = company b /\ nationality a = nationality b
             /\ full_name a = full_name b))
  /\ (forall r, r ∈ before ->
        exists src, src ∈ cols <$> raw
                    /\ company r = company src /\ full_name r = full_name src
                    /\ nationality r = CStr (normalize_nationality (nationality src)))
  /\ (before <> [] -> exists out, clean_data_us raw = Some out)
  /\ (forall out, clean_data_us raw = Some out ->
        out = imap finish_row ordered
        /\ length out = length before
        /\ (forall i r, out !! i = Some r -> sn r = CInt (Z.of_nat i + 1)))
  /\ ordering row_compare
  /\ (forall a b : row,
        row_compare a b
        = match key_compare (company a) (company b) with
          | Eq => match key_compare (text_key (nationality a))
                                    (text_key (nationality b)) with
                  | Eq => key_compare (full_name a) (full_name b)
                  | o => o
                  end
          | o => o
          end)
  /\ (forall s, text_key (CStr s) = Some s)
  /\ (forall a b : list N,
        (key_compare (Some a) (Some b) = Lt <-> str_lt a b)
        /\ (key_compare (Some a) (Some b) = Eq <-> a = b)
        /\ key_compare (Some a) None = Lt
        /\ key_compare None None = Eq).
Proof.
  intros before ordered.
  split; [apply sort_values_Permutation|].
  split; [apply sort_values_sorted_before|].
  split; [apply sort_values_sorted|].
  split; [intros k; apply sort_values_stable|].
  split.
  { intros a b Ha Hb.
    apply frame_before_sort_text in Ha as [na Ha], Hb as [nb Hb].
    rewrite (same_keys_spec a b na nb Ha Hb), Ha, Hb.
    split; [by intros (-> & -> & ->)|by intros (-> & [= ->] & ->)]. }
  split.
  { intros r Hr. unfold before in Hr. rewrite frame_before_sort_eq in Hr.
    apply list_elem_of_fmap in Hr as (src & -> & Hsrc).
    apply elem_of_dropna_all in Hsrc as [Hin _]. by exists src. }
  split.
  { intros Hne. exists (clean_frame raw). apply clean_data_us_Some. split; [|done].
    intros Hnil. apply Hne. unfold before. by rewrite frame_before_sort_eq, Hnil. }
  split.
  { intros out Hout. apply clean_data_us_Some in Hout as [_ ->].
    split; [apply clean_frame_unfold|].
    split.
    { rewrite clean_frame_unfold, length_imap.
      apply Permutation_length, sort_values_Permutation. }
    intros i r. rewrite clean_frame_unfold, list_lookup_imap.
    destruct (sort_values (frame_before_sort raw) !! i) as [x|]; [|done].
    intros [= <-]. cbn. f_equal. lia. }
  split; [apply row_compare_ordering|].
  split; [reflexivity|].
  split; [reflexivity|].
  intros a b. split; [apply str_compare_Lt|]. split; [apply str_compare_Eq|done].
Qed.

End CleaningFacts.

(** ** The worksheet *)

Section SheetFacts.

Implicit Types (ws : worksheet) (m : gmap (nat * nat) xcell).

Lemma max_row_spec ws (n : nat) :
  (exists c, is_Some (cells ws !! (n, c))) ->
  (forall r c, is_Some (cells ws !! (r, c)) -> r <= n) ->
  max_row ws = n.
Proof.
  intros [c [x Hx]] Hle. unfold max_row.
  assert (n ∈ cell_rows ws) as Hin.
  { unfold cell_rows. apply list_elem_of_fmap. exists ((n, c), x).
    split; [done|]. by apply elem_of_map_to_list. }
  assert (forall r, r ∈ cell_rows ws -> r <= n) as Hall.
  { intros r Hr. unfold cell_rows in Hr.
    apply list_elem_of_fmap in Hr as ([[r' c'] x'] & -> & Hr).
    apply elem_of_map_to_list in Hr. eapply Hle. by eexists. }
  destruct (cell_rows ws) as [|r0 rows] eqn:Hrows; [by apply elem_of_nil in Hin|].
  apply Nat.le_antisymm.
  - apply Hall. rewrite <- Hrows. apply max_list_elem_of.
    + by rewrite Hrows.
  - by apply max_list_elem_of_le.
Qed.

Lemma ws_cell_set_cell r c x ws r' c' :
  ws_cell r' c' (set_cell r c x ws)
  = if decide ((r, c) = (r', c')) then x else ws_cell r' c' ws.
Proof.
  unfold ws_cell, set_cell. cbn [cells]. rewrite lookup_insert.
  by case_decide.
Qed.

Lemma lookup_set_fill r c f ws r' c' :
  cells (set_fill r c f ws) !! (r', c')
  = if decide ((r, c) = (r', c')) then Some (XCell (value (ws_cell r c ws)) f)
    else cells ws !! (r', c').
Proof. unfold set_fill, set_cell. cbn [cells]. by rewrite lookup_insert. Qed.

Lemma lookup_set_value r c v ws r' c' :
  cells (set_value r c v ws) !! (r', c')
  = if decide ((r, c) = (r', c')) then Some (XCell (Some v) (cell_fill (ws_cell r c ws)))
    else cells ws !! (r', c').
Proof. unfold set_value, set_cell. cbn [cells]. by rewrite lookup_insert. Qed.

Lemma value_set_fill r c f ws r' c' :
  value (ws_cell r' c' (set_fill r c f ws)) = value (ws_cell r' c' ws).
Proof.
  unfold ws_cell at 1. rewrite lookup_set_fill.
  case_decide as Heq; [|done]. by injection Heq as <- <-.
Qed.

(** *** Writing the rows *)

Lemma lookup_write_row r c vals m r' c' :
  write_row r c vals m !! (r', c')
  = match (if bool_decide (r' = r /\ c <= c') then vals !! (c' - c) else None) with
    | Some v => Some (XCell (Some v) NoFill)
    | None => m !! (r', c')
    end.
Proof.
  revert c m. induction vals as [|v vs IH]; intros c m; cbn [write_row].
  - by case_bool_decide.
  - rewrite IH. rewrite lookup_insert.
    destruct (decide ((r, c) = (r', c'))) as [Heq|Hne].
    + injection Heq as <- <-. rewrite Nat.sub_diag.
      rewrite bool_decide_eq_false_2 by lia.
      rewrite bool_decide_eq_true_2 by lia. done.
    + destruct (decide (r' = r /\ S c <= c')) as [[-> Hc]|Hn].
      * rewrite !bool_decide_eq_true_2 by (split; [done|lia]).
        replace (c' - c) with (S (c' - S c)) by lia. done.
      * rewrite (bool_decide_eq_false_2 _ Hn).
        rewrite bool_decide_eq_false_2; [done|].
        intros [-> Hc]. destruct (decide (c = c')) as [->|Hcc]; [done|].
        apply Hn. split; [done|lia].
Qed.

Lemma foldl_append_spec (rows : list (list cell)) ws :
  current_row (foldl append ws rows) = current_row ws + length rows
  /\ forall r c,
      cells (foldl append ws rows) !! (r, c)
      = match (if bool_decide (current_row ws < r /\ 1 <= c)
               then rows !! (r - current_row ws - 1) ≫= (.!! (c - 1)) else None) with
        | Some v => Some (XCell (Some v) NoFill)
        | None => cells ws !! (r, c)
        end.
Proof.
  revert ws. induction rows as [|vals rows IH]; intros ws; cbn [foldl].
  - split; [cbn; lia|]. intros r c. by case_bool_decide.
  - destruct (IH (append ws vals)) as [Hcur Hcells].
    split; [rewrite Hcur; cbn; lia|].
    intros r c. rewrite Hcells. cbn [append current_row cells].
    rewrite lookup_write_row. set (cur := current_row ws).
    destruct (decide (S cur < r /\ 1 <= c)) as [[Hr Hc]|HnA].
    { rewrite (bool_decide_eq_true_2 (S cur < r /\ 1 <= c)) by done.
      rewrite (bool_decide_eq_false_2 (r = S cur /\ 1 <= c)) by lia.
      rewrite (bool_decide_eq_true_2 (cur < r /\ 1 <= c)) by lia.
      replace (r - cur - 1) with (S (r - S cur - 1)) by lia. done. }
    rewrite (bool_decide_eq_false_2 _ HnA).
    destruct (decide (r = S cur /\ 1 <= c)) as [[-> Hc]|HnB].
    { rewrite (bool_decide_eq_true_2 (S cur = S cur /\ 1 <= c)) by done.
      rewrite (bool_decide_eq_true_2 (cur < S cur /\ 1 <= c)) by lia.
      replace (S cur - cur - 1) with 0 by lia. done. }
    rewrite (bool_decide_eq_false_2 _ HnB).
    rewrite (bool_decide_eq_false_2 (cur < r /\ 1 <= c)) by lia. done.
Qed.

(** The sheet after the appends: the written values, unfilled. *)
Lemma lookup_written (rows : list (list cell)) r c :
  cells (foldl append empty_sheet rows) !! (r, c)
  = (fun v => XCell (Some v) NoFill) <$> written_value rows r c.
Proof.
  destruct (foldl_append_spec rows empty_sheet) as [_ ->].
  unfold written_value. cbn [current_row empty_sheet cells].
  rewrite Nat.sub_0_r, lookup_empty.
  case_bool_decide as H1; case_bool_decide as H2; try lia.
  - by destruct (rows !! (r - 1) ≫= (.!! (c - 1))).
  - done.
Qed.

(** *** The fills *)

Lemma foldl_header_fill (cs : list nat) ws r c :
  cells (foldl (fun w col => set_fill 1 col HeaderFill w) ws cs) !! (r, c)
  = if bool_decide (r = 1 /\ c ∈ cs)
    then Some (XCell (value (ws_cell 1 c ws)) HeaderFill)
    else cells ws !! (r, c).
Proof.
  revert ws. induction cs as [|c0 cs IH]; intros ws; cbn [foldl].
  - rewrite bool_decide_eq_false_2; [done|]. intros [_ Hc]. by apply elem_of_nil in Hc.
  - rewrite IH, value_set_fill, lookup_set_fill.
    destruct (decide (r = 1 /\ c ∈ cs)) as [[-> Hc]|Hn].
    + rewrite !bool_decide_eq_true_2; [done| |done]. split; [done|by right].
    + rewrite (bool_decide_eq_false_2 _ Hn).
      destruct (decide ((1, c0) = (r, c))) as [Heq|Hne].
      * injection Heq as <- <-. rewrite bool_decide_eq_true_2; [done|].
        split; [done|by left].
      * rewrite bool_decide_eq_false_2; [done|]. intros [-> Hc].
        apply elem_of_cons in Hc as [->|Hc]; [done|]. by apply Hn.
Qed.

Lemma highlight_dl_eq st r : highlight_dl st r = highlight dl_col_idx dl_test st r.
Proof. destruct st as [ws e]. reflexivity. Qed.

Lemma highlight_name_eq st r : highlight_name st r = highlight col_f_idx name_test st r.
Proof. destruct st as [ws e]. reflexivity. Qed.

Lemma foldl_pointwise {A B : Type} (f g : A -> B -> A) (a : A) (l : list B) :
  (forall x y, f x y = g x y) -> foldl f a l = foldl g a l.
Proof.
  intros Hfg. revert a. induction l as [|y l IH]; intros a; cbn; [done|].
  by rewrite Hfg, IH.
Qed.

(** A highlighting loop fills the tested cells of its column in the rows
    it visits, leaves every value as it is, and raises the flag when it
    fills a cell. *)
Lemma foldl_highlight (col : nat) (test : option cell -> bool)
    (rows : list nat) ws (e : bool) :
  let st := foldl (highlight col test) (ws, e) rows in
  (forall r c,
     cells (fst st) !! (r, c)
     = if bool_decide (c = col /\ r ∈ rows /\ test (value (ws_cell r col ws)) = true)
       then Some (XCell (value (ws_cell r col ws)) InvalidFill)
       else cells ws !! (r, c))
  /\ snd st = e || existsb (fun r => test (value (ws_cell r col ws))) rows.
Proof.
  revert ws e. induction rows as [|r0 rows IH]; intros ws e; cbn [foldl].
  - cbn. split; [|by rewrite orb_false_r]. intros r c.
    rewrite bool_decide_eq_false_2; [done|]. intros (_ & Hr & _). by apply elem_of_nil in Hr.
  - assert (highlight col test (ws, e) r0
            = if test (value (ws_cell r0 col ws))
              then (set_fill r0 col InvalidFill ws, true) else (ws, e)) as ->
      by reflexivity.
    cbn [existsb].
    destruct (test (value (ws_cell r0 col ws))) eqn:Ht.
    + destruct (IH (set_fill r0 col InvalidFill ws) true) as [Hcells Hflag].
      cbv zeta in Hcells, Hflag. split; [|by rewrite Hflag, orb_true_r].
      intros r c. rewrite Hcells, value_set_fill, lookup_set_fill.
      destruct (decide (c = col /\ r ∈ rows /\ test (value (ws_cell r col ws)) = true))
        as [(-> & Hr & Hr')|Hn].
      * rewrite !bool_decide_eq_true_2; [done| |done]. split; [done|]. split; [by right|done].
      * rewrite (bool_decide_eq_false_2 _ Hn).
        destruct (decide ((r0, col) = (r, c))) as [Heq|Hne].
        -- injection Heq as <- <-. rewrite bool_decide_eq_true_2; [done|].
           split; [done|]. split; [by left|done].
        -- rewrite bool_decide_eq_false_2; [done|]. intros (-> & Hr & Hr').
           apply elem_of_cons in Hr as [->|Hr]; [done|]. by apply Hn.
    + destruct (IH ws e) as [Hcells Hflag]. cbv zeta in Hcells, Hflag.
      split; [|by rewrite Hflag].
      * intros r c. rewrite Hcells.
        apply (f_equal (fun b : bool => if b then _ else _)).
        apply bool_decide_ext. split; intros (-> & Hr & Hr'); (split; [done|]); (split; [|done]).
        -- by right.
        -- apply elem_of_cons in Hr as [->|Hr]; [congruence|done].
Qed.

Lemma flagged_set_value r c v ws r' c' :
  flagged (set_value r c v ws) r' c' <-> flagged ws r' c'.
Proof.
  unfold flagged. rewrite lookup_set_value.
  destruct (decide ((r, c) = (r', c'))) as [Heq|Hne]; [|done].
  injection Heq as <- <-. unfold ws_cell. split.
  - intros (x & [= <-] & Hf). cbn in Hf.
    destruct (cells ws !! (r, c)) as [y|]; [by exists y|done].
  - intros (x & Hx & Hf). rewrite Hx. cbn. eauto.
Qed.

Lemma foldl_highlight_value col test rows ws e r c :
  value (ws_cell r c (fst (foldl (highlight col test) (ws, e) rows)))
  = value (ws_cell r c ws).
Proof.
  destruct (foldl_highlight col test rows ws e) as [Hcells _]. cbv zeta in Hcells.
  unfold ws_cell at 1. rewrite Hcells. case_bool_decide as Hc; [|done].
  by destruct Hc as (-> & _ & _).
Qed.

Lemma foldl_highlight_flagged col test rows ws e r c :
  flagged (fst (foldl (highlight col test) (ws, e) rows)) r c
  <-> (c = col /\ r ∈ rows /\ test (value (ws_cell r col ws)) = true)
      \/ flagged ws r c.
Proof.
  destruct (foldl_highlight col test rows ws e) as [Hcells _]. cbv zeta in Hcells.
  unfold flagged. rewrite Hcells. case_bool_decide as Hc.
  - split; [by left|]. intros _. eauto.
  - split; [by right|]. intros [?|?]; done.
Qed.

Lemma foldl_highlight_dom col test rows ws e r c :
  is_Some (cells (fst (foldl (highlight col test) (ws, e) rows)) !! (r, c))
  <-> (c = col /\ r ∈ rows /\ test (value (ws_cell r col ws)) = true)
      \/ is_Some (cells ws !! (r, c)).
Proof.
  destruct (foldl_highlight col test rows ws e) as [Hcells _]. cbv zeta in Hcells.
  rewrite Hcells. case_bool_decide as Hc.
  - split; [by left|]. intros _. eauto.
  - split; [by right|]. intros [?|?]; done.
Qed.

Lemma value_set_value_ne r c v ws r' c' :
  r' <> r -> value (ws_cell r' c' (set_value r c v ws)) = value (ws_cell r' c' ws).
Proof.
  intros Hne. unfold ws_cell at 1. rewrite lookup_set_value.
  destruct (decide ((r, c) = (r', c'))) as [Heq|_]; [|done]. by injection Heq as -> ->.
Qed.

(** *** The written grid *)

Lemma row_values_length (x : row) : length (row_values x) = 11.
Proof. reflexivity. Qed.

Lemma written_value_data (df : list row) (i c : nat) :
  written_value (written_rows df) (i + 2) c
  = if bool_decide (1 <= c) then df !! i ≫= (fun x => row_values x !! (c - 1))
    else None.
Proof.
  unfold written_value, written_rows.
  replace (i + 2 - 1) with (S i) by lia.
  change ((header :: (row_values <$> df)) !! S i) with ((row_values <$> df) !! i).
  rewrite list_lookup_fmap.
  destruct (decide (1 <= c)) as [Hc|Hc].
  - rewrite !bool_decide_eq_true_2 by lia. by destruct (df !! i).
  - rewrite !bool_decide_eq_false_2 by lia. done.
Qed.

Lemma written_value_is_Some (df : list row) (r c : nat) :
  is_Some (written_value (written_rows df) r c) -> 1 <= r <= length df + 1.
Proof.
  unfold written_value. case_bool_decide as Hrc; [|by intros [? ?]].
  intros [v Hv]. destruct (written_rows df !! (r - 1)) as [vals|] eqn:Hrow; [|done].
  apply lookup_lt_Some in Hrow. unfold written_rows in Hrow.
  cbn [length] in Hrow. rewrite length_fmap in Hrow. lia.
Qed.

Lemma written_rows_width (df : list row) (vals : list cell) :
  vals ∈ written_rows df -> length vals = 11.
Proof.
  unfold written_rows. intros Hv. apply elem_of_cons in Hv as [->|Hv]; [done|].
  by apply list_elem_of_fmap in Hv as (x & -> & _).
Qed.

Lemma written_value_last (df : list row) :
  is_Some (written_value (written_rows df) (length df + 1) 1).
Proof.
  unfold written_value. rewrite bool_decide_eq_true_2 by lia.
  replace (length df + 1 - 1) with (length df) by lia.
  destruct (lookup_lt_is_Some_2 (written_rows df) (length df)) as [vals Hrow].
  { unfold written_rows. cbn [length]. rewrite length_fmap. lia. }
  rewrite Hrow. cbn. apply lookup_lt_is_Some_2.
  rewrite (written_rows_width df vals); [lia|]. by eapply list_elem_of_lookup_2.
Qed.

Lemma value_written (df : list row) r c :
  value (ws_cell r c (foldl append empty_sheet (written_rows df)))
  = written_value (written_rows df) r c.
Proof.
  unfold ws_cell. rewrite lookup_written.
  by destruct (written_value (written_rows df) r c).
Qed.

Lemma header_stage (df : list row) (cs : list nat) :
  let rows := written_rows df in
  let ws2 := foldl (fun w col => set_fill 1 col HeaderFill w)
                   (foldl append empty_sheet rows) cs in
  (forall r c, value (ws_cell r c ws2) = written_value rows r c)
  /\ (forall r c, ~ flagged ws2 r c)
  /\ (forall r c, is_Some (cells ws2 !! (r, c)) -> r <= length df + 1)
  /\ is_Some (cells ws2 !! (length df + 1, 1)).
Proof.
  intros rows ws2.
  assert (forall r c,
            cells ws2 !! (r, c)
            = if bool_decide (r = 1 /\ c ∈ cs)
              then Some (XCell (written_value rows r c) HeaderFill)
              else (fun v => XCell (Some v) NoFill) <$> written_value rows r c)
    as Hcells.
  { intros r c. unfold ws2, rows. rewrite foldl_header_fill, lookup_written.
    case_bool_decide as Hc; [|done]. destruct Hc as [-> _].
    by rewrite value_written. }
  split.
  { intros r c. unfold ws_cell. rewrite Hcells.
    case_bool_decide; [done|]. by destruct (written_value rows r c). }
  split.
  { intros r c (x & Hx & Hf). rewrite Hcells in Hx.
    case_bool_decide; [by injection Hx as <-|].
    destruct (written_value rows r c); [by injection Hx as <-|done]. }
  split.
  { intros r c. rewrite Hcells. case_bool_decide as Hc; [lia|].
    intros Hs. apply fmap_is_Some in Hs. apply written_value_is_Some in Hs. lia. }
  rewrite Hcells. case_bool_decide; [done|].
  apply fmap_is_Some, written_value_last.
Qed.

Lemma existsb_pointwise {A : Type} (f g : A -> bool) (l : list A) :
  (forall x, f x = g x) -> existsb f l = existsb g l.
Proof. intros Hfg. induction l as [|x l IH]; cbn; [done|]. by rewrite Hfg, IH. Qed.

(** The Visitor List sheet after [write_visitor_list]: the data rows hold
    the written values, the invalid fill is on the tested cells of
    columns G and F of the data rows and nowhere else, and the flag is
    raised when one of the tests succeeds. *)
Lemma write_visitor_list_spec (df : list row) :
  let n := length df in
  let rows := written_rows df in
  let res := write_visitor_list df empty_sheet in
  (forall r c, 2 <= r <= n + 1 ->
     value (ws_cell r c (fst res)) = written_value rows r c)
  /\ (forall r c,
        flagged (fst res) r c
        <-> 2 <= r <= n + 1
            /\ ((c = 7 /\ dl_test (written_value rows r 7) = true)
                \/ (c = 6 /\ name_test (written_value rows r 6) = true)))
  /\ snd res
     = existsb (fun r => dl_test (written_value rows r 7)) (seq 2 n)
       || existsb (fun r => name_test (written_value rows r 6)) (seq 2 n).
Proof.
  intros n rows res. unfold res, write_visitor_list.
  fold (written_rows df). fold rows.
  set (ws1 := foldl append empty_sheet rows).
  set (cs := range 1 (max_column ws1 + 1)).
  destruct (header_stage df cs) as (Hv2 & Hf2 & Hd2 & Hl2). cbv zeta in *.
  fold rows ws1 n in Hv2, Hf2, Hd2, Hl2.
  set (ws2 := foldl (fun w col => set_fill 1 col HeaderFill w) ws1 cs) in *.
  assert (max_row ws2 = n + 1) as -> by (apply max_row_spec; eauto).
  unfold range. replace (n + 1 + 1 - 2) with n by lia.
  assert (forall r, r ∈ seq 2 n <-> 2 <= r <= n + 1) as Hseq.
  { intros r. rewrite elem_of_seq. lia. }
  (* column G *)
  rewrite (foldl_pointwise _ _ _ _ highlight_dl_eq).
  set (st3 := foldl (highlight dl_col_idx dl_test) (ws2, false) (seq 2 n)).
  assert (forall r c, value (ws_cell r c (fst st3)) = written_value rows r c) as Hv3.
  { intros r c. unfold st3. by rewrite foldl_highlight_value. }
  assert (forall r c, flagged (fst st3) r c
            <-> c = 7 /\ 2 <= r <= n + 1 /\ dl_test (written_value rows r 7) = true) as Hf3.
  { intros r c. unfold st3. rewrite foldl_highlight_flagged, Hv2, Hseq.
    unfold dl_col_idx. specialize (Hf2 r c). tauto. }
  assert (forall r c, is_Some (cells (fst st3) !! (r, c)) -> r <= n + 1) as Hd3.
  { intros r c. unfold st3. rewrite foldl_highlight_dom, Hseq.
    intros [(_ & Hr & _)|Hs]; [lia|by eapply Hd2]. }
  assert (is_Some (cells (fst st3) !! (n + 1, 1))) as Hl3.
  { unfold st3. rewrite foldl_highlight_dom. by right. }
  assert (snd st3 = existsb (fun r => dl_test (written_value rows r 7)) (seq 2 n)) as He3.
  { unfold st3. destruct (foldl_highlight dl_col_idx dl_test (seq 2 n) ws2 false) as [_ ->].
    cbn [orb]. apply existsb_pointwise. intros r. by rewrite Hv2. }
  assert (max_row (fst st3) = n + 1) as -> by (apply max_row_spec; eauto).
  clearbody st3. destruct st3 as [ws3 e3]. cbn [fst snd] in *. subst e3.
  replace (n + 1 + 1 - 2) with n by lia.
  (* column F *)
  rewrite (foldl_pointwise _ _ _ _ highlight_name_eq).
  set (st4 := foldl (highlight col_f_idx name_test) (ws3, _) (seq 2 n)).
  assert (forall r c, value (ws_cell r c (fst st4)) = written_value rows r c) as Hv4.
  { intros r c. unfold st4. by rewrite foldl_highlight_value. }
  assert (forall r c, flagged (fst st4) r c
            <-> 2 <= r <= n + 1
                /\ ((c = 7 /\ dl_test (written_value rows r 7) = true)
                    \/ (c = 6 /\ name_test (written_value rows r 6) = true))) as Hf4.
  { intros r c. unfold st4. rewrite foldl_highlight_flagged, Hv3, Hseq, Hf3.
    unfold col_f_idx. tauto. }
  assert (forall r c, is_Some (cells (fst st4) !! (r, c)) -> r <= n + 1) as Hd4.
  { intros r c. unfold st4. rewrite foldl_highlight_dom, Hseq.
    intros [(_ & Hr & _)|Hs]; [lia|by eapply Hd3]. }
  assert (is_Some (cells (fst st4) !! (n + 1, 1))) as Hl4.
  { unfold st4. rewrite foldl_highlight_dom. by right. }
  assert (snd st4
          = existsb (fun r => dl_test (written_value rows r 7)) (seq 2 n)
            || existsb (fun r => name_test (written_value rows r 6)) (seq 2 n)) as He4.
  { unfold st4.
    destruct (foldl_highlight col_f_idx name_test (seq 2 n) ws3
                (existsb (fun r => dl_test (written_value rows r 7)) (seq 2 n)))
      as [_ ->].
    f_equal. apply existsb_pointwise. intros r. by rewrite Hv3. }
  assert (max_row (fst st4) = n + 1) as Hmax4 by (apply max_row_spec; eauto).
  clearbody st4. destruct st4 as [ws4 e4]. cbn [fst snd] in *. subst e4.
  rewrite Hmax4.
  (* the summary lies below the data rows *)
  destruct (plate_tokens df) as [|p ps]; cbn [fst snd].
  - split.
    { intros r c Hr. rewrite !value_set_value_ne by lia. apply Hv4. }
    split; [|done].
    intros r c. by rewrite !flagged_set_value.
  - split.
    { intros r c Hr. rewrite !value_set_value_ne by lia. apply Hv4. }
    split; [|done].
    intros r c. by rewrite !flagged_set_value.
Qed.

End SheetFacts.

(** ** The writer *)

Section WriterFacts.

Lemma isspace_not_digit (c : N) : Py.isspace c = true -> Py.isdigit c = false.
Proof.
  unfold Py.isspace. rewrite bool_decide_eq_true. intros Hc.
  repeat (apply elem_of_cons in Hc as [->|Hc]; [by vm_compute|]).
  by apply elem_of_nil in Hc.
Qed.

Lemma lstrip_id (s : list N) :
  (forall c, head s = Some c -> Py.isspace c = false) -> Py.lstrip s = s.
Proof.
  destruct s as [|c r]; [done|]. intros Hc. cbn. by rewrite (Hc c eq_refl).
Qed.

Lemma strip_digits (s : list N) : all_digits s -> Py.strip s = s.
Proof.
  intros Hs. unfold Py.strip, Py.rstrip.
  assert (forall t : list N, all_digits t -> Py.lstrip t = t) as Hl.
  { intros t Ht. apply lstrip_id. intros c Hc.
    destruct t as [|c' t']; [done|]. injection Hc as ->.
    apply Forall_cons in Ht as [Hd _].
    destruct (Py.isspace c) eqn:Hsp; [|done].
    apply isspace_not_digit in Hsp. congruence. }
  rewrite (Hl s Hs), Hl; [apply rev_involutive|].
  unfold all_digits. by apply Forall_rev.
Qed.

(** On trimmed text the pattern of the writer accepts exactly the texts
    of four digit characters. *)
Lemma dl_pattern_match_strip (s : list N) :
  dl_pattern_match (Py.strip s) = true <-> four_digits (Py.strip s).
Proof.
  destruct (strip_spec s) as (l & r & _ & _ & _ & _ & Hlast).
  set (t := Py.strip s) in *. clearbody t. unfold four_digits, dl_pattern_match.
  destruct t as [|a [|b [|c [|d [|e [|f t]]]]]]; try (split; [done|by intros [? _]]).
  - rewrite forallb_forall, Forall_forall. split.
    + intros Hall. split; [done|]. intros x Hx. apply Hall. by apply list_elem_of_In.
    + intros [_ Hall] x Hx. apply Hall. by apply list_elem_of_In.
  - split; [|by intros [? _]]. rewrite andb_true_iff. intros [_ He].
    apply N.eqb_eq in He as ->. by specialize (Hlast 10%N eq_refl).
Qed.

Lemma name_text_strip (v : cell) : name_text (Some v) = Py.strip (str v).
Proof. destruct v as [|[|c s]|z|t]; reflexivity. Qed.

(** *** Sheets of the workbook *)

Lemma get_sheet_put_sheet_ne (name name' : list N) (ws : worksheet) (wb : workbook) :
  name' <> name -> get_sheet name' (put_sheet name ws wb) = get_sheet name' wb.
Proof.
  intros Hne. induction wb as [|[n old] wb IH]; cbn; [done|].
  case_bool_decide as Hn; cbn.
  - subst n. by rewrite !bool_decide_eq_false_2 by done.
  - case_bool_decide; [done|apply IH].
Qed.

Lemma get_sheet_put_sheet (name : list N) (ws : worksheet) (wb : workbook) :
  name ∈ sheetnames wb -> get_sheet name (put_sheet name ws wb) = Some ws.
Proof.
  unfold sheetnames. induction wb as [|[n old] wb IH]; cbn.
  - intros Hin. by apply elem_of_nil in Hin.
  - intros Hin. case_bool_decide as Hn; cbn.
    + by rewrite bool_decide_eq_true_2.
    + rewrite bool_decide_eq_false_2 by done. apply IH.
      apply elem_of_cons in Hin as [Heq|Hin]; [congruence|done].
Qed.

Lemma sheetnames_put_sheet (name : list N) (ws : worksheet) (wb : workbook) :
  sheetnames (put_sheet name ws wb) = sheetnames wb.
Proof.
  unfold sheetnames. induction wb as [|[n old] wb IH]; cbn; [done|].
  case_bool_decide; cbn; [done|by rewrite IH].
Qed.

Lemma put_sheet_others (name : list N) (ws : worksheet) (wb : workbook) :
  List.filter (fun s => negb (bool_decide (fst s = name))) (put_sheet name ws wb)
  = List.filter (fun s => negb (bool_decide (fst s = name))) wb.
Proof.
  induction wb as [|[n old] wb IH]; cbn; [done|].
  case_bool_decide as Hn; cbn.
  - by rewrite bool_decide_eq_true_2.
  - rewrite bool_decide_eq_false_2 by done. cbn. by rewrite IH.
Qed.

Lemma put_sheet_lookup_other (name : list N) (ws old : worksheet) (wb : workbook)
    (i : nat) (n : list N) :
  n <> name -> wb !! i = Some (n, old) -> put_sheet name ws wb !! i = Some (n, old).
Proof.
  intros Hne. revert i. induction wb as [|[n' old'] wb IH]; intros i; cbn; [done|].
  case_bool_decide as Hn.
  - destruct i as [|i]; cbn; [|done]. intros [= -> ->]. done.
  - destruct i as [|i]; cbn; [done|]. apply IH.
Qed.

Lemma put_sheet_new (name : list N) (ws old : worksheet) (wb : workbook) :
  name ∉ sheetnames wb -> put_sheet name ws (wb ++ [(name, old)]) = wb ++ [(name, ws)].
Proof.
  unfold sheetnames. induction wb as [|[n old'] wb IH]; cbn.
  - intros _. by rewrite bool_decide_eq_true_2.
  - intros Hnot. apply not_elem_of_cons in Hnot as [Hne Hnot].
    rewrite bool_decide_eq_false_2 by done. by rewrite IH.
Qed.

Lemma get_sheet_app_new (name name' : list N) (ws : worksheet) (wb : workbook) :
  get_sheet name' (wb ++ [(name, ws)])
  = match get_sheet name' wb with
    | Some x => Some x
    | None => if bool_decide (name = name') then Some ws else None
    end.
Proof.
  induction wb as [|[n old] wb IH]; [reflexivity|].
  cbn [app get_sheet]. destruct (bool_decide (n = name')); [done|apply IH].
Qed.

Lemma get_sheet_None (name : list N) (wb : workbook) :
  name ∉ sheetnames wb -> get_sheet name wb = None.
Proof.
  unfold sheetnames. induction wb as [|[n old] wb IH]; cbn; [done|].
  intros Hnot. apply not_elem_of_cons in Hnot as [Hne Hnot].
  rewrite bool_decide_eq_false_2 by done. by apply IH.
Qed.

(** The saved workbook: the Visitor List sheet is the one written on an
    empty sheet, in the place of the old one or after the other sheets. *)
Lemma generate_visitor_only_us_unfold (df : list row) (wb : workbook) :
  generate_visitor_only_us df wb
  = (if bool_decide (visitor_list ∈ sheetnames wb)
     then put_sheet visitor_list (fst (write_visitor_list df empty_sheet)) wb
     else wb ++ [(visitor_list, fst (write_visitor_list df empty_sheet))],
     snd (write_visitor_list df empty_sheet)).
Proof.
  unfold generate_visitor_only_us. case_bool_decide as Hin.
  - unfold delete_all_rows. fold empty_sheet.
    by destruct (write_visitor_list df empty_sheet).
  - unfold create_sheet.
    destruct (write_visitor_list df empty_sheet) as [ws e]. cbn [fst snd].
    by rewrite put_sheet_new.
Qed.

(** C8. In the workbook that is saved every sheet with another title
    than "Visitor List" is the sheet of the uploaded workbook, with its
    title, its cells and its place among the sheets; the titles are those
    of the upload, followed by "Visitor List" when the upload had no such
    sheet. The Visitor List sheet of the result holds what the writer puts
    on an empty sheet, whatever the sheet held before. *)
Theorem generate_visitor_only_us_keeps_other_sheets (df : list row) (wb : workbook) :
  let out := fst (generate_visitor_only_us df wb) in
  (forall name, name <> visitor_list -> get_sheet name out = get_sheet name wb)
  /\ (forall i name ws, name <> visitor_list ->
        wb !! i = Some (name, ws) -> out !! i = Some (name, ws))
  /\ List.filter (fun s => negb (bool_decide (fst s = visitor_list))) out
     = List.filter (fun s => negb (bool_decide (fst s = visitor_list))) wb
  /\ sheetnames out
     = (if bool_decide (visitor_list ∈ sheetnames wb) then sheetnames wb
        else sheetnames wb ++ [visitor_list])
  /\ get_sheet visitor_list out = Some (fst (write_visitor_list df empty_sheet))
  /\ (forall r c, cells (fst (write_visitor_list df empty_sheet)) !! (r, c)
                  = cells (fst (write_visitor_list df (delete_all_rows
                       (default empty_sheet (get_sheet visitor_list wb))))) !! (r, c)).
Proof.
  intros out. unfold out. rewrite generate_visitor_only_us_unfold. cbn [fst].
  set (ws := fst (write_visitor_list df empty_sheet)).
  case_bool_decide as Hin.
  - split; [intros name Hne; by apply get_sheet_put_sheet_ne|].
    split; [intros i name old Hne; by apply put_sheet_lookup_other|].
    split; [apply put_sheet_others|].
    split; [apply sheetnames_put_sheet|].
    split; [by apply get_sheet_put_sheet|done].
  - split.
    { intros name Hne. rewrite get_sheet_app_new.
      destruct (get_sheet name wb); [done|]. by rewrite bool_decide_eq_false_2. }
    split.
    { intros i name old _ Hi. by apply lookup_app_l_Some. }
    split.
    { rewrite List.filter_app. cbn. rewrite bool_decide_eq_true_2 by done.
      cbn. by rewrite app_nil_r. }
    split.
    { unfold sheetnames. by rewrite fmap_app. }
    split; [|done].
    rewrite get_sheet_app_new, get_sheet_None by done.
    by rewrite bool_decide_eq_true_2.
Qed.

Lemma generate_visitor_list_sheet (df : list row) (wb : workbook) :
  get_sheet visitor_list (fst (generate_visitor_only_us df wb))
  = Some (fst (write_visitor_list df empty_sheet))
  /\ snd (generate_visitor_only_us df wb) = snd (write_visitor_list df empty_sheet).
Proof.
  rewrite generate_visitor_only_us_unfold. cbn [fst snd]. split; [|done].
  case_bool_decide as Hin.
  - by apply get_sheet_put_sheet.
  - rewrite get_sheet_app_new, get_sheet_None by done.
    by rewrite bool_decide_eq_true_2.
Qed.

(** The flags of the writer for any frame: the tests are made on the
    trimmed text of the written value. *)
Lemma generate_flags_any (df : list row) (wb : workbook) :
  let res := generate_visitor_only_us df wb in
  exists ws,
    get_sheet visitor_list (fst res) = Some ws
    /\ (forall i r, df !! i = Some r ->
          value (ws_cell (i + 2) 7 ws) = Some (dl r)
          /\ value (ws_cell (i + 2) 6 ws) = Some (middle_last r)
          /\ (flagged ws (i + 2) 7 <-> ~ four_digits (Py.strip (str (dl r))))
          /\ (flagged ws (i + 2) 6 <-> Py.strip (str (middle_last r)) = []))
    /\ (forall r c, flagged ws r c ->
          (c = 6 \/ c = 7) /\ exists i, r = i + 2 /\ i < length df)
    /\ (snd res = true <-> exists r c, flagged ws r c).
Proof.
  intros res. destruct (generate_visitor_list_sheet df wb) as [Hsheet Hflag].
  fold res in Hsheet, Hflag.
  exists (fst (write_visitor_list df empty_sheet)). split; [done|].
  destruct (write_visitor_list_spec df) as (Hv & Hf & He). cbv zeta in Hv, Hf, He.
  set (ws := fst (write_visitor_list df empty_sheet)) in *.
  assert (forall i r, df !! i = Some r ->
            written_value (written_rows df) (i + 2) 7 = Some (dl r)
            /\ written_value (written_rows df) (i + 2) 6 = Some (middle_last r))
    as Hwritten.
  { intros i r Hi. rewrite !written_value_data, !bool_decide_eq_true_2 by lia.
    by rewrite Hi. }
  assert (forall v, dl_test (Some v) = true <-> ~ four_digits (Py.strip (str v))) as Hdl.
  { intros v. unfold dl_test. cbn [dl_text]. rewrite <- dl_pattern_match_strip.
    destruct (dl_pattern_match (Py.strip (str v))); cbn; intuition congruence. }
  assert (forall v, name_test (Some v) = true <-> Py.strip (str v) = []) as Hname.
  { intros v. unfold name_test. by rewrite bool_decide_eq_true, name_text_strip. }
  split.
  { intros i r Hi. destruct (Hwritten i r Hi) as [H7 H6].
    pose proof (lookup_lt_Some _ _ _ Hi) as Hlt.
    split; [rewrite Hv by lia; done|]. split; [rewrite Hv by lia; done|].
    rewrite !Hf, H7, H6, Hdl, Hname. split.
    - split; [intros [_ [[_ ?]|[? _]]]; [done|lia]|]. intros Hn. split; [lia|]. by left.
    - split; [intros [_ [[? _]|[_ ?]]]; [lia|done]|]. intros Hn. split; [lia|]. by right. }
  split.
  { intros r c Hfl. apply Hf in Hfl as [Hr Hc]. split; [tauto|].
    exists (r - 2). lia. }
  rewrite Hflag, He, orb_true_iff, !existsb_exists. split.
  - intros [(r & Hr & Ht)|(r & Hr & Ht)]; apply in_seq in Hr.
    + exists r, 7. apply Hf. split; [lia|]. by left.
    + exists r, 6. apply Hf. split; [lia|]. by right.
  - intros (r & c & Hfl). apply Hf in Hfl as [Hr [[_ Ht]|[_ Ht]]].
    + left. exists r. split; [apply in_seq; lia|done].
    + right. exists r. split; [apply in_seq; lia|done].
Qed.

End WriterFacts.

(** ** The cleaned table in the workbook *)

Section PipelineFacts.
Context `{CaseTables}.

Lemma clean_frame_lookup (raw : list raw_row) (i : nat) (r : row) :
  clean_frame raw !! i = Some r ->
  exists src, src ∈ cols <$> raw /\ all_blank src = false
              /\ r = finish_row i (with_nationality src).
Proof.
  rewrite clean_frame_unfold, list_lookup_imap. intros Hr.
  destruct (sort_values (frame_before_sort raw) !! i) as [x|] eqn:Hx; [|done].
  injection Hr as <-.
  apply list_elem_of_lookup_2 in Hx. rewrite sort_values_Permutation in Hx.
  rewrite frame_before_sort_eq in Hx.
  apply list_elem_of_fmap in Hx as (src & -> & Hsrc).
  apply elem_of_dropna_all in Hsrc as [Hin Hb]. eauto.
Qed.

(** C1. In the workbook generated from the cleaned table, for every
    data row (row [i + 2] of the sheet holds row [i] of the table): the
    Driver License Number cell (column G) holds the cleaned value and
    carries the invalid fill exactly when that value is not a text of
    exactly four digit characters, which for a cleaned value means that
    it has fewer than four; the Middle and Last Name cell (column F)
    carries it exactly when its value is empty once trimmed; no cell
    outside these two columns of the data rows carries it; and the flag
    returned is true exactly when some cell carries it. *)
Theorem generate_visitor_only_us_flags (raw : list raw_row) (df : list row)
    (wb : workbook) :
  clean_data_us raw = Some df ->
  let res := generate_visitor_only_us df wb in
  exists ws,
    get_sheet visitor_list (fst res) = Some ws
    /\ (forall i r, df !! i = Some r ->
          value (ws_cell (i + 2) 7 ws) = Some (dl r)
          /\ value (ws_cell (i + 2) 6 ws) = Some (middle_last r)
          /\ (flagged ws (i + 2) 7 <-> ~ four_digits (str (dl r)))
          /\ (flagged ws (i + 2) 7 <-> length (str (dl r)) < 4)
          /\ (flagged ws (i + 2) 6 <-> Py.strip (str (middle_last r)) = []))
    /\ (forall r c, flagged ws r c ->
          (c = 6 \/ c = 7) /\ exists i, r = i + 2 /\ i < length df)
    /\ (snd res = true <-> exists r c, flagged ws r c).
Proof.
  intros Hdf res. apply clean_data_us_Some in Hdf as [_ ->].
  destruct (generate_flags_any (clean_frame raw) wb)
    as (ws & Hsheet & Hrows & Honly & Hflag).
  exists ws. split; [done|]. split; [|by split].
  intros i r Hi. destruct (Hrows i r Hi) as (H7 & H6 & Hdl & Hname).
  split; [done|]. split; [done|].
  apply clean_frame_lookup in Hi as (src & _ & _ & ->).
  destruct (clean_driver_license_spec (dl src)) as (Hdig & Hlen & _).
  change (dl (finish_row i (with_nationality src)))
    with (CStr (clean_driver_license (dl src))) in *.
  cbn [str] in *. rewrite (strip_digits _ Hdig) in Hdl.
  split; [done|]. split; [|done].
  rewrite Hdl. unfold four_digits. split.
  - intros Hn. destruct (decide (length (clean_driver_license (dl src)) = 4)); [|lia].
    exfalso. by apply Hn.
  - intros Hlt [Heq _]. lia.
Qed.

(** C10. A row whose Full Name is missing and which is kept (another
    of the seven checked cells is present) comes out, at some position
    [i], with the text "Nan" as Full Name and as First Name and the empty
    text as Middle and Last Name; in the generated workbook the Middle
    and Last Name cell of its row carries the invalid fill and the flag
    returned is true. *)
Theorem missing_full_name_is_flagged (raw : list raw_row) (wb : workbook)
    (src : raw_row) :
  src ∈ raw ->
  full_name (cols src) = None ->
  all_blank (cols src) = false ->
  exists df i r ws,
    clean_data_us raw = Some df
    /\ df !! i = Some r
    /\ r = finish_row i (with_nationality (cols src))
    /\ full_name r = Some (Py.lit "Nan")
    /\ first_name r = CStr (Py.lit "Nan")
    /\ middle_last r = CStr []
    /\ get_sheet visitor_list (fst (generate_visitor_only_us df wb)) = Some ws
    /\ flagged ws (i + 2) 6
    /\ snd (generate_visitor_only_us df wb) = true.
Proof.
  intros Hsrc Hname Hkept.
  assert (clean_data_us raw = Some (clean_frame raw)) as Hdf.
  { apply clean_data_us_Some. split; [|done]. intros Hnil.
    assert (cols src ∈ dropna_all (cols <$> raw)) as Hin.
    { apply elem_of_dropna_all. split; [|done]. by apply list_elem_of_fmap_2. }
    rewrite Hnil in Hin. by apply elem_of_nil in Hin. }
  assert (with_nationality (cols src) ∈ sort_values (frame_before_sort raw)) as Hin.
  { rewrite sort_values_Permutation, frame_before_sort_eq.
    apply list_elem_of_fmap_2, elem_of_dropna_all. split; [|done].
    by apply list_elem_of_fmap_2. }
  apply list_elem_of_lookup_1 in Hin as [i Hi].
  set (r := finish_row i (with_nationality (cols src))).
  assert (clean_frame raw !! i = Some r) as Hr.
  { by rewrite clean_frame_unfold, list_lookup_imap, Hi. }
  assert (title (Py.lit "nan") = Py.lit "Nan") as Htitle.
  { rewrite title_ascii; [reflexivity|]. unfold Ascii7.is_ascii. by repeat constructor. }
  assert (full_name r = Some (Py.lit "Nan")) as Hfull.
  { unfold r, finish_row, clean_fields. cbn [full_name set_full_name set_names
      set_mobile set_gender set_dl set_plate set_sn with_nationality set_nationality].
    rewrite Hname. cbn [name_cell str]. by rewrite Htitle. }
  assert (first_name r = CStr (Py.lit "Nan") /\ middle_last r = CStr []) as [Hfirst Hrest].
  { unfold r, finish_row, clean_fields. cbn [full_name first_name middle_last
      set_full_name set_names set_mobile set_gender set_dl set_plate set_sn
      with_nationality set_nationality fst snd].
    rewrite Hname. cbn [name_cell str]. rewrite Htitle. by split. }
  destruct (generate_flags_any (clean_frame raw) wb)
    as (ws & Hsheet & Hrows & _ & Hflag).
  destruct (Hrows i r Hr) as (_ & _ & _ & Hf6).
  assert (flagged ws (i + 2) 6) as Hflagged.
  { apply Hf6. by rewrite Hrest. }
  exists (clean_frame raw), i, r, ws. repeat (split; [done|]). apply Hflag. eauto.
Qed.

End PipelineFacts.

(** ** The examples *)

Example clean_data_us_sample :
  clean_data_us sample_upload
  = Some
    [ Row (CInt 1) (CStr []) (Some (Py.lit "Alpha")) (Some (Py.lit "Nan"))
          (CStr (Py.lit "Nan")) (CStr []) (CStr (Py.lit "5544"))
          (CStr (Py.lit "China")) (CStr (Py.lit "Female"))
          (CStr (Py.lit "5550109999")) CNaN;
      Row (CInt 2) (CStr (Py.lit "abc;d;e")) (Some (Py.lit "Beta Ltd"))
          (Some (Py.lit "John Michael Smith")) (CStr (Py.lit "John"))
          (CStr (Py.lit "Michael Smith")) (CStr (Py.lit "123"))
          (CStr (Py.lit "United States")) (CStr (Py.lit "Male"))
          (CStr (Py.lit "1234567890")) CNaN ].
Proof. vm_compute. reflexivity. Qed.

Example generate_sample_has_errors :
  (fun df => snd (generate_visitor_only_us df [])) <$> clean_data_us sample_upload
  = Some true.
Proof. vm_compute. reflexivity. Qed.

Example clean_data_us_raises :
  clean_data_us [] = None
  /\ clean_data_us [RawRow remarks_only_row []] = None.
Proof. split; vm_compute; reflexivity. Qed.

Example generate_tidy_has_no_errors :
  clean_data_us tidy_upload
  = Some
    [ Row (CInt 1) (CStr []) (Some (Py.lit "Alpha")) (Some (Py.lit "Li Wei"))
          (CStr (Py.lit "Li")) (CStr (Py.lit "Wei")) (CStr (Py.lit "7734"))
          (CStr (Py.lit "China")) (CStr (Py.lit "Male"))
          (CStr (Py.lit "5550105678")) (CStr (Py.lit "escort needed"));
      Row (CInt 2) (CStr (Py.lit "ABC123")) (Some (Py.lit "Beta Ltd"))
          (Some (Py.lit "Jane Doe")) (CStr (Py.lit "Jane")) (CStr (Py.lit "Doe"))
          (CStr (Py.lit "4821")) (CStr (Py.lit "United States"))
          (CStr (Py.lit "Female")) (CStr (Py.lit "5550101234")) CNaN ]
  /\ (fun df => snd (generate_visitor_only_us df [])) <$> clean_data_us tidy_upload
     = Some false.
Proof. split; vm_compute; reflexivity. Qed.

Example clean_driver_license_examples :
  clean_driver_license (CStr (Py.lit "A1-23.0")) = Py.lit "123"
  /\ clean_driver_license (CStr (Py.lit "998877665544")) = Py.lit "5544"
  /\ clean_driver_license (CStr (Py.lit "12345.0")) = Py.lit "2345"
  /\ clean_driver_license CNaN = [].
Proof. repeat split; reflexivity. Qed.

Example upper_case_sorts_first :
  str_compare (Py.lit "Zeta") (Py.lit "alpha") = Lt.
Proof. reflexivity. Qed.

Lemma clean_data_us_formats_witness :
  let df := clean_frame sample_upload in
  let r := finish_row 0 (with_nationality alpha_row) in
  clean_data_us sample_upload = Some df
  /\ r ∈ df
  /\ exists src d m,
       src ∈ cols <$> sample_upload
       /\ dl r = CStr d /\ mobile r = CStr m
       /\ all_digits d /\ length d <= 4
       /\ (exists front,
             Py.sub_nondigits (sub_dot_zero (str (fillna_empty (dl src)))) = front ++ d
             /\ (front = [] \/ length d = 4))
       /\ m = fix_mobile (mobile src)
       /\ all_digits m /\ length m = 10
       /\ (Forall (fun c => Py.isdigit c = true -> Py.is_ascii_digit c = true)
                  (str (mobile src)) ->
           all_ascii_digits m).
Proof.
  intros df r.
  assert (clean_data_us sample_upload = Some df) as Hdf by (vm_compute; reflexivity).
  assert (r ∈ df) as Hin.
  { apply list_elem_of_In. vm_compute. left. reflexivity. }
  split; [exact Hdf|]. split; [exact Hin|].
  exact (clean_data_us_formats sample_upload df r Hdf Hin).
Defined.

(** C5, as the specification words it, fails for a mobile number typed
    with Arabic-Indic digits: the cleaned value is ten digit characters,
    none of them an ASCII digit. *)
Lemma clean_data_us_ascii_counterexample :
  exists df r m,
    clean_data_us [RawRow arabic_indic_row []] = Some df
    /\ r ∈ df
    /\ mobile r = CStr m
    /\ m = [1632; 1633; 1634; 1635; 1636; 1637; 1638; 1639; 1640; 1641]%N
    /\ length m = 10 /\ all_digits m
    /\ ~ all_ascii_digits m.
Proof.
  eexists _, _, _. split; [vm_compute; reflexivity|]. split.
  { apply list_elem_of_In. left. reflexivity. }
  split; [reflexivity|]. split; [reflexivity|]. split; [reflexivity|].
  split.
  - unfold all_digits. repeat constructor.
  - unfold all_ascii_digits. intros Hall. apply Forall_cons in Hall as [Hc _].
    discriminate.
Qed.

Lemma missing_full_name_is_flagged_witness :
  RawRow alpha_row [CStr (Py.lit "twelfth column")] ∈ sample_upload
  /\ full_name alpha_row = None
  /\ all_blank alpha_row = false
  /\ exists df i r ws,
       clean_data_us sample_upload = Some df
       /\ df !! i = Some r
       /\ full_name r = Some (Py.lit "Nan")
       /\ first_name r = CStr (Py.lit "Nan")
       /\ middle_last r = CStr []
       /\ get_sheet visitor_list (fst (generate_visitor_only_us df [])) = Some ws
       /\ flagged ws (i + 2) 6
       /\ snd (generate_visitor_only_us df []) = true.
Proof.
  assert (RawRow alpha_row [CStr (Py.lit "twelfth column")] ∈ sample_upload) as Hin.
  { unfold sample_upload. apply elem_of_cons. right. apply elem_of_cons. by left. }
  split; [exact Hin|]. split; [reflexivity|]. split; [reflexivity|].
  destruct (missing_full_name_is_flagged sample_upload []
              (RawRow alpha_row [CStr (Py.lit "twelfth column")]) Hin eq_refl eq_refl)
    as (df & i & r & ws & Hdf & Hr & _ & Hfull & Hfirst & Hrest & Hsheet & Hflag & Herr).
  exists df, i, r, ws. repeat (split; [assumption|]). assumption.
Defined.

Lemma generate_visitor_only_us_flags_witness :
  let df := clean_frame sample_upload in
  clean_data_us sample_upload = Some df
  /\ exists ws,
       get_sheet visitor_list (fst (generate_visitor_only_us df [])) = Some ws
       /\ (forall r c, flagged ws r c ->
             (c = 6 \/ c = 7) /\ exists i, r = i + 2 /\ i < length df)
       /\ (snd (generate_visitor_only_us df []) = true <-> exists r c, flagged ws r c).
Proof.
  intros df.
  assert (clean_data_us sample_upload = Some df) as Hdf by (vm_compute; reflexivity).
  split; [exact Hdf|].
  destruct (generate_visitor_only_us_flags sample_upload df [] Hdf)
    as (ws & Hsheet & _ & Honly & Hflag).
  exists ws. split; [exact Hsheet|]. split; [exact Honly|exact Hflag].
Defined.

(** * Further properties of the code *)

(** ** Trimming *)

Lemma strip_id (s : list N) :
  (forall c, head s = Some c -> Py.isspace c = false) ->
  (forall c, last s = Some c -> Py.isspace c = false) ->
  Py.strip s = s.
Proof.
  intros Hhead Hlast. unfold Py.strip, Py.rstrip.
  rewrite (lstrip_id s Hhead), lstrip_id; [apply rev_involutive|].
  intros c Hc. apply Hlast. destruct (rev s) as [|c' t] eqn:Hrev; [done|].
  injection Hc as ->. apply (f_equal (@rev N)) in Hrev.
  rewrite rev_involutive in Hrev. rewrite Hrev. cbn. apply last_snoc.
Qed.

Lemma strip_idempotent (s : list N) : Py.strip (Py.strip s) = Py.strip s.
Proof.
  destruct (strip_spec s) as (_ & _ & _ & _ & _ & Hhead & Hlast).
  by apply strip_id.
Qed.

Lemma strip_nil_all_space (s : list N) :
  Py.strip s = [] -> Forall (fun c => Py.isspace c = true) s.
Proof.
  intros Hs. destruct (strip_spec s) as (l & r & Heq & Hl & Hr & _).
  rewrite Hs in Heq. rewrite Heq. by apply Forall_app.
Qed.

(** ** More on [split_name] *)

(** X1. The two parts of a name: the first part holds no space and,
    unless the trimmed name is empty, is not empty and does not start
    with white space; the remainder is empty exactly when the trimmed
    name holds no space, and a remainder that is not empty ends with a
    character that is not white space, so it never trims to nothing. *)
Theorem split_name_parts (x : cell) :
  let s := Py.strip (str x) in
  let first := fst (split_name x) in
  let rest := snd (split_name x) in
  (32%N ∉ first)
  /\ (s <> [] -> first <> [])
  /\ (forall c, head first = Some c -> Py.isspace c = false)
  /\ (rest = [] <-> 32%N ∉ s)
  /\ (Py.strip rest = [] <-> rest = [])
  /\ (forall c, last rest = Some c -> Py.isspace c = false).
Proof.
  intros s first rest. unfold first, rest, split_name. fold s.
  destruct (strip_spec (str x)) as (_ & _ & _ & _ & _ & Hhead & Hlast). fold s in Hhead, Hlast.
  destruct (Py.contains 32%N s) eqn:Hc.
  - apply contains_true in Hc.
    destruct (Py.find 32%N s) as [i|] eqn:Hi; [|by apply find_None in Hi].
    destruct (find_Some _ _ _ Hi) as [Hs Hnot]. cbn [fst snd].
    set (a := take i s) in *. set (b := drop (i + 1) s) in *.
    assert (b <> []) as Hb.
    { intros Hb. rewrite Hb in Hs. specialize (Hlast 32%N).
      rewrite Hs in Hlast. rewrite last_snoc in Hlast. by specialize (Hlast eq_refl). }
    assert (forall c, last b = Some c -> Py.isspace c = false) as Hblast.
    { intros c Hcb. apply Hlast. rewrite Hs.
      apply last_Some in Hcb as [b' ->]. rewrite app_comm_cons, app_assoc.
      apply last_snoc. }
    split; [done|]. split.
    { intros _ Ha. rewrite Ha in Hs. specialize (Hhead 32%N).
      rewrite Hs in Hhead. by specialize (Hhead eq_refl). }
    split.
    { intros c Ha. apply Hhead. rewrite Hs. destruct a; [done|]. by injection Ha as ->. }
    split; [split; [done|by intros Hn]|].
    split; [|done]. split; [|by intros ->].
    intros Hstrip. apply strip_nil_all_space in Hstrip.
    destruct (last b) as [c|] eqn:Hcb.
    + pose proof (Hblast c eq_refl) as Hnsp.
      apply last_Some in Hcb as [b' Hb']. rewrite Hb' in Hstrip.
      apply Forall_app in Hstrip as [_ Hsp]. apply Forall_cons in Hsp as [Hsp _].
      congruence.
    + by apply last_None in Hcb.
  - cbn [fst snd]. assert (32%N ∉ s) as Hnot.
    { intros Hin. apply contains_true in Hin. congruence. }
    split; [done|]. split; [done|]. split; [done|].
    split; [done|]. split; [done|]. by intros c Hcb.
Qed.

Lemma split_name_rest_blank (x : cell) :
  Py.strip (snd (split_name x)) = [] <-> 32%N ∉ Py.strip (str x).
Proof.
  unfold split_name. set (s := Py.strip (str x)).
  destruct (strip_spec (str x)) as (_ & _ & _ & _ & _ & _ & Hlast). fold s in Hlast.
  destruct (Py.contains 32%N s) eqn:Hc.
  - apply contains_true in Hc.
    destruct (Py.find 32%N s) as [i|] eqn:Hi; [|by apply find_None in Hi].
    destruct (find_Some _ _ _ Hi) as [Hs _]. cbn [snd].
    split; [|done]. intros Hstrip. exfalso.
    apply strip_nil_all_space in Hstrip.
    destruct (last (drop (i + 1) s)) as [c|] eqn:Hcb.
    + apply last_Some in Hcb as [b' Hb'].
      assert (Py.isspace c = false) as Hnsp.
      { apply Hlast. rewrite Hs, Hb', app_comm_cons, app_assoc. apply last_snoc. }
      rewrite Hb' in Hstrip. apply Forall_app in Hstrip as [_ Hsp].
      apply Forall_cons in Hsp as [Hsp _]. congruence.
    + apply last_None in Hcb. rewrite Hcb in Hs.
      specialize (Hlast 32%N). rewrite Hs, last_snoc in Hlast.
      by specialize (Hlast eq_refl).
  - cbn [snd]. split; [|done]. intros _ Hin. apply contains_true in Hin. congruence.
Qed.

(** ** The cleaned table, column by column *)

Section TableFacts.
Context `{CaseTables}.

Lemma StronglySorted_imap {A B : Type} (R : A -> A -> Prop) (R' : B -> B -> Prop)
    (f : nat -> A -> B) (l : list A) :
  (forall i j x y, R x y -> R' (f i x) (f j y)) ->
  StronglySorted R l -> StronglySorted R' (imap f l).
Proof.
  intros Hf Hs. revert f Hf. induction Hs as [|x l Hs IH Hx]; intros f Hf.
  - constructor.
  - rewrite imap_cons. constructor.
    + apply IH. intros i j a b. apply Hf.
    + apply Forall_forall. intros y Hy.
      apply elem_of_lookup_imap_1 in Hy as (j & a & -> & Ha).
      apply Hf. rewrite Forall_forall in Hx. apply Hx.
      by eapply list_elem_of_lookup_2.
Qed.

(** X3. The table that [clean_data_us] returns ascends on its own
    Company Full Name and then on its own Nationality, as text by code
    point: of two rows the later one has a Company that is not below the
    earlier one's, and when the two agree on Company a Nationality that
    is not below the earlier one's. The values shown in these two columns
    are the ones the rows were ordered by. *)
Theorem clean_data_us_grouped (raw : list raw_row) (df : list row) :
  clean_data_us raw = Some df ->
  StronglySorted grouped_before df
  /\ (forall i j a b,
        i < j -> df !! i = Some a -> df !! j = Some b ->
        column_le (company a) (company b)
        /\ (company a = company b ->
            exists na nb, nationality a = CStr na /\ nationality b = CStr nb
                          /\ (str_lt na nb \/ na = nb)
                          /\ ~ str_lt nb na)).
Proof.
  intros Hdf. apply clean_data_us_Some in Hdf as [_ ->].
  assert (StronglySorted grouped_before (clean_frame raw)) as Hsorted.
  { rewrite clean_frame_unfold.
    apply (StronglySorted_imap sorted_before); [|apply sort_values_sorted_before].
    intros i j x y (na & nb & Hx & Hy & Hxy). exists na, nb.
    split; [exact Hx|]. split; [exact Hy|].
    change (company (finish_row i x)) with (company x).
    change (company (finish_row j y)) with (company y).
    destruct Hxy as [?|[? [?|[? _]]]]; auto. }
  split; [done|].
  intros i j a b Hij Ha Hb.
  apply list_elem_of_split_length in Ha as (l1 & l2 & Heq & Hlen).
  rewrite Heq in Hsorted, Hb.
  apply StronglySorted_app in Hsorted as (_ & _ & Hs2).
  apply StronglySorted_cons in Hs2 as [Hall _].
  rewrite lookup_app_r in Hb by lia.
  destruct (j - length l1) as [|k] eqn:Hk; [lia|]. cbn in Hb.
  rewrite Forall_forall in Hall.
  destruct (Hall b (list_elem_of_lookup_2 _ _ _ Hb)) as (na & nb & Hna & Hnb & Hord).
  split.
  { destruct Hord as [?|[? _]]; [by left|by right]. }
  intros Hc. exists na, nb. split; [done|]. split; [done|].
  assert (str_lt na nb \/ na = nb) as Hn.
  { destruct Hord as [Hlt|[_ ?]]; [|done]. exfalso.
    rewrite Hc in Hlt. apply key_compare_Lt in Hlt.
    assert (key_compare (company b) (company b) = Eq) by by apply key_compare_Eq.
    congruence. }
  split; [done|]. intros Hrev. apply str_compare_Lt in Hrev.
  destruct Hn as [Hlt| ->].
  - apply str_compare_Lt in Hlt.
    pose proof (cmp_opp _ str_compare_ordering na nb) as Hopp.
    rewrite Hlt in Hopp. cbn in Hopp. congruence.
  - assert (str_compare nb nb = Eq) by by apply str_compare_Eq. congruence.
Qed.

End TableFacts.

(** ** What the highlighting says about the uploaded values *)

Section SourceFacts.
Context `{CaseTables}.

Lemma clean_driver_license_length (d : cell) :
  length (clean_driver_license d)
  = length (Py.sub_nondigits (sub_dot_zero (str (fillna_empty d)))) `min` 4.
Proof. unfold clean_driver_license, Py.slice_last. rewrite length_drop. lia. Qed.

(** X4. In the workbook generated from the cleaned table, the Driver
    License Number cell of a row carries the invalid fill exactly when
    the uploaded value, a final ".0" removed, holds fewer than four digit
    characters: a missing license, or one with one to three digits, is
    flagged, and any value with four digits or more is not. *)
Theorem license_flag_from_source (raw : list raw_row) (df : list row)
    (wb : workbook) (i : nat) (r : row) :
  clean_data_us raw = Some df ->
  df !! i = Some r ->
  exists src ws,
    src ∈ cols <$> raw
    /\ dl r = CStr (clean_driver_license (dl src))
    /\ get_sheet visitor_list (fst (generate_visitor_only_us df wb)) = Some ws
    /\ (flagged ws (i + 2) 7
        <-> length (Py.sub_nondigits (sub_dot_zero (str (fillna_empty (dl src))))) < 4).
Proof.
  intros Hdf Hr. apply clean_data_us_Some in Hdf as [_ ->].
  destruct (generate_flags_any (clean_frame raw) wb) as (ws & Hsheet & Hrows & _).
  destruct (Hrows i r Hr) as (_ & _ & Hdl & _).
  apply clean_frame_lookup in Hr as (src & Hsrc & _ & ->).
  exists src, ws. split; [done|]. split; [done|]. split; [done|].
  change (dl (finish_row i (with_nationality src)))
    with (CStr (clean_driver_license (dl src))) in Hdl.
  cbn [str] in Hdl.
  destruct (clean_driver_license_spec (dl src)) as (Hdig & _ & _).
  rewrite (strip_digits _ Hdig) in Hdl. rewrite Hdl.
  unfold four_digits. rewrite clean_driver_license_length. split.
  - intros Hn.
    destruct (decide (length (Py.sub_nondigits (sub_dot_zero (str (fillna_empty (dl src))))) < 4));
      [done|].
    exfalso. apply Hn. split; [lia|done].
  - intros Hlt [Heq _]. lia.
Qed.

(** X5. In the workbook generated from the cleaned table, the Middle
    and Last Name cell of a row carries the invalid fill exactly when the
    row's Full Name, title-cased and trimmed, holds no space character:
    a name of one word is always flagged, also a missing one. *)
Theorem name_flag_from_source (raw : list raw_row) (df : list row)
    (wb : workbook) (i : nat) (r : row) :
  clean_data_us raw = Some df ->
  df !! i = Some r ->
  exists src ws,
    src ∈ cols <$> raw
    /\ full_name r = Some (title (str (name_cell (full_name src))))
    /\ get_sheet visitor_list (fst (generate_visitor_only_us df wb)) = Some ws
    /\ (flagged ws (i + 2) 6
        <-> 32%N ∉ Py.strip (title (str (name_cell (full_name src))))).
Proof.
  intros Hdf Hr. apply clean_data_us_Some in Hdf as [_ ->].
  destruct (generate_flags_any (clean_frame raw) wb) as (ws & Hsheet & Hrows & _).
  destruct (Hrows i r Hr) as (_ & _ & _ & Hname).
  apply clean_frame_lookup in Hr as (src & Hsrc & _ & ->).
  exists src, ws. split; [done|]. split; [done|]. split; [done|].
  rewrite Hname.
  change (middle_last (finish_row i (with_nationality src)))
    with (CStr (snd (split_name (CStr (title (str (name_cell (full_name src)))))))).
  cbn [str]. apply split_name_rest_blank.
Qed.

End SourceFacts.

Lemma license_flag_from_source_witness :
  let df := clean_frame sample_upload in
  clean_data_us sample_upload = Some df
  /\ df !! 1 = Some (finish_row 1 (with_nationality beta_row))
  /\ exists src ws,
       src ∈ cols <$> sample_upload
       /\ dl (finish_row 1 (with_nationality beta_row))
          = CStr (clean_driver_license (dl src))
       /\ get_sheet visitor_list (fst (generate_visitor_only_us df [])) = Some ws
       /\ (flagged ws (1 + 2) 7
           <-> length (Py.sub_nondigits (sub_dot_zero (str (fillna_empty (dl src))))) < 4).
Proof.
  intros df.
  assert (clean_data_us sample_upload = Some df) as Hdf by (vm_compute; reflexivity).
  assert (df !! 1 = Some (finish_row 1 (with_nationality beta_row))) as Hr
    by (vm_compute; reflexivity).
  split; [exact Hdf|]. split; [exact Hr|].
  exact (license_flag_from_source sample_upload df [] 1 _ Hdf Hr).
Defined.

Lemma name_flag_from_source_witness :
  let df := clean_frame sample_upload in
  clean_data_us sample_upload = Some df
  /\ df !! 0 = Some (finish_row 0 (with_nationality alpha_row))
  /\ exists src ws,
       src ∈ cols <$> sample_upload
       /\ full_name (finish_row 0 (with_nationality alpha_row))
          = Some (title (str (name_cell (full_name src))))
       /\ get_sheet visitor_list (fst (generate_visitor_only_us df [])) = Some ws
       /\ (flagged ws (0 + 2) 6
           <-> 32%N ∉ Py.strip (title (str (name_cell (full_name src))))).
Proof.
  intros df.
  assert (clean_data_us sample_upload = Some df) as Hdf by (vm_compute; reflexivity).
  assert (df !! 0 = Some (finish_row 0 (with_nationality alpha_row))) as Hr
    by (vm_compute; reflexivity).
  split; [exact Hdf|]. split; [exact Hr|].
  exact (name_flag_from_source sample_upload df [] 0 _ Hdf Hr).
Defined.

Lemma clean_data_us_grouped_witness :
  let df := clean_frame sample_upload in
  clean_data_us sample_upload = Some df
  /\ StronglySorted grouped_before df.
Proof.
  intros df.
  assert (clean_data_us sample_upload = Some df) as Hdf by (vm_compute; reflexivity).
  split; [exact Hdf|].
  exact (proj1 (clean_data_us_grouped sample_upload df Hdf)).
Defined.

(** ** Numbers read from the sheet *)

Lemma of_uint_digits (d : uint) : all_digits (Py.of_uint d).
Proof. induction d; constructor; done. Qed.

Lemma str_of_int_digits (z : Z) : (0 <= z)%Z -> all_digits (Py.str_of_int z).
Proof.
  intros Hz. unfold Py.str_of_int. destruct z as [|p|p]; [| |lia]; apply of_uint_digits.
Qed.

Lemma sub_nondigits_app (a b : list N) :
  Py.sub_nondigits (a ++ b) = Py.sub_nondigits a ++ Py.sub_nondigits b.
Proof. apply List.filter_app. Qed.

Lemma sub_dot_zero_float (d : list N) : sub_dot_zero (d ++ Py.lit ".0") = d.
Proof.
  unfold sub_dot_zero.
  assert (Py.endswith (d ++ Py.lit ".0") [46; 48]%N = true) as ->
    by (apply endswith_true; by exists d).
  unfold Py.slice_drop_last. rewrite length_app. cbn [length Py.lit].
  replace (length d + 2 - 2) with (length d) by lia. apply take_app_length.
Qed.

Lemma sub_dot_zero_digits (d : list N) : all_digits d -> sub_dot_zero d = d.
Proof.
  intros Hd. unfold sub_dot_zero.
  destruct (Py.endswith d [46; 48]%N) eqn:H1.
  { apply endswith_true in H1 as [front ->].
    apply Forall_app in Hd as [_ Hd]. by apply Forall_cons in Hd as [Hd _]. }
  destruct (Py.endswith d [46; 48; 10]%N) eqn:H2; [|done].
  apply endswith_true in H2 as [front ->].
  apply Forall_app in Hd as [_ Hd]. by apply Forall_cons in Hd as [Hd _].
Qed.

(** X6. A mobile number that the sheet stores as a float reaches
    [fix_mobile] as its digits followed by ".0". With ten digits the
    number is given back exactly: the final zero is the one that is
    dropped. With fewer than ten digits the zero of ".0" stays as the
    last digit and the padding is one zero short. *)
Theorem fix_mobile_float (d : list N) :
  all_digits d ->
  (length d = 10 -> fix_mobile (CFloat (d ++ Py.lit ".0")) = d)
  /\ (length d < 10 ->
      fix_mobile (CFloat (d ++ Py.lit ".0"))
      = replicate (9 - length d) 48%N ++ d ++ [48%N]).
Proof.
  intros Hd. pose proof (fix_mobile_unfold (CFloat (d ++ Py.lit ".0"))) as Hfm.
  cbv zeta in Hfm. cbn [str] in Hfm.
  assert (Py.sub_nondigits (d ++ Py.lit ".0") = d ++ [48%N]) as Hdigits.
  { rewrite sub_nondigits_app, (sub_nondigits_id d Hd). reflexivity. }
  rewrite Hdigits, length_app in Hfm. cbn [length] in Hfm. split.
  - intros Hlen. rewrite Hlen in Hfm.
    change (10 <? 10 + 1) with true in Hfm.
    change (replicate (10 + 1 - 10) 48%N) with [48%N] in Hfm.
    assert (Py.endswith (d ++ [48%N]) [48%N] = true) as Hends
      by (apply endswith_true; by exists d).
    rewrite Hends in Hfm. rewrite Hfm, <- Hlen. apply take_app_length.
  - intros Hlen. rewrite Hfm.
    destruct (Nat.ltb_spec 10 (length d + 1)); [lia|].
    destruct (Nat.ltb_spec (length d + 1) 10) as [Hlt|Hge].
    + by replace (10 - (length d + 1)) with (9 - length d) by lia.
    + assert (length d = 9) as -> by lia. reflexivity.
Qed.

Lemma fix_mobile_float_witness :
  all_digits (Py.lit "5550101234")
  /\ fix_mobile (CFloat (Py.lit "5550101234" ++ Py.lit ".0")) = Py.lit "5550101234"
  /\ fix_mobile (CFloat (Py.lit "123" ++ Py.lit ".0")) = Py.lit "0000001230".
Proof.
  assert (all_digits (Py.lit "5550101234")) as H10 by (unfold all_digits; repeat constructor).
  assert (all_digits (Py.lit "123")) as H3 by (unfold all_digits; repeat constructor).
  split; [exact H10|]. split.
  - apply (proj1 (fix_mobile_float _ H10)). reflexivity.
  - apply (proj2 (fix_mobile_float _ H3)). vm_compute. lia.
Defined.

(** X7. A driver license that the sheet stores as a whole number below
    2^53 (the range in which a float holds every whole number and prints
    it as its digits followed by ".0") cleans to the same text whether it
    arrives as an integer or as the float with the same value: the last
    four digits of the number. *)
Theorem clean_driver_license_number (z : Z) :
  (0 <= z < 2 ^ 53)%Z ->
  clean_driver_license (CFloat (Py.str_of_int z ++ Py.lit ".0"))
  = clean_driver_license (CInt z)
  /\ clean_driver_license (CInt z) = Py.slice_last 4 (Py.str_of_int z).
Proof.
  intros [Hz _]. pose proof (str_of_int_digits z Hz) as Hd.
  unfold clean_driver_license, fillna_empty. cbn [isna str].
  rewrite sub_dot_zero_float, (sub_dot_zero_digits _ Hd), (sub_nondigits_id _ Hd).
  done.
Qed.

Lemma clean_driver_license_number_witness :
  (0 <= 998877665544 < 2 ^ 53)%Z
  /\ clean_driver_license (CFloat (Py.lit "998877665544.0")) = Py.lit "5544"
  /\ clean_driver_license (CInt 998877665544) = Py.lit "5544".
Proof.
  assert (0 <= 998877665544 < 2 ^ 53)%Z as Hz by lia.
  split; [exact Hz|].
  destruct (clean_driver_license_number 998877665544 Hz) as [Hfloat Hint].
  split.
  - transitivity (clean_driver_license (CInt 998877665544)); [exact Hfloat|].
    rewrite Hint. reflexivity.
  - rewrite Hint. reflexivity.
Defined.

(** X8. Cleaning a driver license that is already clean changes
    nothing: [clean_driver_license] gives its own results back. *)
Theorem clean_driver_license_idempotent (d : cell) :
  clean_driver_license (CStr (clean_driver_license d)) = clean_driver_license d.
Proof.
  destruct (clean_driver_license_spec d) as (Hdig & Hlen & _).
  set (r := clean_driver_license d) in *.
  unfold clean_driver_license at 1, fillna_empty. cbn [isna str].
  rewrite (sub_dot_zero_digits _ Hdig), (sub_nondigits_id _ Hdig).
  unfold Py.slice_last. replace (length r - 4) with 0 by lia. reflexivity.
Qed.

(** ** ASCII case mapping *)

Section AsciiCase.
Import Ascii7.

Ltac case_ranges :=
  unfold to_upper, to_lower, is_cased, is_upper, is_lower in *;
  repeat match goal with
         | |- context [N.leb ?a ?b] => destruct (N.leb_spec a b)
         | H : context [N.leb ?a ?b] |- _ => destruct (N.leb_spec a b)
         end;
  cbn [andb orb] in *; try lia; try done.

Lemma to_upper_idem (c : N) : to_upper (to_upper c) = to_upper c.
Proof. case_ranges. Qed.

Lemma to_lower_idem (c : N) : to_lower (to_lower c) = to_lower c.
Proof. case_ranges. Qed.

Lemma to_upper_to_lower (c : N) : to_upper (to_lower c) = to_upper c.
Proof. case_ranges. Qed.

Lemma to_lower_to_upper (c : N) : to_lower (to_upper c) = to_lower c.
Proof. case_ranges. Qed.

Lemma to_upper_ascii (c : N) : (c < 128)%N -> (to_upper c < 128)%N.
Proof. intros Hc. case_ranges. Qed.

Lemma to_lower_ascii (c : N) : (c < 128)%N -> (to_lower c < 128)%N.
Proof. intros Hc. case_ranges. Qed.

Lemma isspace_false_range (c : N) : (33 <= c <= 132)%N -> Py.isspace c = false.
Proof.
  intros Hc. unfold Py.isspace. apply bool_decide_eq_false. intros Hin.
  repeat (apply elem_of_cons in Hin as [->|Hin]; [lia|]).
  by apply elem_of_nil in Hin.
Qed.

Lemma isspace_to_upper (c : N) : Py.isspace (to_upper c) = Py.isspace c.
Proof.
  unfold to_upper. destruct (is_lower c) eqn:Hl; [|done].
  unfold is_lower in Hl. apply andb_true_iff in Hl as [H1 H2].
  apply N.leb_le in H1, H2. rewrite !isspace_false_range by lia. done.
Qed.

Lemma isspace_to_lower (c : N) : Py.isspace (to_lower c) = Py.isspace c.
Proof.
  unfold to_lower. destruct (is_upper c) eqn:Hl; [|done].
  unfold is_upper in Hl. apply andb_true_iff in Hl as [H1 H2].
  apply N.leb_le in H1, H2. rewrite !isspace_false_range by lia. done.
Qed.

Lemma upper_upper (s : list N) : Ascii7.upper (Ascii7.upper s) = Ascii7.upper s.
Proof.
  unfold Ascii7.upper. rewrite <- list_fmap_compose.
  apply list_fmap_ext. intros i c _. apply to_upper_idem.
Qed.

Lemma lower_lower (s : list N) : Ascii7.lower (Ascii7.lower s) = Ascii7.lower s.
Proof.
  unfold Ascii7.lower. rewrite <- list_fmap_compose.
  apply list_fmap_ext. intros i c _. apply to_lower_idem.
Qed.

Lemma upper_title_from (b : bool) (s : list N) :
  Ascii7.upper (title_from b s) = Ascii7.upper s.
Proof.
  revert b. induction s as [|c s IH]; intros b; [done|].
  cbn [title_from]. unfold Ascii7.upper in *. cbn [fmap list_fmap].
  change (list_fmap N N to_upper) with (fmap to_upper) in *.
  rewrite IH. f_equal. destruct b; [apply to_upper_to_lower|apply to_upper_idem].
Qed.

Lemma lower_title_from (b : bool) (s : list N) :
  Ascii7.lower (title_from b s) = Ascii7.lower s.
Proof.
  revert b. induction s as [|c s IH]; intros b; [done|].
  cbn [title_from]. unfold Ascii7.lower in *. cbn [fmap list_fmap].
  change (list_fmap N N to_lower) with (fmap to_lower) in *.
  rewrite IH. f_equal. destruct b; [apply to_lower_idem|apply to_lower_to_upper].
Qed.

Lemma is_ascii_upper (s : list N) : is_ascii s -> is_ascii (Ascii7.upper s).
Proof.
  unfold is_ascii, Ascii7.upper. intros Hs. apply Forall_fmap.
  eapply Forall_impl; [exact Hs|]. intros c. apply to_upper_ascii.
Qed.

Lemma is_ascii_lower (s : list N) : is_ascii s -> is_ascii (Ascii7.lower s).
Proof.
  unfold is_ascii, Ascii7.lower. intros Hs. apply Forall_fmap.
  eapply Forall_impl; [exact Hs|]. intros c. apply to_lower_ascii.
Qed.

Lemma is_ascii_title_from (b : bool) (s : list N) :
  is_ascii s -> is_ascii (title_from b s).
Proof.
  unfold is_ascii. intros Hs. revert b.
  induction Hs as [|c s Hc Hs IH]; intros b; cbn [title_from]; constructor.
  - destruct b; [by apply to_lower_ascii|by apply to_upper_ascii].
  - apply IH.
Qed.

Lemma is_ascii_strip (s : list N) : is_ascii s -> is_ascii (Py.strip s).
Proof.
  unfold is_ascii. intros Hs. destruct (strip_spec s) as (l & r & Heq & _).
  rewrite Heq in Hs. apply Forall_app in Hs as [_ Hs]. by apply Forall_app in Hs as [Hs _].
Qed.

Lemma trimmed_strip (s : list N) : trimmed (Py.strip s).
Proof. destruct (strip_spec s) as (_ & _ & _ & _ & _ & Hh & Hl). by split. Qed.

Lemma strip_trimmed (s : list N) : trimmed s -> Py.strip s = s.
Proof. intros [Hh Hl]. by apply strip_id. Qed.

Lemma trimmed_fmap (f : N -> N) (s : list N) :
  (forall c, Py.isspace (f c) = Py.isspace c) -> trimmed s -> trimmed (f <$> s).
Proof.
  intros Hf [Hh Hl]. split; intros c Hc.
  - destruct s as [|c0 s]; [done|]. injection Hc as <-. rewrite Hf. by apply Hh.
  - rewrite fmap_last in Hc. destruct (last s) as [c0|]; [|done].
    injection Hc as <-. rewrite Hf. by apply Hl.
Qed.

Lemma last_title_from (b : bool) (s : list N) (c' : N) :
  last (title_from b s) = Some c' ->
  exists c, last s = Some c /\ Py.isspace c' = Py.isspace c.
Proof.
  revert b. induction s as [|c [|c2 s] IH]; intros b; [done| |].
  - cbn. intros [= <-]. exists c. split; [done|].
    destruct b; [apply isspace_to_lower|apply isspace_to_upper].
  - change (title_from b (c :: c2 :: s))
      with ((if b then to_lower c else to_upper c) :: title_from (is_cased c) (c2 :: s)).
    change (title_from (is_cased c) (c2 :: s))
      with ((if is_cased c then to_lower c2 else to_upper c2)
              :: title_from (is_cased c2) s) at 1.
    rewrite last_cons_cons.
    change ((if is_cased c then to_lower c2 else to_upper c2)
              :: title_from (is_cased c2) s)
      with (title_from (is_cased c) (c2 :: s)).
    intros Hl. destruct (IH _ Hl) as (c0 & Hc0 & Hsp). exists c0.
    by rewrite last_cons_cons.
Qed.

Lemma trimmed_title_from (b : bool) (s : list N) :
  trimmed s -> trimmed (title_from b s).
Proof.
  intros [Hh Hl]. split; intros c Hc.
  - destruct s as [|c0 s]; [done|]. cbn in Hc. injection Hc as <-.
    specialize (Hh c0 eq_refl).
    destruct b; [by rewrite isspace_to_lower|by rewrite isspace_to_upper].
  - apply last_title_from in Hc as (c0 & Hc0 & ->). by apply Hl.
Qed.

End AsciiCase.

(** ** [clean_gender] and the nationality step on ASCII text *)

Section GenderNationality.
Context `{CaseTables}.

Lemma is_ascii_lit_male_upper : Ascii7.is_ascii (Py.lit "MALE").
Proof. unfold Ascii7.is_ascii. by repeat constructor. Qed.

Lemma is_ascii_lit_female_upper : Ascii7.is_ascii (Py.lit "FEMALE").
Proof. unfold Ascii7.is_ascii. by repeat constructor. Qed.

(** [clean_gender] on ASCII text, with the case tables of ASCII. *)
Lemma clean_gender_ascii (g : cell) :
  Ascii7.is_ascii (str g) ->
  let v := Ascii7.upper (Py.strip (str g)) in
  Ascii7.is_ascii v /\ trimmed v /\ Ascii7.upper v = v
  /\ clean_gender g
     = if bool_decide (v = Py.lit "M") then Py.lit "Male"
       else if bool_decide (v = Py.lit "F") then Py.lit "Female"
       else Ascii7.title v.
Proof.
  intros Hg v.
  assert (Ascii7.is_ascii v) as Hv by (apply is_ascii_upper, is_ascii_strip, Hg).
  split; [done|]. split.
  { apply trimmed_fmap; [apply isspace_to_upper|apply trimmed_strip]. }
  split; [apply upper_upper|].
  unfold clean_gender. rewrite (upper_ascii _ (is_ascii_strip _ Hg)). fold v.
  rewrite (title_ascii _ Hv).
  by repeat case_bool_decide.
Qed.

(** X9. For a value of ASCII text, [clean_gender] answers "Male"
    exactly when the value, trimmed and in upper case, is "M" or "MALE",
    and "Female" exactly when it is "F" or "FEMALE"; it never answers
    with the bare letter "M" or "F". *)
Theorem clean_gender_male_female (g : cell) :
  Ascii7.is_ascii (str g) ->
  let v := Ascii7.upper (Py.strip (str g)) in
  (clean_gender g = Py.lit "Male" <-> v = Py.lit "M" \/ v = Py.lit "MALE")
  /\ (clean_gender g = Py.lit "Female" <-> v = Py.lit "F" \/ v = Py.lit "FEMALE")
  /\ clean_gender g <> Py.lit "M"
  /\ clean_gender g <> Py.lit "F".
Proof.
  intros Hg v. destruct (clean_gender_ascii g Hg) as (Hv & _ & Hup & Hcg).
  fold v in Hv, Hup, Hcg. rewrite Hcg.
  assert (forall t, Ascii7.title v = t -> v = Ascii7.upper t) as Hback.
  { intros t <-. unfold Ascii7.title. by rewrite upper_title_from. }
  case_bool_decide as HM; [rewrite HM; repeat split; try done; auto; intros [?|?]; done|].
  case_bool_decide as HF; [rewrite HF; repeat split; try done; auto; intros [?|?]; done|].
  split; [|split; [|split]].
  - split; [intros Ht; right; by rewrite (Hback _ Ht)|].
    intros [? | ->]; [done|reflexivity].
  - split; [intros Ht; right; by rewrite (Hback _ Ht)|].
    intros [? | ->]; [done|reflexivity].
  - intros Ht. apply HM. by rewrite (Hback _ Ht).
  - intros Ht. apply HF. by rewrite (Hback _ Ht).
Qed.

(** X10. For a value of ASCII text, cleaning a gender that is already
    clean changes nothing. *)
Theorem clean_gender_idempotent (g : cell) :
  Ascii7.is_ascii (str g) ->
  clean_gender (CStr (clean_gender g)) = clean_gender g.
Proof.
  intros Hg. destruct (clean_gender_ascii g Hg) as (Hv & Htrim & Hup & Hcg).
  set (v := Ascii7.upper (Py.strip (str g))) in *.
  assert (forall t, Ascii7.is_ascii t -> trimmed t -> Ascii7.upper t = v ->
            v <> Py.lit "M" -> v <> Py.lit "F" ->
            clean_gender (CStr t) = Ascii7.title v) as Hagain.
  { intros t Ht Htt Htv HM HF.
    destruct (clean_gender_ascii (CStr t) Ht) as (_ & _ & _ & ->).
    cbn [str]. rewrite (strip_trimmed t Htt), Htv.
    by rewrite !bool_decide_eq_false_2. }
  rewrite Hcg. case_bool_decide as HM.
  { destruct (clean_gender_ascii (CStr (Py.lit "Male"))) as (_ & _ & _ & ->);
      [unfold Ascii7.is_ascii; by repeat constructor|]. reflexivity. }
  case_bool_decide as HF.
  { destruct (clean_gender_ascii (CStr (Py.lit "Female"))) as (_ & _ & _ & ->);
      [unfold Ascii7.is_ascii; by repeat constructor|]. reflexivity. }
  apply Hagain; try done.
  - by apply is_ascii_title_from.
  - by apply trimmed_title_from.
  - unfold Ascii7.title. by rewrite upper_title_from.
Qed.

Lemma replace_map_nat_map (k : list N) :
  (replace_map nat_map k = k /\ forall country, (k, country) ∉ nat_map)
  \/ (exists country, (k, country) ∈ nat_map /\ replace_map nat_map k = country).
Proof.
  unfold nat_map. cbn [replace_map].
  repeat (case_bool_decide;
          [right; match goal with Hkey : _ = Py.lit _ |- _ => rewrite Hkey end;
           eexists; split; [|reflexivity];
           repeat first [by apply list_elem_of_here | apply list_elem_of_further]|]).
  left. split; [done|]. intros country Hin.
  repeat (apply elem_of_cons in Hin as [Heq|Hin]; [by injection Heq as -> _|]).
  by apply elem_of_nil in Hin.
Qed.

(** The nationality step on ASCII text, with the case tables of ASCII. *)
Lemma normalize_nationality_ascii (n : cell) :
  Ascii7.is_ascii (str n) ->
  let k := Ascii7.lower (Py.strip (str n)) in
  Ascii7.is_ascii k /\ trimmed k /\ Ascii7.lower k = k
  /\ Ascii7.is_ascii (replace_map nat_map k)
  /\ normalize_nationality n = Ascii7.title (replace_map nat_map k).
Proof.
  intros Hn k.
  assert (Ascii7.is_ascii k) as Hk by (apply is_ascii_lower, is_ascii_strip, Hn).
  assert (Ascii7.is_ascii (replace_map nat_map k)) as Hm.
  { unfold nat_map, replace_map.
    repeat case_bool_decide; try done; unfold Ascii7.is_ascii; by repeat constructor. }
  split; [done|]. split.
  { apply trimmed_fmap; [apply isspace_to_lower|apply trimmed_strip]. }
  split; [apply lower_lower|]. split; [done|].
  unfold normalize_nationality. rewrite (lower_ascii _ (is_ascii_strip _ Hn)). fold k.
  by rewrite (title_ascii _ Hm).
Qed.

(** X11. For a value of ASCII text, the nationality step looks the
    trimmed, lower-cased value up in the table of synonyms: a synonym
    gives the table's country name, whatever the case and the white space
    around it in the upload, and any other value is only put in title
    case. *)
Theorem normalize_nationality_lookup (n : cell) :
  Ascii7.is_ascii (str n) ->
  let k := Ascii7.lower (Py.strip (str n)) in
  (forall country, (k, country) ∈ nat_map -> normalize_nationality n = country)
  /\ ((forall country, (k, country) ∉ nat_map) ->
      normalize_nationality n = Ascii7.title k).
Proof.
  intros Hn k. destruct (normalize_nationality_ascii n Hn) as (_ & _ & _ & _ & Hnn).
  fold k in Hnn. rewrite Hnn. split.
  - intros country Hin. unfold nat_map in Hin.
    repeat (apply elem_of_cons in Hin as [Heq|Hin];
            [injection Heq as -> ->; reflexivity|]).
    by apply elem_of_nil in Hin.
  - intros Hnot. f_equal. unfold nat_map in *. cbn [replace_map].
    repeat (case_bool_decide;
            [exfalso; eapply Hnot;
             match goal with Hkey : _ = Py.lit _ |- _ => rewrite Hkey end;
             repeat first [by apply list_elem_of_here | apply list_elem_of_further]|]).
    reflexivity.
Qed.

(** X12. For a value of ASCII text, normalizing a nationality that is
    already normalized changes nothing. *)
Theorem normalize_nationality_idempotent (n : cell) :
  Ascii7.is_ascii (str n) ->
  normalize_nationality (CStr (normalize_nationality n)) = normalize_nationality n.
Proof.
  intros Hn.
  destruct (normalize_nationality_ascii n Hn) as (Hk & Htrim & Hlow & Hm & Hnn).
  set (k := Ascii7.lower (Py.strip (str n))) in *.
  rewrite Hnn.
  assert (Ascii7.is_ascii (Ascii7.title (replace_map nat_map k))) as Ht
    by (by apply is_ascii_title_from).
  destruct (normalize_nationality_ascii (CStr (Ascii7.title (replace_map nat_map k))) Ht)
    as (_ & _ & _ & _ & ->).
  cbn [str]. destruct (replace_map_nat_map k) as [[Hmiss _]|(country & Hin & Hhit)].
  - rewrite Hmiss.
    rewrite (strip_trimmed (Ascii7.title k)) by (by apply trimmed_title_from).
    unfold Ascii7.title at 2. rewrite lower_title_from, Hlow. by rewrite Hmiss.
  - rewrite Hhit. unfold nat_map in Hin.
    repeat (apply elem_of_cons in Hin as [Heq|Hin];
            [injection Heq as _ ->; vm_compute; reflexivity|]).
    by apply elem_of_nil in Hin.
Qed.

End GenderNationality.

(** ** The layout of the Visitor List sheet *)

Section LayoutFacts.

Implicit Types (ws : worksheet).

Lemma write_visitor_list_stages (df : list row) :
  write_visitor_list df empty_sheet = add_summary df (sheet_highlighted df).
Proof. reflexivity. Qed.

Lemma max_column_spec ws (n : nat) :
  (exists r, is_Some (cells ws !! (r, n))) ->
  (forall r c, is_Some (cells ws !! (r, c)) -> c <= n) ->
  max_column ws = n.
Proof.
  intros [r [x Hx]] Hle. unfold max_column.
  assert (n ∈ cell_columns ws) as Hin.
  { unfold cell_columns. apply list_elem_of_fmap. exists ((r, n), x).
    split; [done|]. by apply elem_of_map_to_list. }
  assert (forall c, c ∈ cell_columns ws -> c <= n) as Hall.
  { intros c Hc. unfold cell_columns in Hc.
    apply list_elem_of_fmap in Hc as ([[r' c'] x'] & -> & Hc).
    apply elem_of_map_to_list in Hc. eapply Hle. by eexists. }
  destruct (cell_columns ws) as [|c0 columns] eqn:Hcols; [by apply elem_of_nil in Hin|].
  apply Nat.le_antisymm.
  - apply Hall. rewrite <- Hcols. apply max_list_elem_of. by rewrite Hcols.
  - by apply max_list_elem_of_le.
Qed.

Lemma written_value_column (df : list row) (r c : nat) :
  is_Some (written_value (written_rows df) r c) -> 1 <= c <= 11.
Proof.
  unfold written_value. case_bool_decide as Hrc; [|by intros [? ?]].
  intros [v Hv]. destruct (written_rows df !! (r - 1)) as [vals|] eqn:Hrow; [|done].
  cbn in Hv. apply lookup_lt_Some in Hv.
  rewrite (written_rows_width df vals) in Hv by (by eapply list_elem_of_lookup_2). lia.
Qed.

Lemma written_value_header (df : list row) (c : nat) :
  written_value (written_rows df) 1 c
  = if bool_decide (1 <= c) then header !! (c - 1) else None.
Proof.
  unfold written_value, written_rows. cbn [Nat.sub lookup list_lookup].
  destruct (decide (1 <= c)).
  - by rewrite !bool_decide_eq_true_2 by lia.
  - by rewrite !bool_decide_eq_false_2 by lia.
Qed.

Lemma max_column_written (df : list row) :
  max_column (foldl append empty_sheet (written_rows df)) = 11.
Proof.
  apply max_column_spec.
  - exists 1. rewrite lookup_written, written_value_header. by eexists.
  - intros r c. rewrite lookup_written. intros Hs. apply fmap_is_Some in Hs.
    apply written_value_column in Hs. lia.
Qed.

(** The sheet after the header is styled. *)
Lemma sheet_with_header_cells (df : list row) (r c : nat) :
  cells (sheet_with_header df) !! (r, c)
  = if bool_decide (r = 1 /\ 1 <= c <= 11)
    then Some (XCell (header !! (c - 1)) HeaderFill)
    else (fun v => XCell (Some v) NoFill) <$> written_value (written_rows df) r c.
Proof.
  unfold sheet_with_header. fold (written_rows df).
  rewrite max_column_written, foldl_header_fill, lookup_written, value_written.
  unfold range. cbn [Nat.add Nat.sub].
  destruct (decide (r = 1 /\ 1 <= c <= 11)) as [[-> Hc]|Hn].
  - rewrite !bool_decide_eq_true_2; [|done|split; [done|apply elem_of_seq; lia]].
    rewrite written_value_header. by rewrite bool_decide_eq_true_2 by lia.
  - rewrite !bool_decide_eq_false_2; [done|done|].
    intros [-> Hc]. apply elem_of_seq in Hc. apply Hn. split; [done|lia].
Qed.

Lemma sheet_with_header_max_row (df : list row) :
  max_row (sheet_with_header df) = length df + 1.
Proof.
  unfold sheet_with_header. fold (written_rows df).
  destruct (header_stage df (range 1 (max_column (foldl append empty_sheet (written_rows df)) + 1)))
    as (_ & _ & Hd & Hl).
  apply max_row_spec; eauto.
Qed.

(** The sheet after the two highlighting loops: outside the data rows
    nothing has changed, and no cell lies below the data rows. *)
Lemma sheet_highlighted_cells (df : list row) :
  let n := length df in
  let ws := fst (sheet_highlighted df) in
  (forall r c, ~ 2 <= r <= n + 1 ->
     cells ws !! (r, c) = cells (sheet_with_header df) !! (r, c))
  /\ (forall r c, 2 <= r <= n + 1 ->
        value (ws_cell r c ws) = written_value (written_rows df) r c)
  /\ (forall r c, is_Some (cells ws !! (r, c)) -> r <= n + 1)
  /\ max_row ws = n + 1.
Proof.
  intros n ws. unfold ws, sheet_highlighted.
  pose proof (sheet_with_header_max_row df) as Hmax2. fold n in Hmax2.
  set (ws2 := sheet_with_header df) in *.
  assert (forall r c, is_Some (cells ws2 !! (r, c)) -> r <= n + 1) as Hd2.
  { intros r c. unfold ws2. rewrite sheet_with_header_cells.
    case_bool_decide as Hc; [lia|]. intros Hs. apply fmap_is_Some in Hs.
    apply written_value_is_Some in Hs. fold n in Hs. lia. }
  assert (is_Some (cells ws2 !! (n + 1, 1))) as Hl2.
  { unfold ws2. rewrite sheet_with_header_cells. case_bool_decide; [done|].
    apply fmap_is_Some, written_value_last. }
  assert (forall r c, value (ws_cell r c ws2) = written_value (written_rows df) r c) as Hv2.
  { intros r c. unfold ws_cell, ws2. rewrite sheet_with_header_cells.
    case_bool_decide as Hc.
    - destruct Hc as [-> Hc]. rewrite written_value_header.
      by rewrite bool_decide_eq_true_2 by lia.
    - by destruct (written_value (written_rows df) r c). }
  rewrite Hmax2. unfold range. replace (n + 1 + 1 - 2) with n by lia.
  assert (forall r, r ∈ seq 2 n <-> 2 <= r <= n + 1) as Hseq.
  { intros r. rewrite elem_of_seq. lia. }
  rewrite (foldl_pointwise _ _ _ _ highlight_dl_eq).
  set (st3 := foldl (highlight dl_col_idx dl_test) (ws2, false) (seq 2 n)).
  assert (forall r c, ~ 2 <= r <= n + 1 -> cells (fst st3) !! (r, c) = cells ws2 !! (r, c)) as Ho3.
  { intros r c Hr. unfold st3.
    destruct (foldl_highlight dl_col_idx dl_test (seq 2 n) ws2 false) as [-> _].
    rewrite bool_decide_eq_false_2; [done|]. intros (_ & Hin & _). by apply Hseq in Hin. }
  assert (forall r c, value (ws_cell r c (fst st3)) = written_value (written_rows df) r c) as Hv3.
  { intros r c. unfold st3. by rewrite foldl_highlight_value. }
  assert (forall r c, is_Some (cells (fst st3) !! (r, c)) -> r <= n + 1) as Hd3.
  { intros r c. unfold st3. rewrite foldl_highlight_dom, Hseq.
    intros [(_ & Hr & _)|Hs]; [lia|by eapply Hd2]. }
  assert (is_Some (cells (fst st3) !! (n + 1, 1))) as Hl3.
  { unfold st3. rewrite foldl_highlight_dom. by right. }
  assert (max_row (fst st3) = n + 1) as -> by (apply max_row_spec; eauto).
  clearbody st3. destruct st3 as [ws3 e3]. cbn [fst snd] in *.
  replace (n + 1 + 1 - 2) with n by lia.
  rewrite (foldl_pointwise _ _ _ _ highlight_name_eq).
  set (st4 := foldl (highlight col_f_idx name_test) (ws3, e3) (seq 2 n)).
  assert (forall r c, is_Some (cells (fst st4) !! (r, c)) -> r <= n + 1) as Hd4.
  { intros r c. unfold st4. rewrite foldl_highlight_dom, Hseq.
    intros [(_ & Hr & _)|Hs]; [lia|by eapply Hd3]. }
  split.
  { intros r c Hr. unfold st4.
    destruct (foldl_highlight col_f_idx name_test (seq 2 n) ws3 e3) as [-> _].
    rewrite bool_decide_eq_false_2; [by apply Ho3|].
    intros (_ & Hin & _). by apply Hseq in Hin. }
  split.
  { intros r c _. unfold st4. by rewrite foldl_highlight_value. }
  split; [done|].
  apply max_row_spec; [|done]. exists 1. unfold st4.
  rewrite foldl_highlight_dom. by right.
Qed.

End LayoutFacts.

(** ** The summary below the grid *)

Section SummaryFacts.

Implicit Types (ws : worksheet).

Lemma set_value_fresh r c v ws r' c' :
  cells ws !! (r, c) = None ->
  cells (set_value r c v ws) !! (r', c')
  = if decide ((r, c) = (r', c')) then Some (XCell (Some v) NoFill)
    else cells ws !! (r', c').
Proof.
  intros Hnone. rewrite lookup_set_value. unfold ws_cell. by rewrite Hnone.
Qed.

Lemma elem_of_insert_unique (x y : list N) (l : list (list N)) :
  y ∈ insert_unique x l <-> y = x \/ y ∈ l.
Proof.
  induction l as [|a l IH]; cbn [insert_unique].
  - rewrite list_elem_of_singleton. split; [by left|]. intros [?|Hin]; [done|].
    by apply elem_of_nil in Hin.
  - destruct (str_compare x a) eqn:Hxa.
    + apply str_compare_Eq in Hxa as ->. rewrite elem_of_cons. tauto.
    + by rewrite elem_of_cons.
    + rewrite !elem_of_cons, IH. tauto.
Qed.

Lemma insert_unique_sorted (x : list N) (l : list (list N)) :
  StronglySorted (fun a b => str_compare a b = Lt) l ->
  StronglySorted (fun a b => str_compare a b = Lt) (insert_unique x l).
Proof.
  pose proof str_compare_ordering as Hord.
  induction 1 as [|a l Hs IH Ha]; cbn [insert_unique].
  - repeat constructor.
  - destruct (str_compare x a) eqn:Hxa.
    + by constructor.
    + constructor; [by constructor|]. constructor; [done|].
      eapply Forall_impl; [exact Ha|]. intros z Hz.
      by apply (cmp_trans _ Hord x a z).
    + constructor; [done|]. apply Forall_forall. intros z Hz.
      apply elem_of_insert_unique in Hz as [->|Hz].
      * rewrite (cmp_opp _ Hord x a), Hxa. reflexivity.
      * rewrite Forall_forall in Ha. by apply Ha.
Qed.

Lemma elem_of_sorted_set (x : list N) (xs : list (list N)) :
  x ∈ sorted_set xs <-> x ∈ xs.
Proof.
  unfold sorted_set. induction xs as [|y xs IH]; cbn [foldr]; [done|].
  rewrite elem_of_insert_unique, elem_of_cons, IH. tauto.
Qed.

Lemma sorted_set_sorted (xs : list (list N)) :
  StronglySorted (fun a b => str_compare a b = Lt) (sorted_set xs).
Proof.
  unfold sorted_set. induction xs as [|y xs IH]; cbn [foldr]; [constructor|].
  by apply insert_unique_sorted.
Qed.

Lemma split_no_sep (sep : N) (s p : list N) : p ∈ split sep s -> sep ∉ p.
Proof.
  revert p. induction s as [|c r IH]; intros p; cbn [split].
  - rewrite list_elem_of_singleton. intros ->. apply not_elem_of_nil.
  - destruct (N.eqb_spec c sep) as [->|Hne].
    + rewrite elem_of_cons. intros [->|Hp]; [apply not_elem_of_nil|by apply IH].
    + destruct (split sep r) as [|h t] eqn:Hsplit.
      * rewrite list_elem_of_singleton. intros ->.
        rewrite list_elem_of_singleton. congruence.
      * rewrite elem_of_cons. intros [->|Hp].
        -- rewrite not_elem_of_cons. split; [congruence|]. apply IH. by left.
        -- apply IH. by right.
Qed.

Lemma split_without_sep (sep : N) (p : list N) : sep ∉ p -> split sep p = [p].
Proof.
  induction p as [|c p IH]; [done|]. intros Hnot.
  apply not_elem_of_cons in Hnot as [Hne Hnot]. cbn [split].
  destruct (N.eqb_spec c sep) as [->|_]; [done|]. by rewrite IH.
Qed.

Lemma split_app_sep (sep : N) (p rest : list N) :
  sep ∉ p -> split sep (p ++ sep :: rest) = p :: split sep rest.
Proof.
  induction p as [|c p IH]; intros Hnot.
  - cbn [app split]. by rewrite N.eqb_refl.
  - apply not_elem_of_cons in Hnot as [Hne Hnot]. cbn [app split].
    destruct (N.eqb_spec c sep) as [->|_]; [done|]. by rewrite IH.
Qed.

Lemma split_join (sep : N) (parts : list (list N)) :
  parts <> [] -> Forall (fun p => sep ∉ p) parts ->
  split sep (join sep parts) = parts.
Proof.
  intros Hne Hall. induction Hall as [|p parts Hp Hall IH]; [done|].
  destruct parts as [|q parts].
  - cbn [join]. by apply split_without_sep.
  - change (join sep (p :: q :: parts)) with (p ++ sep :: join sep (q :: parts)).
    rewrite split_app_sep by done. by rewrite IH.
Qed.

Lemma not_elem_of_strip (c : N) (s : list N) : c ∉ s -> c ∉ Py.strip s.
Proof.
  intros Hnot Hin. apply Hnot. destruct (strip_spec s) as (l & r & Heq & _).
  rewrite Heq. rewrite !elem_of_app. tauto.
Qed.

(** A plate token is a trimmed, non-empty piece of one row's plate text,
    cut at the semicolons. *)
Lemma elem_of_plate_tokens (df : list row) (t : list N) :
  t ∈ plate_tokens df <->
  t <> [] /\ exists r piece, r ∈ df /\ isna (plate r) = false
                             /\ piece ∈ split 59%N (str (plate r))
                             /\ t = Py.strip piece.
Proof.
  unfold plate_tokens. rewrite list_elem_of_In, in_flat_map. split.
  - intros (r & Hr & Ht). apply list_elem_of_In in Hr.
    destruct (isna (plate r)) eqn:Hna; [done|].
    apply filter_In in Ht as [Ht Hne]. apply list_elem_of_In in Ht.
    apply list_elem_of_fmap in Ht as (piece & -> & Hpiece).
    split; [by intros Hnil; rewrite Hnil in Hne; cbn in Hne|].
    by exists r, piece.
  - intros (Hne & r & piece & Hr & Hna & Hpiece & ->).
    exists r. split; [by apply list_elem_of_In|]. rewrite Hna.
    apply filter_In. split.
    + apply list_elem_of_In, list_elem_of_fmap. by exists piece.
    + by rewrite bool_decide_eq_false_2.
Qed.

Lemma notna_count_le (df : list row) : notna_count df <= length df.
Proof. unfold notna_count. apply filter_length_le. Qed.

Lemma notna_count_all (df : list row) :
  notna_count df = length df <-> Forall (fun r => company r <> None) df.
Proof.
  unfold notna_count. induction df as [|r df IH]; cbn [List.filter length].
  - split; [constructor|done].
  - pose proof (filter_length_le (fun r => negb (isna (name_cell (company r)))) df) as Hle.
    rewrite Forall_cons. destruct (company r) as [c|]; cbn [name_cell isna negb length].
    + rewrite <- IH. split; [intros Heq; split; [done|lia]|intros [_ Heq]; lia].
    + split; [intros Heq; lia|by intros [? _]].
Qed.

(** X13. The generated Visitor List sheet holds the table as it is:
    row 1 holds the eleven column names, each with the header fill, and
    row [i + 2] holds the eleven values of row [i] of the table, column
    by column. *)
Theorem generate_visitor_only_us_grid (df : list row) (wb : workbook) :
  exists ws,
    get_sheet visitor_list (fst (generate_visitor_only_us df wb)) = Some ws
    /\ (forall c, 1 <= c <= 11 ->
          cells ws !! (1, c) = Some (XCell (header !! (c - 1)) HeaderFill))
    /\ (forall i r c, df !! i = Some r -> 1 <= c <= 11 ->
          value (ws_cell (i + 2) c ws) = row_values r !! (c - 1)).
Proof.
  destruct (generate_visitor_list_sheet df wb) as [Hsheet _].
  exists (fst (write_visitor_list df empty_sheet)). split; [done|].
  rewrite write_visitor_list_stages.
  destruct (sheet_highlighted_cells df) as (Hout & Hval & Hdom & Hmax).
  cbv zeta in Hout, Hval, Hdom, Hmax.
  unfold add_summary. destruct (sheet_highlighted df) as [ws4 e4]. cbn [fst snd] in *.
  rewrite Hmax.
  assert (forall r c, r <= length df + 1 ->
            cells (fst (let '(ws, ins) :=
                          match plate_tokens df with
                          | [] => (ws4, length df + 1 + 2)
                          | _ :: _ =>
                              (set_value (length df + 1 + 2 + 1) 2
                                 (CStr (join 59%N (sorted_set (plate_tokens df))))
                                 (set_value (length df + 1 + 2) 2
                                    (CStr (Py.lit "Vehicles")) ws4),
                               length df + 1 + 2 + 2)
                          end in
                        (set_value (ins + 1) 2 (CInt (Z.of_nat (notna_count df)))
                           (set_value ins 2 (CStr (Py.lit "Total Visitors")) ws),
                         e4))) !! (r, c)
            = cells ws4 !! (r, c)) as Hsame.
  { intros r c Hr. destruct (plate_tokens df); cbn [fst];
      rewrite !lookup_set_value;
      repeat (destruct (decide _) as [Heq|_]; [injection Heq as <- <-; lia|]);
      done. }
  split.
  - intros c Hc. rewrite Hsame by lia. rewrite Hout by lia.
    rewrite sheet_with_header_cells. by rewrite bool_decide_eq_true_2.
  - intros i r c Hi Hc. pose proof (lookup_lt_Some _ _ _ Hi) as Hlt.
    unfold ws_cell. rewrite Hsame by lia.
    change (default blank (cells ws4 !! (i + 2, c))) with (ws_cell (i + 2) c ws4).
    rewrite Hval by lia. rewrite written_value_data.
    rewrite bool_decide_eq_true_2 by lia. by rewrite Hi.
Qed.

End SummaryFacts.

Section SummaryBlock.

Implicit Types (ws : worksheet).

Lemma none_below ws (m : nat) :
  (forall r c, is_Some (cells ws !! (r, c)) -> r <= m) ->
  forall r c, m < r -> cells ws !! (r, c) = None.
Proof.
  intros Hdom r c Hr. destruct (cells ws !! (r, c)) as [x|] eqn:Hx; [|done].
  assert (r <= m) by (eapply Hdom; by eexists). lia.
Qed.

(** A value set in column B below every cell of the sheet: the new cell
    is unfilled, the others are as before, and the sheet ends there. *)
Lemma set_value_below ws (m a : nat) (v : cell) :
  (forall r c, is_Some (cells ws !! (r, c)) -> r <= m) ->
  m < a ->
  let ws' := set_value a 2 v ws in
  (forall r c, cells ws' !! (r, c)
               = if decide ((a, 2) = (r, c)) then Some (XCell (Some v) NoFill)
                 else cells ws !! (r, c))
  /\ (forall r c, is_Some (cells ws' !! (r, c)) -> r <= a)
  /\ max_row ws' = a.
Proof.
  intros Hdom Ha ws'.
  assert (forall r c, cells ws' !! (r, c)
            = if decide ((a, 2) = (r, c)) then Some (XCell (Some v) NoFill)
              else cells ws !! (r, c)) as Hcells.
  { intros r c. unfold ws'. apply set_value_fresh. by apply (none_below ws m). }
  assert (forall r c, is_Some (cells ws' !! (r, c)) -> r <= a) as Hdom'.
  { intros r c. rewrite Hcells. destruct (decide ((a, 2) = (r, c))) as [Heq|_].
    - injection Heq as <- <-. lia.
    - intros Hs. apply Hdom in Hs. lia. }
  split; [done|]. split; [done|].
  apply max_row_spec; [|done]. exists 2. rewrite Hcells.
  by destruct (decide ((a, 2) = (a, 2))).
Qed.

(** X14. Below the grid of [n] data rows the generated sheet leaves
    row [n + 2] empty and then holds, in column B only and unfilled: when
    the table has plate tokens, "Vehicles" in row [n + 3] and the tokens
    joined by semicolons in row [n + 4], followed by "Total Visitors" and
    the count in rows [n + 5] and [n + 6]; when it has none, "Total
    Visitors" and the count in rows [n + 3] and [n + 4]. The sheet ends
    with the count, which is the number of rows whose Company Full Name
    is not missing: at most [n], and [n] exactly when no company is
    missing. *)
Theorem generate_visitor_only_us_summary (df : list row) (wb : workbook) :
  let n := length df in
  let tokens := plate_tokens df in
  let label v := Some (XCell (Some v) NoFill) in
  exists ws,
    get_sheet visitor_list (fst (generate_visitor_only_us df wb)) = Some ws
    /\ (forall c, cells ws !! (n + 2, c) = None)
    /\ (forall r c, n + 2 <= r -> c <> 2 -> cells ws !! (r, c) = None)
    /\ (tokens = [] ->
        cells ws !! (n + 3, 2) = label (CStr (Py.lit "Total Visitors"))
        /\ cells ws !! (n + 4, 2) = label (CInt (Z.of_nat (notna_count df)))
        /\ max_row ws = n + 4)
    /\ (tokens <> [] ->
        cells ws !! (n + 3, 2) = label (CStr (Py.lit "Vehicles"))
        /\ cells ws !! (n + 4, 2) = label (CStr (join 59%N (sorted_set tokens)))
        /\ cells ws !! (n + 5, 2) = label (CStr (Py.lit "Total Visitors"))
        /\ cells ws !! (n + 6, 2) = label (CInt (Z.of_nat (notna_count df)))
        /\ max_row ws = n + 6)
    /\ notna_count df <= n
    /\ (notna_count df = n <-> Forall (fun r => company r <> None) df).
Proof.
  intros n tokens label.
  destruct (generate_visitor_list_sheet df wb) as [Hsheet _].
  exists (fst (write_visitor_list df empty_sheet)). split; [done|].
  rewrite write_visitor_list_stages.
  destruct (sheet_highlighted_cells df) as (_ & _ & Hdom & Hmax).
  cbv zeta in Hdom, Hmax. fold n in Hdom, Hmax.
  unfold add_summary. destruct (sheet_highlighted df) as [ws4 e4]. cbn [fst snd] in *.
  rewrite Hmax. fold tokens.
  pose proof (none_below ws4 (n + 1) Hdom) as Hnone.
  assert (notna_count df <= n
          /\ (notna_count df = n <-> Forall (fun r => company r <> None) df)) as Hcount
    by (split; [apply notna_count_le|apply notna_count_all]).
  destruct tokens as [|t ts] eqn:Htokens; cbn [fst].
  - destruct (set_value_below ws4 (n + 1) (n + 1 + 2)
                (CStr (Py.lit "Total Visitors")) Hdom) as (Hc1 & Hd1 & _); [lia|].
    cbv zeta in Hc1, Hd1.
    destruct (set_value_below _ (n + 1 + 2) (n + 1 + 2 + 1)
                (CInt (Z.of_nat (notna_count df))) Hd1) as (Hc2 & Hd2 & Hm2); [lia|].
    cbv zeta in Hc2, Hd2, Hm2.
    assert (forall r c, (n + 1 + 2, 2) <> (r, c) -> (n + 1 + 2 + 1, 2) <> (r, c) ->
              n + 2 <= r ->
              cells (set_value (n + 1 + 2 + 1) 2 (CInt (Z.of_nat (notna_count df)))
                       (set_value (n + 1 + 2) 2 (CStr (Py.lit "Total Visitors")) ws4))
                !! (r, c) = None) as Hrest.
    { intros r c H1 H2 Hr. rewrite Hc2, Hc1.
      destruct (decide _) as [?|_]; [done|]. destruct (decide _) as [?|_]; [done|].
      apply Hnone. lia. }
    split; [intros c; apply Hrest; [intros [=]; lia|intros [=]; lia|lia]|].
    split; [intros r c Hr Hc; apply Hrest; [by intros [=]|by intros [=]|lia]|].
    split; [|split; [done|exact Hcount]].
    intros _. split; [|split].
    + rewrite Hc2, Hc1. rewrite decide_False by (intros [=]; lia).
      by rewrite decide_True by (f_equal; lia).
    + rewrite Hc2. by rewrite decide_True by (f_equal; lia).
    + rewrite Hm2. lia.
  - destruct (set_value_below ws4 (n + 1) (n + 1 + 2)
                (CStr (Py.lit "Vehicles")) Hdom) as (Hc1 & Hd1 & _); [lia|].
    cbv zeta in Hc1, Hd1.
    destruct (set_value_below _ (n + 1 + 2) (n + 1 + 2 + 1)
                (CStr (join 59%N (sorted_set (t :: ts)))) Hd1) as (Hc2 & Hd2 & _); [lia|].
    cbv zeta in Hc2, Hd2.
    destruct (set_value_below _ (n + 1 + 2 + 1) (n + 1 + 2 + 2)
                (CStr (Py.lit "Total Visitors")) Hd2) as (Hc3 & Hd3 & _); [lia|].
    cbv zeta in Hc3, Hd3.
    destruct (set_value_below _ (n + 1 + 2 + 2) (n + 1 + 2 + 2 + 1)
                (CInt (Z.of_nat (notna_count df))) Hd3) as (Hc4 & Hd4 & Hm4); [lia|].
    cbv zeta in Hc4, Hd4, Hm4.
    set (ws8 := set_value (n + 1 + 2 + 2 + 1) 2 _ _) in *.
    assert (forall r c,
              cells ws8 !! (r, c)
              = if decide ((n + 1 + 2 + 2 + 1, 2) = (r, c))
                then label (CInt (Z.of_nat (notna_count df)))
                else if decide ((n + 1 + 2 + 2, 2) = (r, c))
                then label (CStr (Py.lit "Total Visitors"))
                else if decide ((n + 1 + 2 + 1, 2) = (r, c))
                then label (CStr (join 59%N (sorted_set (t :: ts))))
                else if decide ((n + 1 + 2, 2) = (r, c))
                then label (CStr (Py.lit "Vehicles"))
                else cells ws4 !! (r, c)) as Hcells.
    { intros r c. by rewrite Hc4, Hc3, Hc2, Hc1. }
    assert (forall r c, n + 2 <= r -> (c <> 2 \/ r = n + 2) -> cells ws8 !! (r, c) = None)
      as Hrest.
    { intros r c Hr Hc. rewrite Hcells.
      repeat (destruct (decide _) as [Heq|_]; [injection Heq; lia|]).
      apply Hnone. lia. }
    split; [intros c; apply Hrest; [lia|by right]|].
    split; [intros r c Hr Hc; apply Hrest; [lia|by left]|].
    split; [done|]. split; [|exact Hcount].
    intros _. rewrite !Hcells.
    split; [|split; [|split; [|split]]].
    + repeat (rewrite decide_False by (intros [=]; lia)).
      by rewrite decide_True by (f_equal; lia).
    + repeat (rewrite decide_False by (intros [=]; lia)).
      by rewrite decide_True by (f_equal; lia).
    + repeat (rewrite decide_False by (intros [=]; lia)).
      by rewrite decide_True by (f_equal; lia).
    + repeat (rewrite decide_False by (intros [=]; lia)).
      by rewrite decide_True by (f_equal; lia).
    + rewrite Hm4. lia.
Qed.

(** X15. The text of the Vehicles cell lists every plate token of the
    table once, in ascending code-point order; each token is a non-empty
    trimmed piece of some row's plate text and holds no semicolon, so
    cutting the cell text at its semicolons gives the tokens back. *)
Theorem vehicles_cell_tokens (df : list row) :
  let tokens := plate_tokens df in
  let listed := sorted_set tokens in
  (forall t, t ∈ listed <-> t ∈ tokens)
  /\ StronglySorted (fun a b => str_compare a b = Lt) listed
  /\ NoDup listed
  /\ Forall (fun t => t <> [] /\ trimmed t /\ 59%N ∉ t) listed
  /\ (tokens <> [] -> split 59%N (join 59%N listed) = listed).
Proof.
  intros tokens listed.
  assert (forall t, t ∈ listed <-> t ∈ tokens) as Hsame
    by (intros t; apply elem_of_sorted_set).
  assert (StronglySorted (fun a b => str_compare a b = Lt) listed) as Hsorted
    by apply sorted_set_sorted.
  assert (Forall (fun t => t <> [] /\ trimmed t /\ 59%N ∉ t) listed) as Hall.
  { apply Forall_forall. intros t Ht. apply Hsame in Ht.
    apply elem_of_plate_tokens in Ht as (Hne & r & piece & _ & _ & Hpiece & ->).
    split; [done|]. split; [apply trimmed_strip|].
    apply not_elem_of_strip. by eapply split_no_sep. }
  split; [done|]. split; [done|]. split.
  { clear Hsame Hall. induction Hsorted as [|a l Hs IH Ha]; constructor; [|done].
    intros Hin. rewrite Forall_forall in Ha. specialize (Ha a Hin).
    assert (str_compare a a = Eq) as Heq by (by apply str_compare_Eq). congruence. }
  split; [done|].
  intros Hne. apply split_join.
  - intros Hnil. destruct tokens as [|t ts]; [done|].
    assert (t ∈ listed) as Hin by (apply Hsame; by left).
    rewrite Hnil in Hin. by apply elem_of_nil in Hin.
  - eapply Forall_impl; [exact Hall|]. by intros t (_ & _ & ?).
Qed.

End SummaryBlock.

(** ** The upload handler *)

Section UploadFacts.
Context `{CaseTables}.

Lemma company_label_spec (first : raw_row) :
  company_label first <> []
  /\ trimmed (company_label first)
  /\ (forall s, company (cols first) = Some s -> Py.strip s <> [] ->
        company_label first = Py.strip s)
  /\ (forall s, company (cols first) = Some s -> Py.strip s = [] ->
        company_label first = Py.lit "VisitorList")
  /\ (company (cols first) = None -> company_label first = Py.lit "VisitorList").
Proof.
  unfold company_label.
  assert (trimmed (Py.lit "VisitorList")) as Hdefault.
  { split; intros c [= <-]; reflexivity. }
  destruct (company (cols first)) as [s|]; cbn [name_cell isna negb andb str].
  - case_bool_decide as Hblank; cbn [negb].
    + split; [done|]. split; [done|]. split; [by intros ? [= <-] ?|]. by split.
    + split; [done|]. split; [apply trimmed_strip|].
      split; [by intros ? [= <-] _|]. split; [by intros ? [= <-] ?|done].
  - split; [done|]. split; [done|]. split; [done|]. by split.
Qed.

(** X16. The page offers a download exactly when cleaning keeps a row of
    the upload; when every row is dropped, or the sheet has no row, the
    run ends with the exception of [clean_data_us] and there is neither
    a workbook nor a name. The download is the workbook written from the
    cleaned table, with the flag of the writer, under a name made of a
    label, an underscore, the date text and ".xlsx"; the label is the
    trimmed Company Full Name of the first uploaded row (whether or not
    cleaning keeps that row), or "VisitorList" when that cell is missing
    or blank, so the label is never empty and carries no white space at
    its ends. *)
Theorem download_file_name_spec (raw_df : list raw_row) (wb : workbook)
    (today_eastern : list N) :
  (handle_upload raw_df wb today_eastern = None
   <-> dropna_all (cols <$> raw_df) = [])
  /\ (handle_upload raw_df wb today_eastern = None <-> clean_data_us raw_df = None)
  /\ (forall cleaned, clean_data_us raw_df = Some cleaned ->
        exists first rest label,
          raw_df = first :: rest
          /\ handle_upload raw_df wb today_eastern
             = Some (fst (generate_visitor_only_us cleaned wb),
                     snd (generate_visitor_only_us cleaned wb),
                     label ++ Py.lit "_" ++ today_eastern ++ Py.lit ".xlsx")
          /\ label <> [] /\ trimmed label
          /\ (forall s, company (cols first) = Some s -> Py.strip s <> [] ->
                label = Py.strip s)
          /\ (forall s, company (cols first) = Some s -> Py.strip s = [] ->
                label = Py.lit "VisitorList")
          /\ (company (cols first) = None -> label = Py.lit "VisitorList")).
Proof.
  assert (forall cleaned, clean_data_us raw_df = Some cleaned ->
            exists first rest,
              raw_df = first :: rest
              /\ handle_upload raw_df wb today_eastern
                 = Some (fst (generate_visitor_only_us cleaned wb),
                         snd (generate_visitor_only_us cleaned wb),
                         company_label first ++ Py.lit "_" ++ today_eastern
                           ++ Py.lit ".xlsx")) as Hsome.
  { intros cleaned Hc. unfold handle_upload. rewrite Hc. cbn [mbind option_bind].
    destruct (generate_visitor_only_us cleaned wb) as [out_buf has_errors].
    apply clean_data_us_Some in Hc as [Hkept _].
    destruct raw_df as [|first rest]; [done|]. by exists first, rest. }
  assert (handle_upload raw_df wb today_eastern = None <-> clean_data_us raw_df = None)
    as Hnone.
  { destruct (clean_data_us raw_df) as [cleaned|] eqn:Hc.
    - destruct (Hsome cleaned eq_refl) as (first & rest & _ & ->). by split.
    - unfold handle_upload. rewrite Hc. by split. }
  split; [by rewrite Hnone, clean_data_us_None|]. split; [done|].
  intros cleaned Hc. destruct (Hsome cleaned Hc) as (first & rest & Hraw & Hrun).
  exists first, rest, (company_label first). split; [done|]. split; [done|].
  apply company_label_spec.
Qed.

End UploadFacts.

Example handle_upload_examples :
  (fun run => snd run) <$> handle_upload sample_upload [] (Py.lit "20261104")
  = Some (Py.lit "Beta Ltd_20261104.xlsx")
  /\ handle_upload [RawRow beta_row []; RawRow remarks_only_row []] []
       (Py.lit "20261104")
     = handle_upload [RawRow beta_row []] [] (Py.lit "20261104")
  /\ handle_upload [RawRow (set_sn CNaN remarks_only_row) []] [] (Py.lit "20261104")
     = None
  /\ handle_upload [] [] (Py.lit "20261104") = None.
Proof. repeat split; vm_compute; reflexivity. Qed.

(** ** More on the clearance date *)

Section ClearanceMore.
Import Clearance.
Local Open Scope Z_scope.

(** X17. [next_working_day] gives a weekday back as it is, moves a
    Saturday two days and a Sunday one day forward, never moves a date
    by more than two days, and gives its own results back. *)
Theorem next_working_day_cases (d : Z) :
  exists d',
    next_working_day d = Some d'
    /\ d <= d' <= d + 2
    /\ is_weekday d'
    /\ (is_weekday d -> d' = d)
    /\ (weekday d = 5 -> d' = d + 2)
    /\ (weekday d = 6 -> d' = d + 1)
    /\ next_working_day d' = Some d'.
Proof.
  destruct (next_working_day_spec d) as (d' & Hd' & Hle & Hwd & Hmin).
  exists d'. unfold is_weekday in *.
  pose proof (weekday_range d) as Hr.
  pose proof (weekday_succ d) as [H1 H1'].
  pose proof (weekday_succ (d + 1)) as [H2 H2'].
  assert (d' = d \/ d' = d + 1 \/ d' = d + 2) as Hcases.
  { destruct (Z.lt_trichotomy d' (d + 3)) as [?|[?|?]]; [lia| |].
    - exfalso. destruct (Z.eq_dec (weekday d) 5) as [H5|H5].
      + apply (Hmin (d + 1 + 1)); lia.
      + destruct (Z.eq_dec (weekday d) 6) as [H6|H6].
        * apply (Hmin (d + 1)); lia.
        * apply (Hmin d); lia.
    - exfalso. destruct (Z.eq_dec (weekday d) 5) as [H5|H5].
      + apply (Hmin (d + 1 + 1)); lia.
      + destruct (Z.eq_dec (weekday d) 6) as [H6|H6].
        * apply (Hmin (d + 1)); lia.
        * apply (Hmin d); lia. }
  split; [done|]. split; [lia|]. split; [done|].
  split.
  { intros Hd. destruct (Z.eq_dec d' d) as [?|Hne]; [done|].
    exfalso. apply (Hmin d); lia. }
  split.
  { intros H5. destruct Hcases as [-> | [-> | ?]]; [lia| |lia].
    lia. }
  split.
  { intros H6. destruct Hcases as [-> | [? | ->]]; [lia|done|].
    exfalso. apply (Hmin (d + 1)); lia. }
  unfold next_working_day. rewrite next_working_day_loop_S.
  destruct (Z.leb_spec 5 (weekday d')); [lia|done].
Qed.









End ClearanceMore.

Section ClearanceDefault.
Import Clearance.
Local Open Scope Z_scope.

Lemma endless_clearance_default (submit_dt : datetime) :
  let d := date submit_dt in
  endless_clearance submit_dt 2
  = Some (d + (if weekday d <=? 2 then 2 else if weekday d <=? 5 then 4 else 3)).
Proof.
  intros d. unfold endless_clearance, next_working_day.
  fold d. change (3 * Z.to_nat 2 + 1)%nat with 7%nat.
  pose proof (weekday_range d) as Hr.
  pose proof (weekday_succ d) as [H1 H1'].
  pose proof (weekday_succ (d + 1)) as [H2 H2'].
  pose proof (weekday_succ (d + 1 + 1)) as [H3 H3'].
  pose proof (weekday_succ (d + 1 + 1 + 1)) as [H4 H4'].
  pose proof (weekday_succ (d + 1 + 1 + 1 + 1)) as [H5 H5'].
  repeat first
    [ match goal with
      | |- context [Z.leb ?a ?b] => destruct (Z.leb_spec a b); try (exfalso; lia)
      | |- context [Z.ltb ?a ?b] => destruct (Z.ltb_spec a b); try (exfalso; lia)
      end
    | progress cbn [mbind option_bind]
    | rewrite next_working_day_loop_S
    | rewrite endless_count_loop_S ];
    f_equal; lia.
Qed.

(** X20. With the count of 2 that the page uses, for a submission on a
    date of the calendar, the clearance date is two days after a
    submission on Monday, Tuesday or Wednesday, four days after one on
    Thursday, Friday or Saturday, and three days after one on Sunday:
    always two to four days later. The call returns that
    date when it is on or before 31 December 9999, as it is for every
    submission up to 27 December 9999, and raises OverflowError when it
    is not. *)
Theorem earliest_clearance_default_offset (submit_dt : datetime) :
  is_date (date submit_dt) ->
  let d := date submit_dt in
  let r := d + (if weekday d <=? 2 then 2 else if weekday d <=? 5 then 4 else 3) in
  earliest_clearance_default submit_dt
  = (if r <=? date_max then Returns r else OverflowError)
  /\ d + 2 <= r <= d + 4
  /\ (d + 4 <= date_max -> earliest_clearance_default submit_dt = Returns r).
Proof.
  intros _ d r.
  assert (d + 2 <= r <= d + 4) as Hr.
  { subst r. destruct (weekday d <=? 2); [lia|]. destruct (weekday d <=? 5); lia. }
  assert (earliest_clearance_default submit_dt
          = if r <=? date_max then Returns r else OverflowError) as Heq.
  { unfold earliest_clearance_default.
    destruct (clearance_outcome submit_dt 2 ltac:(lia))
      as (day1 & dN & r0 & _ & _ & _ & _ & _ & Hendless & Hout).
    rewrite endless_clearance_default in Hendless. fold d in Hendless.
    injection Hendless as Hr0. rewrite Hout. fold r in Hr0. by rewrite <- Hr0. }
  split; [exact Heq|]. split; [exact Hr|].
  intros Hin. rewrite Heq. by rewrite (proj2 (Z.leb_le r date_max)) by lia.
Qed.

Lemma earliest_clearance_default_offset_witness :
  is_date 3652058
  /\ earliest_clearance_default (DateTime 3652058 0) = OverflowError
  /\ is_date 739004
  /\ earliest_clearance_default (DateTime 739004 0) = Returns 739007.
Proof.
  assert (is_date (date (DateTime 3652058 0))) as Hlate
    by (unfold is_date, date_max; cbn; lia).
  assert (is_date (date (DateTime 739004 0))) as Hd
    by (unfold is_date, date_max; cbn; lia).
  split; [exact Hlate|]. split.
  { exact (proj1 (earliest_clearance_default_offset (DateTime 3652058 0) Hlate)). }
  split; [exact Hd|].
  exact (proj1 (earliest_clearance_default_offset (DateTime 739004 0) Hd)).
Defined.

End ClearanceDefault.

(** ** Vehicle plates *)

Section PlateFacts.

Lemma semicolons_tight_cons (a b : N) (l : list N) :
  semicolons_tight (a :: b :: l) <-> loose_pair a b = false /\ semicolons_tight (b :: l).
Proof. reflexivity. Qed.

Lemma semicolons_tight_app (l1 l2 : list N) :
  semicolons_tight l1 -> semicolons_tight l2 ->
  (forall a b, last l1 = Some a -> head l2 = Some b -> loose_pair a b = false) ->
  semicolons_tight (l1 ++ l2).
Proof.
  intros H1 H2 Hj. induction l1 as [|a [|b l1] IH]; [done| |].
  - destruct l2 as [|b l2]; [done|]. cbn [app]. apply semicolons_tight_cons.
    split; [by apply Hj|done].
  - cbn [app]. apply semicolons_tight_cons in H1 as [Hab H1].
    apply semicolons_tight_cons. split; [done|]. apply IH; [done|].
    intros x y Hx. apply Hj. by rewrite last_cons_cons.
Qed.

Lemma semicolons_tight_app_inv (l1 l2 : list N) :
  semicolons_tight (l1 ++ l2) -> semicolons_tight l1 /\ semicolons_tight l2.
Proof.
  induction l1 as [|a [|b l1] IH]; intros Ht; [done| |].
  - split; [done|]. destruct l2 as [|b l2]; [done|]. by apply semicolons_tight_cons in Ht as [_ ?].
  - cbn [app] in Ht. apply semicolons_tight_cons in Ht as [Hab Ht].
    destruct (IH Ht) as [H1 H2]. split; [|done].
    apply semicolons_tight_cons. by split.
Qed.

Lemma semicolons_tight_spaces (p : list N) :
  Forall (fun c => Py.isspace c = true) p -> semicolons_tight p.
Proof.
  induction 1 as [|a p Ha Hp IH]; [done|]. destruct p as [|b p]; [done|].
  apply semicolons_tight_cons. split; [|done].
  apply Forall_cons in Hp as [Hb _]. unfold loose_pair.
  destruct (N.eqb_spec a 59) as [->|_]; [done|].
  destruct (N.eqb_spec b 59) as [->|_]; [done|]. by rewrite andb_false_r.
Qed.

Lemma sub_spaced_semicolons_tight (s : list N) :
  forall (after : bool) (pending : list N),
    Forall (fun c => Py.isspace c = true) pending ->
    (after = true -> pending = []) ->
    semicolons_tight (sub_spaced_semicolons after pending s)
    /\ (after = true ->
        forall c, head (sub_spaced_semicolons after pending s) = Some c ->
                  Py.isspace c = false).
Proof.
  induction s as [|c r IH]; intros after pending Hp Hafter; cbn [sub_spaced_semicolons].
  - split; [by apply semicolons_tight_spaces|]. intros Ha. by rewrite (Hafter Ha).
  - destruct (N.eqb_spec c 59) as [->|Hc].
    + destruct (IH true [] (Forall_nil_2 _) (fun _ => eq_refl)) as [Ht Hh]. split.
      * destruct (sub_spaced_semicolons true [] r) as [|b out] eqn:Hout; [done|].
        apply semicolons_tight_cons. split; [|done].
        unfold loose_pair. rewrite (Hh eq_refl b eq_refl). reflexivity.
      * intros _ x [= <-]. reflexivity.
    + destruct (Py.isspace c) eqn:Hsp.
      * destruct after.
        -- apply IH; [constructor|done].
        -- destruct (IH false (pending ++ [c])) as [Ht _]; [|done|].
           { apply Forall_app. split; [done|]. by repeat constructor. }
           split; [done|]. intros [=].
      * destruct (IH false [] (Forall_nil_2 _) (fun H => eq_refl)) as [Ht _].
        assert (semicolons_tight (c :: sub_spaced_semicolons false [] r)) as Hct.
        { destruct (sub_spaced_semicolons false [] r) as [|b out]; [done|].
          apply semicolons_tight_cons. split; [|done]. unfold loose_pair.
          destruct (N.eqb_spec c 59); [done|]. by rewrite Hsp. }
        split.
        -- apply semicolons_tight_app; [by apply semicolons_tight_spaces|done|].
           intros a b Ha [= <-]. unfold loose_pair.
           destruct (N.eqb_spec c 59); [done|]. rewrite andb_false_r, orb_false_r.
           destruct (N.eqb_spec a 59) as [->|_]; [|done].
           apply last_Some in Ha as [p' ->]. apply Forall_app in Hp as [_ Hp].
           by apply Forall_cons in Hp as [Hp _].
        -- intros Ha x. rewrite (Hafter Ha). cbn. by intros [= <-].
Qed.

Lemma elem_of_sub_spaced_semicolons (x : N) (s : list N) :
  forall (after : bool) (pending : list N),
    x ∈ sub_spaced_semicolons after pending s -> x ∈ pending \/ x ∈ s.
Proof.
  induction s as [|c r IH]; intros after pending; cbn [sub_spaced_semicolons].
  - by left.
  - destruct (N.eqb_spec c 59) as [->|Hc].
    + rewrite !elem_of_cons. intros [->|Hin]; [right; by left|].
      apply IH in Hin as [Hin|Hin]; [by apply elem_of_nil in Hin|]. right. by right.
    + destruct (Py.isspace c).
      * destruct after.
        -- intros Hin. apply IH in Hin as [Hin|Hin]; [by apply elem_of_nil in Hin|].
           right. by right.
        -- intros Hin. apply IH in Hin as [Hin|Hin].
           ++ apply elem_of_app in Hin as [Hin|Hin]; [by left|].
              apply list_elem_of_singleton in Hin as ->. right. by left.
           ++ right. by right.
      * rewrite elem_of_app, !elem_of_cons. intros [Hin|[->|Hin]]; [by left|right; by left|].
        apply IH in Hin as [Hin|Hin]; [by apply elem_of_nil in Hin|]. right. by right.
Qed.

Lemma elem_of_sub_separators (x : N) (s : list N) :
  x ∈ sub_separators s -> x <> 47%N /\ x <> 44%N.
Proof.
  unfold sub_separators. intros Hin.
  apply list_elem_of_fmap in Hin as (c & -> & _).
  case_bool_decide as Hc; [done|]. split; intros ->; apply Hc; auto.
Qed.

(** A text that is already in the plate format comes through the plate
    step as it is. *)
Lemma sub_spaced_semicolons_id (s : list N) :
  forall (after : bool) (pending : list N),
    Forall (fun c => Py.isspace c = true) pending ->
    semicolons_tight (pending ++ s) ->
    (after = true -> pending = [] /\ forall c, head s = Some c -> Py.isspace c = false) ->
    sub_spaced_semicolons after pending s = pending ++ s.
Proof.
  induction s as [|c r IH]; intros after pending Hp Ht Hafter; cbn [sub_spaced_semicolons].
  - by rewrite app_nil_r.
  - destruct (semicolons_tight_app_inv _ _ Ht) as [_ Hcr].
    destruct (N.eqb_spec c 59) as [->|Hc].
    + assert (pending = []) as ->.
      { destruct (last pending) as [a|] eqn:Ha; [|by apply last_None in Ha].
        exfalso. apply last_Some in Ha as [p' ->].
        rewrite <- app_assoc in Ht. apply semicolons_tight_app_inv in Ht as [_ Ht].
        cbn [app] in Ht. apply semicolons_tight_cons in Ht as [Hl _].
        apply Forall_app in Hp as [_ Hp]. apply Forall_cons in Hp as [Hp _].
        unfold loose_pair in Hl. rewrite Hp in Hl. cbn in Hl.
        by rewrite andb_false_r in Hl. }
      cbn [app]. f_equal. rewrite (IH true []); [done|constructor| |].
      * by destruct (semicolons_tight_app_inv [59%N] r Hcr).
      * intros _. split; [done|]. intros b Hb. destruct r as [|b' r]; [done|].
        injection Hb as ->. apply semicolons_tight_cons in Hcr as [Hl _].
        unfold loose_pair in Hl. cbn in Hl. by destruct (Py.isspace b).
    + destruct (Py.isspace c) eqn:Hsp.
      * destruct after.
        -- destruct (Hafter eq_refl) as [_ Hh]. specialize (Hh c eq_refl). congruence.
        -- rewrite (IH false (pending ++ [c])); [by rewrite <- app_assoc| | |done].
           ++ apply Forall_app. split; [done|]. by repeat constructor.
           ++ by rewrite <- app_assoc.
      * f_equal. f_equal. rewrite (IH false []); [done|constructor| |done].
        by destruct (semicolons_tight_app_inv [c] r Hcr).
Qed.

Lemma semicolons_tight_infix (l m r : list N) :
  semicolons_tight (l ++ m ++ r) -> semicolons_tight m.
Proof.
  intros Ht. apply semicolons_tight_app_inv in Ht as [_ Ht].
  by apply semicolons_tight_app_inv in Ht as [Ht _].
Qed.

(** X21. The plate text that [clean_data_us] writes holds neither "/"
    nor ",", has no white space at its ends and none next to a
    semicolon, and is never the text "nan"; a text of this form comes
    through the plate step unchanged, so the step gives its own results
    back. *)
Theorem normalize_plate_shape (p : cell) :
  let out := normalize_plate p in
  (47%N ∉ out) /\ (44%N ∉ out)
  /\ trimmed out
  /\ semicolons_tight out
  /\ out <> Py.lit "nan"
  /\ normalize_plate (CStr out) = out.
Proof.
  intros out.
  set (t := Py.strip (sub_spaced_semicolons false [] (sub_separators (str p)))).
  assert (forall x, x ∈ t -> x <> 47%N /\ x <> 44%N) as Hsep.
  { intros x Hx. unfold t in Hx.
    destruct (strip_spec (sub_spaced_semicolons false [] (sub_separators (str p))))
      as (l & r & Heq & _).
    assert (x ∈ sub_spaced_semicolons false [] (sub_separators (str p))) as Hin.
    { rewrite Heq, !elem_of_app. tauto. }
    apply elem_of_sub_spaced_semicolons in Hin as [Hin|Hin]; [by apply elem_of_nil in Hin|].
    by eapply elem_of_sub_separators. }
  assert (semicolons_tight t) as Htight.
  { unfold t.
    destruct (strip_spec (sub_spaced_semicolons false [] (sub_separators (str p))))
      as (l & r & Heq & _).
    destruct (sub_spaced_semicolons_tight (sub_separators (str p)) false [])
      as [Ht _]; [constructor|done|].
    rewrite Heq in Ht. by apply semicolons_tight_infix in Ht. }
  assert (trimmed t) as Htrim by apply trimmed_strip.
  assert (out = if bool_decide (t = Py.lit "nan") then [] else t) as Hout by reflexivity.
  assert (forall x, x ∈ out -> x <> 47%N /\ x <> 44%N) as Hsep'.
  { intros x. rewrite Hout. case_bool_decide; [by intros ?%elem_of_nil|apply Hsep]. }
  assert (trimmed out /\ semicolons_tight out /\ out <> Py.lit "nan") as (Ht1 & Ht2 & Ht3).
  { rewrite Hout. case_bool_decide; [|done]. split; [|done]. by split. }
  split; [intros Hin; by destruct (Hsep' _ Hin)|].
  split; [intros Hin; by destruct (Hsep' _ Hin)|].
  split; [done|]. split; [done|]. split; [done|].
  unfold normalize_plate at 1. cbn [str].
  assert (sub_separators out = out) as ->.
  { unfold sub_separators. rewrite <- (list_fmap_id out) at 2.
    apply list_fmap_ext. intros i x Hx. cbv beta.
    apply list_elem_of_lookup_2, Hsep' in Hx.
    rewrite bool_decide_eq_false_2; [done|]. intros [?|?]; tauto. }
  rewrite (sub_spaced_semicolons_id out false []); [|constructor|done|done].
  cbn [app]. rewrite (strip_trimmed out Ht1). by rewrite bool_decide_eq_false_2.
Qed.

End PlateFacts.

Lemma clean_gender_male_female_witness :
  Ascii7.is_ascii (str (CStr (Py.lit " male ")))
  /\ clean_gender (CStr (Py.lit " male ")) = Py.lit "Male".
Proof.
  assert (Ascii7.is_ascii (str (CStr (Py.lit " male ")))) as Hg
    by (unfold Ascii7.is_ascii; cbn; by repeat constructor).
  split; [exact Hg|].
  apply (proj1 (clean_gender_male_female _ Hg)). right. reflexivity.
Defined.

Lemma clean_gender_idempotent_witness :
  Ascii7.is_ascii (str (CStr (Py.lit "non-binary")))
  /\ clean_gender (CStr (clean_gender (CStr (Py.lit "non-binary"))))
     = clean_gender (CStr (Py.lit "non-binary")).
Proof.
  assert (Ascii7.is_ascii (str (CStr (Py.lit "non-binary")))) as Hg
    by (unfold Ascii7.is_ascii; cbn; by repeat constructor).
  split; [exact Hg|]. exact (clean_gender_idempotent _ Hg).
Defined.

Lemma normalize_nationality_lookup_witness :
  Ascii7.is_ascii (str (CStr (Py.lit " USA ")))
  /\ normalize_nationality (CStr (Py.lit " USA ")) = Py.lit "United States".
Proof.
  assert (Ascii7.is_ascii (str (CStr (Py.lit " USA ")))) as Hn
    by (unfold Ascii7.is_ascii; cbn; by repeat constructor).
  split; [exact Hn|].
  apply (proj1 (normalize_nationality_lookup _ Hn)).
  unfold nat_map. do 4 apply list_elem_of_further. apply list_elem_of_here.
Defined.

Lemma normalize_nationality_idempotent_witness :
  Ascii7.is_ascii (str (CStr (Py.lit "south korean")))
  /\ normalize_nationality (CStr (normalize_nationality (CStr (Py.lit "south korean"))))
     = normalize_nationality (CStr (Py.lit "south korean")).
Proof.
  assert (Ascii7.is_ascii (str (CStr (Py.lit "south korean")))) as Hn
    by (unfold Ascii7.is_ascii; cbn; by repeat constructor).
  split; [exact Hn|]. exact (normalize_nationality_idempotent _ Hn).
Defined.

(** ** Order and errors of the whole table *)

Section WholeTable.
Context `{CaseTables}.

(** X22. A frame that is already in key order comes out of
    [sort_values] as it is; so sorting twice is sorting once. *)
Theorem sort_values_of_sorted (df : list row) :
  (StronglySorted keys_le df -> sort_values df = df)
  /\ sort_values (sort_values df) = sort_values df.
Proof.
  assert (forall l, StronglySorted keys_le l -> sort_values l = l) as Hid.
  { induction 1 as [|x l Hs IH Hx]; [done|]. cbn [sort_values]. rewrite IH.
    destruct l as [|y l]; [done|]. cbn [insert_row].
    apply Forall_cons in Hx as [Hxy _]. unfold keys_le in Hxy. unfold row_le.
    by destruct (row_compare x y). }
  split; [apply Hid|]. apply Hid, sort_values_sorted.
Qed.

Lemma kept_row_position (raw : list raw_row) (src : row) :
  src ∈ dropna_all (cols <$> raw) ->
  exists i, clean_frame raw !! i = Some (finish_row i (with_nationality src)).
Proof.
  intros Hsrc.
  assert (with_nationality src ∈ sort_values (frame_before_sort raw)) as Hin.
  { rewrite sort_values_Permutation, frame_before_sort_eq. by apply list_elem_of_fmap_2. }
  apply list_elem_of_lookup_1 in Hin as [i Hi]. exists i.
  by rewrite clean_frame_unfold, list_lookup_imap, Hi.
Qed.

(** X23. The flag returned for the workbook of the cleaned table is
    false exactly when every row that cleaning keeps has a driver license
    with at least four digit characters (a final ".0" removed) and a Full
    Name that, title-cased and trimmed, holds a space. *)
Theorem no_errors_iff (raw : list raw_row) (df : list row) (wb : workbook) :
  clean_data_us raw = Some df ->
  snd (generate_visitor_only_us df wb) = false
  <-> Forall (fun src =>
                4 <= length (Py.sub_nondigits (sub_dot_zero (str (fillna_empty (dl src)))))
                /\ 32%N ∈ Py.strip (title (str (name_cell (full_name src)))))
             (dropna_all (cols <$> raw)).
Proof.
  intros Hdf. apply clean_data_us_Some in Hdf as [_ ->].
  destruct (generate_flags_any (clean_frame raw) wb) as (ws & _ & Hrows & Honly & Hflag).
  assert (forall i src, clean_frame raw !! i = Some (finish_row i (with_nationality src)) ->
            (flagged ws (i + 2) 7
             <-> length (Py.sub_nondigits (sub_dot_zero (str (fillna_empty (dl src))))) < 4)
            /\ (flagged ws (i + 2) 6
                <-> 32%N ∉ Py.strip (title (str (name_cell (full_name src)))))) as Hrow.
  { intros i src Hi. destruct (Hrows _ _ Hi) as (_ & _ & Hdl & Hname). split.
    - change (dl (finish_row i (with_nationality src)))
        with (CStr (clean_driver_license (dl src))) in Hdl.
      cbn [str] in Hdl.
      destruct (clean_driver_license_spec (dl src)) as (Hdig & _ & _).
      rewrite (strip_digits _ Hdig) in Hdl. rewrite Hdl.
      unfold four_digits. rewrite clean_driver_license_length. split.
      + intros Hn.
        destruct (decide (length (Py.sub_nondigits
                            (sub_dot_zero (str (fillna_empty (dl src))))) < 4)); [done|].
        exfalso. apply Hn. split; [lia|done].
      + intros Hlt [Heq _]. lia.
    - rewrite Hname.
      change (middle_last (finish_row i (with_nationality src)))
        with (CStr (snd (split_name (CStr (title (str (name_cell (full_name src)))))))).
      cbn [str]. apply split_name_rest_blank. }
  rewrite Forall_forall. split.
  - intros Hfalse src Hsrc. destruct (kept_row_position raw src Hsrc) as [i Hi].
    destruct (Hrow i src Hi) as [H7 H6].
    assert (~ exists r c, flagged ws r c) as Hnone.
    { intros Hex. apply Hflag in Hex. congruence. }
    split.
    + destruct (decide (4 <= length (Py.sub_nondigits
                                       (sub_dot_zero (str (fillna_empty (dl src)))))));
        [done|].
      exfalso. apply Hnone. exists (i + 2), 7. apply H7. lia.
    + destruct (decide (32%N ∈ Py.strip (title (str (name_cell (full_name src))))));
        [done|].
      exfalso. apply Hnone. exists (i + 2), 6. by apply H6.
  - intros Hall.
    destruct (snd (generate_visitor_only_us (clean_frame raw) wb)) eqn:Herr; [|done].
    exfalso. destruct (proj1 Hflag eq_refl) as (r & c & Hfl).
    destruct (Honly r c Hfl) as (Hc & i & -> & Hi).
    apply lookup_lt_is_Some_2 in Hi as [row Hi].
    pose proof Hi as Hi'.
    apply clean_frame_lookup in Hi' as (src & Hsrc & Hkept & ->).
    destruct (Hrow i src Hi) as [H7 H6].
    assert (src ∈ dropna_all (cols <$> raw)) as Hin by (by apply elem_of_dropna_all).
    destruct (Hall src Hin) as [Hlen Hspace].
    destruct Hc as [-> | ->].
    + apply H6 in Hfl. done.
    + apply H7 in Hfl. lia.
Qed.

End WholeTable.

Lemma no_errors_iff_witness :
  let df := clean_frame tidy_upload in
  clean_data_us tidy_upload = Some df
  /\ (snd (generate_visitor_only_us df []) = false
      <-> Forall (fun src =>
                    4 <= length (Py.sub_nondigits
                                   (sub_dot_zero (str (fillna_empty (dl src)))))
                    /\ 32%N ∈ Py.strip (title (str (name_cell (full_name src)))))
                 (dropna_all (cols <$> tidy_upload))).
Proof.
  intros df.
  assert (clean_data_us tidy_upload = Some df) as Hdf by (vm_compute; reflexivity).
  split; [exact Hdf|]. exact (no_errors_iff tidy_upload df [] Hdf).
Defined.

Lemma sort_values_of_sorted_witness :
  StronglySorted keys_le [alpha_row; beta_row]
  /\ sort_values [alpha_row; beta_row] = [alpha_row; beta_row].
Proof.
  assert (StronglySorted keys_le [alpha_row; beta_row]) as Hs.
  { repeat constructor. unfold keys_le. vm_compute. discriminate. }
  split; [exact Hs|]. exact (proj1 (sort_values_of_sorted _) Hs).
Defined.
